(** * optimal_continousrun.py: the search for the optimal user count

    A shallow embedding of [src/optimal_continousrun.py].  The script
    drives an external benchmark ([echoswift]) through a JSON
    configuration document and CSV artifacts on disk.  The embedding
    keeps that structure: a file system holding the documents the script
    reads and writes, the external process as an arbitrary transformer of
    that file system, and the functions of the search and of the
    continuous runner as computations in a small state-and-exception
    monad that also records the calls they make and the lines they
    print.  [update_config] and [main] run in the same monad over a
    record that adds the two lines only they print.

    What the embedding abstracts:
    - numbers are exact rationals, and comparisons are those of Python.
      The one product, of the throughput and the user count, is the
      exact one: this is what numpy computes while the throughput is a
      whole number and neither the user count nor the product exceeds
      2^53 in magnitude.  The wrap-around of an int64 product, the
      rounding of a float64 product and the overflow of a user count
      beyond 64 bits are left out, and what is stated about the value
      of the product is stated within that range;
    - the configuration file is taken to exist, to hold a JSON object
      and to accept writes, so that reading and rewriting it does not
      fail here;
    - a CSV file is what [pandas.read_csv] makes of it, a table of cells
      or an exception;
    - paths are told apart by their structure (directory, kind of file,
      user count), not by their spelling;
    - the two loops that the source leaves unbounded take the number of
      iterations they may run; the interrupt of the continuous runner
      arrives between two iterations, and what is stated about a run
      cut short elsewhere is stated of the prefixes of its record;
    - [main] called with [--incremental] after a search without result
      passes [None] to the continuous runner: the embedding records
      that call and stops there. *)

From Stdlib Require Import ZArith QArith String List Bool Lia.
From Stdlib Require DecimalString DecimalZ DecimalPos.
Import ListNotations.
Open Scope string_scope.
Open Scope list_scope.
Open Scope Z_scope.

(** ** Python values *)

(** The values the script handles as metrics: [None], a number (numpy
    integers and finite floats, read as exact rationals; the rounding of
    float products is not modelled), the float NaN that pandas produces
    for an empty cell, and a [str], which is what pandas returns from a
    column holding text. *)
Inductive pyval : Type :=
| PyNone
| PyNum (q : Q)
| PyNaN
| PyStr (s : string).

(** The exceptions ([Exception] subclasses) that can arise.
    [ValueError] stands for its subclasses too, among them
    [UnicodeDecodeError]. *)
Inductive exn : Type :=
| KeyError
| IndexError
| TypeError
| OSError
| ParserError
| ValueError.

(** [v is None] *)
Definition is_none (v : pyval) : bool :=
  match v with PyNone => true | _ => false end.

(** [bool(v)]: [None], zero and the empty string are falsy; NaN is truthy. *)
Definition truthy (v : pyval) : bool :=
  match v with
  | PyNone => false
  | PyNum q => negb (Qeq_bool q 0)
  | PyNaN => true
  | PyStr s => negb (String.eqb s "")
  end.

(** [v <= bound] for a numeric bound: a comparison with NaN is false, a
    comparison of [None] or a [str] with a number raises [TypeError]. *)
Definition py_le (v : pyval) (bound : Q) : exn + bool :=
  match v with
  | PyNum q => inr (Qle_bool q bound)
  | PyNaN => inr false
  | PyNone => inl TypeError
  | PyStr _ => inl TypeError
  end.

Fixpoint str_repeat (s : string) (n : nat) : string :=
  match n with
  | O => EmptyString
  | S k => String.append s (str_repeat s k)
  end.

(** [v * n] for an [int] n: numeric product, NaN absorbs, a [str] is
    repeated ([n <= 0] gives the empty string), [None * n] raises.  The
    numeric product is exact; numpy's is exact as well for a whole
    number and a product within 2^53, and wraps or rounds beyond. *)
Definition py_mul (v : pyval) (n : Z) : exn + pyval :=
  match v with
  | PyNum q => inr (PyNum (q * inject_Z n))
  | PyNaN => inr PyNaN
  | PyStr s => inr (PyStr (str_repeat s (Z.to_nat n)))
  | PyNone => inl TypeError
  end.

(** ** The validation thresholds (lines 11-22) *)

Definition VALIDATION_CRITERION : list (string * Q) :=
  [("TTFT", 2000%Q); ("latency_per_token", 200%Q); ("latency", 200%Q)].

(** [d[key]] on a dict given as an association list. *)
Fixpoint dict_get {A : Type} (d : list (string * A)) (key : string) : exn + A :=
  match d with
  | [] => inl KeyError
  | (k, v) :: rest => if String.eqb k key then inr v else dict_get rest key
  end.

(** [validate_criterion]: the conjunction short-circuits, and the third
    comparison is commented out in the source, so [latency] is unused. *)
Definition validate_criterion (ttft latency_per_token latency : pyval) : exn + bool :=
  match dict_get VALIDATION_CRITERION "TTFT" with
  | inl e => inl e
  | inr bound_ttft =>
    match py_le ttft bound_ttft with
    | inl e => inl e
    | inr false => inr false
    | inr true =>
      match dict_get VALIDATION_CRITERION "latency_per_token" with
      | inl e => inl e
      | inr bound_lpt => py_le latency_per_token bound_lpt
      end
    end
  end.

(** ** Documents on disk *)

(** The JSON configuration document: the two keys the script uses and
    the remaining keys, which every rewrite carries along. *)
Record Config : Type := mkConfig {
  out_dir : option string;
  user_counts : option (list Z);
  other_keys : list (string * string)
}.

(** [config["user_counts"] = [n]] *)
Definition set_user_counts (config : Config) (n : Z) : Config :=
  {| out_dir := out_dir config;
     user_counts := Some [n];
     other_keys := other_keys config |}.

(** What [pd.read_csv] makes of a file: it raises, or yields a table,
    here the columns by header with the cells of each column. *)
Definition DataFrame : Type := list (string * list pyval).

Inductive csv : Type :=
| Garbled
| Table (df : DataFrame).

(** The tuple returned by the extractor:
    (ttft, latency_per_token, latency, throughput, total_throughput). *)
Definition Metrics : Type := (pyval * pyval * pyval * pyval * pyval)%type.

Definition no_metrics : Metrics := (PyNone, PyNone, PyNone, PyNone, PyNone).

(** [any(metric is None for metric in metrics)] *)
Definition any_none (metrics : Metrics) : bool :=
  let '(a, b, c, d, e) := metrics in
  is_none a || is_none b || is_none c || is_none d || is_none e.

(** The single row of [summary_report.csv]. *)
Record SummaryRow : Type := mkRow {
  row_user_count : Z;
  row_ttft : pyval;
  row_latency : pyval;
  row_latency_per_token : pyval;
  row_throughput : pyval;
  row_total_throughput : pyval;
  row_benchmark_time : pyval
}.

(** The files the script touches, by location.  A directory [d] stands
    for the path [Path(d)]:
    - [disk_config]: the document in the configuration file.  The file
      is taken to exist, to hold a JSON object and to accept writes
      throughout ([main] has loaded it before anything else runs); the
      benchmark may change its contents;
    - [user_folder d n]: [d/<n>_User/avg_Response.csv];
    - [results_dir d]: whether the directory [d/Results] exists;
    - [results_csv d n]: [d/Results/avg_Response_User<n>.csv];
    - [summary_report d]: the rows of [d/Results/summary_report.csv];
    - [writable d]: whether the tree under [d] accepts writes; when it
      does not, creating a directory or a file there raises [OSError]. *)
Record FS : Type := mkFS {
  disk_config : Config;
  user_folder : string -> Z -> option csv;
  results_dir : string -> bool;
  results_csv : string -> Z -> option csv;
  summary_report : string -> option (list SummaryRow);
  writable : string -> bool
}.

(** ** The external benchmark *)

(** One call of [subprocess.run] on [echoswift start --config
    <config_file>] with [capture_output=True, text=True]:
    - the process cannot be launched, and the disk stays as it was;
    - the process is started and [subprocess.run] raises before it
      returns, for instance [UnicodeDecodeError] on output that is no
      text, after the process has left the files as it pleased;
    - the process runs to completion with some exit code, after some
      time, leaving the files as it pleases. *)
Inductive launch_outcome : Type :=
| LaunchError
| RunError (e : exn) (after : FS)
| Completed (returncode : Z) (elapsed : Q) (after : FS).

(** [subprocess.run] raised. *)
Definition run_failed (o : launch_outcome) : Prop :=
  match o with
  | Completed _ _ _ => False
  | _ => True
  end.

(** The benchmark is a black box: its behaviour may depend on how many
    runs came before and on everything on disk. *)
Definition benchmark : Type := nat -> FS -> launch_outcome.

Record CompletedProcess : Type := mkProc { returncode : Z }.

(** ** Observable actions *)

Inductive phase : Type := Probe | Refine.

(** The lines the script prints; formatted values are kept as arguments. *)
Inductive message : Type :=
| MsgErrorRunning (e : exn)
| MsgOutDirMissing
| MsgCopied (d : string) (n : Z)
| MsgSourceNotFound (d : string) (n : Z)
| MsgUnexpected (e : exn)
| MsgArtifactNotFound (d : string) (n : Z)
| MsgExtractError (d : string) (n : Z) (e : exn)
| MsgRunFailed (ph : phase)
| MsgExtractFailed (ph : phase)
| MsgTrial (ph : phase) (n : Z) (metrics : Metrics)
| MsgThresholdMet (n : Z)
| MsgThresholdNotMet (n : Z)
| MsgNoOptimal
| MsgStarting (n : Z)
| MsgContinuousRunFailed
| MsgContinuousExtractFailed
| MsgStoppedByUser
| MsgSummaryGenerated (d : string)
| MsgSummaryError (e : exn).

(** The calls with an effect outside the script, in the order made. *)
Inductive event : Type :=
| EvDump (config : Config)
| EvLaunch (on_disk : Config)
| EvCopy (n : Z)
| EvExtract (d : string) (n : Z) (returned : Metrics)
| EvReport (n : Z) (metrics : Metrics) (benchmark_time : pyval)
| EvSleep (seconds : Z)
| EvPrint (m : message).

(** ** The monad *)

Record World : Type := mkWorld {
  fs : FS;
  runs : nat
}.

(** A computation ends with a value, with an exception, or, for the
    loops that the source leaves unbounded, without having finished in
    the number of iterations it was given. *)
Inductive result (A : Type) : Type :=
| Ok (a : A)
| Raised (e : exn)
| Unfinished.
Arguments Ok {A} a.
Arguments Raised {A} e.
Arguments Unfinished {A}.

Definition M (A : Type) : Type := World -> result A * World * list event.

Definition ret {A : Type} (a : A) : M A := fun w => (Ok a, w, []).

Definition bind {A B : Type} (m : M A) (k : A -> M B) : M B :=
  fun w =>
    match m w with
    | (Ok a, w1, t1) => let '(r, w2, t2) := k a w1 in (r, w2, t1 ++ t2)
    | (Raised e, w1, t1) => (Raised e, w1, t1)
    | (Unfinished, w1, t1) => (Unfinished, w1, t1)
    end.

Definition raise {A : Type} (e : exn) : M A := fun w => (Raised e, w, []).

Definition unfinished {A : Type} : M A := fun w => (Unfinished, w, []).

(** [try: m except Exception as e: handler e] *)
Definition try_except {A : Type} (m : M A) (handler : exn -> M A) : M A :=
  fun w =>
    match m w with
    | (Raised e, w1, t1) => let '(r, w2, t2) := handler e w1 in (r, w2, t1 ++ t2)
    | other => other
    end.

Definition lift {A : Type} (r : exn + A) : M A :=
  match r with
  | inl e => raise e
  | inr a => ret a
  end.

Definition emit (e : event) : M unit := fun w => (Ok tt, w, [e]).

Definition print (m : message) : M unit := emit (EvPrint m).

Definition get_fs : M FS := fun w => (Ok (fs w), w, []).

Declare Scope monad_scope.
Delimit Scope monad_scope with monad.
Notation "x <- m ;; k" := (bind m (fun x => k))
  (at level 100, m at next level, right associativity) : monad_scope.
Notation "' p <- m ;; k" := (bind m (fun x => let p := x in k))
  (at level 100, p pattern, m at next level, right associativity) : monad_scope.
Notation "m ;; k" := (bind m (fun _ => k))
  (at level 100, right associativity) : monad_scope.
Open Scope monad_scope.

(** ** File-system primitives *)

Definition update2 {A : Type} (f : string -> Z -> A) (d : string) (n : Z) (v : A)
  : string -> Z -> A :=
  fun d' n' => if String.eqb d' d && Z.eqb n' n then v else f d' n'.

Definition update1 {A : Type} (f : string -> A) (d : string) (v : A) : string -> A :=
  fun d' => if String.eqb d' d then v else f d'.

(** [json.load] of the configuration file. *)
Definition json_load : M Config := fun w => (Ok (disk_config (fs w)), w, []).

(** [json.dump(config, file, indent=4)] into the configuration file. *)
Definition json_dump (config : Config) : M unit :=
  fun w =>
    (Ok tt,
     {| fs := {| disk_config := config;
                 user_folder := user_folder (fs w);
                 results_dir := results_dir (fs w);
                 results_csv := results_csv (fs w);
                 summary_report := summary_report (fs w);
                 writable := writable (fs w) |};
        runs := runs w |},
     [EvDump config]).

(** [(Path(d) / "Results").mkdir(parents=True, exist_ok=True)] *)
Definition mkdir_results (d : string) : M unit :=
  fun w =>
    if results_dir (fs w) d then (Ok tt, w, [])
    else if writable (fs w) d then
      (Ok tt,
       {| fs := {| disk_config := disk_config (fs w);
                   user_folder := user_folder (fs w);
                   results_dir := update1 (results_dir (fs w)) d true;
                   results_csv := results_csv (fs w);
                   summary_report := summary_report (fs w);
                   writable := writable (fs w) |};
          runs := runs w |},
       [])
    else (Raised OSError, w, []).

(** [shutil.copy(src, Path(d) / "Results" / f"avg_Response_User{n}.csv")] *)
Definition shutil_copy (src : csv) (d : string) (n : Z) : M unit :=
  fun w =>
    if results_dir (fs w) d && writable (fs w) d then
      (Ok tt,
       {| fs := {| disk_config := disk_config (fs w);
                   user_folder := user_folder (fs w);
                   results_dir := results_dir (fs w);
                   results_csv := update2 (results_csv (fs w)) d n (Some src);
                   summary_report := summary_report (fs w);
                   writable := writable (fs w) |};
          runs := runs w |},
       [])
    else (Raised OSError, w, []).

(** [df.to_csv(Path(d) / "Results" / "summary_report.csv", index=False)]:
    the file is opened for writing, so earlier contents are dropped. *)
Definition to_csv (rows : list SummaryRow) (d : string) : M unit :=
  fun w =>
    if results_dir (fs w) d && writable (fs w) d then
      (Ok tt,
       {| fs := {| disk_config := disk_config (fs w);
                   user_folder := user_folder (fs w);
                   results_dir := results_dir (fs w);
                   results_csv := results_csv (fs w);
                   summary_report := update1 (summary_report (fs w)) d (Some rows);
                   writable := writable (fs w) |};
          runs := runs w |},
       [])
    else (Raised OSError, w, []).

(** [pd.read_csv(path)] *)
Definition read_csv (file : csv) : exn + DataFrame :=
  match file with
  | Garbled => inl ParserError
  | Table df => inr df
  end.

(** [df[column].iloc[0]] *)
Definition iloc0 (df : DataFrame) (column : string) : exn + pyval :=
  match dict_get df column with
  | inl e => inl e
  | inr [] => inl IndexError
  | inr (cell :: _) => inr cell
  end.

(** [config.get("out_dir")] followed by the test [if not out_dir]:
    [None] when the key is absent or its value is empty. *)
Definition get_out_dir (config : Config) : option string :=
  match out_dir config with
  | None => None
  | Some d => if String.eqb d "" then None else Some d
  end.

(** ** The functions of the script *)

Section Script.

Variable echoswift : benchmark.

(** [subprocess.run(['echoswift', 'start', '--config', config_file],
    capture_output=True, text=True)], timed by the two [time.time()]
    calls around it.  Without [check=True] the exit code raises nothing. *)
Definition subprocess_run : M (CompletedProcess * Q) :=
  fun w =>
    match echoswift (runs w) (fs w) with
    | LaunchError =>
        (Raised OSError, {| fs := fs w; runs := S (runs w) |},
         [EvLaunch (disk_config (fs w))])
    | RunError e after =>
        (Raised e, {| fs := after; runs := S (runs w) |},
         [EvLaunch (disk_config (fs w))])
    | Completed rc elapsed after =>
        (Ok ({| returncode := rc |}, elapsed), {| fs := after; runs := S (runs w) |},
         [EvLaunch (disk_config (fs w))])
    end.

(** Lines 24-39. *)
Definition run_benchmark : M (option CompletedProcess * pyval) :=
  try_except
    ('(result, run_time) <- subprocess_run ;;
     ret (Some result, PyNum run_time))
    (fun e => print (MsgErrorRunning e) ;; ret (None, PyNone)).

(** Lines 41-68. *)
Definition copy_avg_response (user_count : Z) : M unit :=
  emit (EvCopy user_count) ;;
  try_except
    (config <- json_load ;;
     match get_out_dir config with
     | None => print MsgOutDirMissing
     | Some d =>
         mkdir_results d ;;
         f <- get_fs ;;
         match user_folder f d user_count with
         | Some src =>
             shutil_copy src d user_count ;;
             print (MsgCopied d user_count)
         | None => print (MsgSourceNotFound d user_count)
         end
     end)
    (fun e => print (MsgUnexpected e)).

(** Lines 70-90; [result_dir] is the directory whose [Results] folder is
    read. *)
Definition extract_metrics_from_avg_response (result_dir : string) (user_count : Z)
  : M Metrics :=
  metrics <-
    try_except
      (f <- get_fs ;;
       match results_csv f result_dir user_count with
       | Some file =>
           df <- lift (read_csv file) ;;
           ttft <- lift (iloc0 df "TTFT(ms)") ;;
           latency_per_token <- lift (iloc0 df "latency_per_token(ms/token)") ;;
           latency <- lift (iloc0 df "latency(ms)") ;;
           throughput <- lift (iloc0 df "throughput(tokens/second)") ;;
           total_throughput <- lift (py_mul throughput user_count) ;;
           ret (ttft, latency_per_token, latency, throughput, total_throughput)
       | None =>
           print (MsgArtifactNotFound result_dir user_count) ;;
           ret no_metrics
       end)
      (fun e =>
         print (MsgExtractError result_dir user_count e) ;;
         ret no_metrics) ;;
  emit (EvExtract result_dir user_count metrics) ;;
  ret metrics.

(** Lines 168-192.  [metrics[2]] is the latency and [metrics[1]] the
    latency per token. *)
Definition generate_summary_report (optimal_user_count : Z) (metrics : Metrics)
    (benchmark_time : pyval) : M unit :=
  emit (EvReport optimal_user_count metrics benchmark_time) ;;
  try_except
    (config <- json_load ;;
     d <- lift (match out_dir config with
                | Some d => inr d
                | None => inl KeyError
                end) ;;
     mkdir_results d ;;
     let '(m0, m1, m2, m3, m4) := metrics in
     to_csv [ {| row_user_count := optimal_user_count;
                 row_ttft := m0;
                 row_latency := m2;
                 row_latency_per_token := m1;
                 row_throughput := m3;
                 row_total_throughput := m4;
                 row_benchmark_time := benchmark_time |} ] d ;;
     print (MsgSummaryGenerated d))
    (fun e => print (MsgSummaryError e)).

(** Lines 92-132.  The [while low < high] loop, returning the bounds it
    ends with; [fuel] bounds the number of iterations. *)
Fixpoint binary_search_loop (fuel : nat) (low high : Z) (result_dir : string)
  : M (Z * Z) :=
  if low <? high then
    match fuel with
    | O => unfinished
    | S fuel' =>
        let mid := (low + high) / 2 in
        config <- json_load ;;
        json_dump (set_user_counts config mid) ;;
        '(result, runtime) <- run_benchmark ;;
        match result with
        | None => print (MsgRunFailed Refine) ;; ret (low, high)
        | Some _ =>
            copy_avg_response mid ;;
            metrics <- extract_metrics_from_avg_response result_dir mid ;;
            if any_none metrics then
              print (MsgExtractFailed Refine) ;; ret (low, high)
            else
              let '(ttft, latency_per_token, latency, throughput, total_throughput) :=
                metrics in
              print (MsgTrial Refine mid metrics) ;;
              ok <- lift (validate_criterion ttft latency_per_token latency) ;;
              if ok then binary_search_loop fuel' (mid + 1) high result_dir
              else binary_search_loop fuel' low mid result_dir
        end
    end
  else ret (low, high).

(** The interval [high - low] shrinks with every iteration that goes on,
    so [high - low] iterations are enough; the function returns
    [low - 1] for the [low] the loop ends with. *)
Definition binary_search_user_count (low high : Z) (result_dir : string) : M Z :=
  '(low', _) <- binary_search_loop (Z.to_nat (high - low)) low high result_dir ;;
  ret (low' - 1).

(** The local variables of [adjust_user_count] that its loop updates. *)
Record probe_state : Type := mkProbe {
  config : Config;
  user_count : Z;
  previous_user_count : Z;
  optimal_user_count : Z;
  final_metrics : option Metrics;
  benchmark_time : pyval
}.

(** How the [while True] loop of lines 217-251 is left: by one of the
    two [break]s after a failure, or through the branch of a rejected
    count, which goes on to the binary search. *)
Inductive probe_exit : Type :=
| Broke (st : probe_state)
| ThresholdNotMet (st : probe_state).

Definition increment : Z := 10.

(** Lines 217-248: the loop up to the rejected count.  The source does
    not bound it; [fuel] is the number of iterations allowed. *)
Fixpoint adjust_user_count_loop (fuel : nat) (result_dir : string) (st : probe_state)
  : M probe_exit :=
  match fuel with
  | O => unfinished
  | S fuel' =>
      let config := set_user_counts (config st) (user_count st) in
      json_dump config ;;
      '(result, benchmark_time) <- run_benchmark ;;
      let st := {| config := config;
                   user_count := user_count st;
                   previous_user_count := previous_user_count st;
                   optimal_user_count := optimal_user_count st;
                   final_metrics := final_metrics st;
                   benchmark_time := benchmark_time |} in
      match result with
      | None => print (MsgRunFailed Probe) ;; ret (Broke st)
      | Some _ =>
          copy_avg_response (user_count st) ;;
          metrics <- extract_metrics_from_avg_response result_dir (user_count st) ;;
          if any_none metrics then
            print (MsgExtractFailed Probe) ;; ret (Broke st)
          else
            let '(ttft, latency_per_token, latency, throughput, total_throughput) :=
              metrics in
            print (MsgTrial Probe (user_count st) metrics) ;;
            ok <- lift (validate_criterion ttft latency_per_token latency) ;;
            if ok then
              print (MsgThresholdMet (user_count st)) ;;
              adjust_user_count_loop fuel' result_dir
                {| config := config;
                   user_count := user_count st + increment;
                   previous_user_count := user_count st;
                   optimal_user_count := user_count st;
                   final_metrics := Some metrics;
                   benchmark_time := benchmark_time |}
            else
              print (MsgThresholdNotMet (user_count st)) ;;
              ret (ThresholdNotMet st)
      end
  end.

(** Lines 194-259.  The result is [None] or the optimal user count. *)
Definition adjust_user_count (fuel : nat) : M (option Z) :=
  document <- json_load ;;
  match get_out_dir document with
  | None => print MsgOutDirMissing ;; ret None
  | Some d =>
      mkdir_results d ;;
      exit <- adjust_user_count_loop fuel d
                {| config := document;
                   user_count := 56;
                   previous_user_count := 0;
                   optimal_user_count := 0;
                   final_metrics := None;
                   benchmark_time := PyNum 0 |} ;;
      st <- match exit with
            | Broke st => ret st
            | ThresholdNotMet st =>
                optimal <- binary_search_user_count
                             (previous_user_count st) (user_count st) d ;;
                metrics <- extract_metrics_from_avg_response d optimal ;;
                ret {| config := config st;
                       user_count := user_count st;
                       previous_user_count := previous_user_count st;
                       optimal_user_count := optimal;
                       final_metrics := Some metrics;
                       benchmark_time := benchmark_time st |}
            end ;;
      match final_metrics st with
      | Some metrics =>
          if 0 <? optimal_user_count st then
            generate_summary_report (optimal_user_count st) metrics (benchmark_time st) ;;
            ret (Some (optimal_user_count st))
          else print MsgNoOptimal ;; ret None
      | None => print MsgNoOptimal ;; ret None
      end
  end.

(** Whether an iteration of the continuous loop goes on to the next. *)
Inductive loop_ctl : Type := Continue | Break.

(** Lines 143-164: one iteration of the [while True] loop.  The tuple
    is unpacked as (ttft, latency, latency_per_token, ...) in the source
    and passed on as a list in the same positions. *)
Definition continuous_iteration (optimal_user_count : Z) (result_dir : string)
  : M loop_ctl :=
  config <- json_load ;;
  json_dump (set_user_counts config optimal_user_count) ;;
  '(output, benchmark_time) <- run_benchmark ;;
  match output with
  | None => print MsgContinuousRunFailed ;; ret Break
  | Some _ =>
      copy_avg_response optimal_user_count ;;
      '(ttft, latency, latency_per_token, throughput, total_throughput) <-
        extract_metrics_from_avg_response result_dir optimal_user_count ;;
      if negb (truthy ttft && truthy latency && truthy latency_per_token
               && truthy throughput) then
        print MsgContinuousExtractFailed ;; ret Break
      else
        generate_summary_report optimal_user_count
          (ttft, latency, latency_per_token, throughput, total_throughput)
          benchmark_time ;;
        emit (EvSleep 5) ;;
        ret Continue
  end.

(** Lines 134-166.  The loop has no exit of its own while trials
    succeed; [interrupt_after] is the number of completed iterations
    after which the operator's interrupt arrives. *)
Fixpoint continuous_loop (interrupt_after : nat) (optimal_user_count : Z)
    (result_dir : string) : M unit :=
  match interrupt_after with
  | O => print MsgStoppedByUser
  | S k =>
      ctl <- continuous_iteration optimal_user_count result_dir ;;
      match ctl with
      | Break => ret tt
      | Continue => continuous_loop k optimal_user_count result_dir
      end
  end.

Definition run_benchmark_with_incremental_requests (interrupt_after : nat)
    (optimal_user_count : Z) (result_dir : string) : M unit :=
  print (MsgStarting optimal_user_count) ;;
  continuous_loop interrupt_after optimal_user_count result_dir.

End Script.

(** ** Reading the record of a run *)

(** The three parts of a finished run. *)
Definition outcome {A : Type} (run : result A * World * list event) : result A :=
  fst (fst run).

Definition world_of {A : Type} (run : result A * World * list event) : World :=
  snd (fst run).

Definition events_of {A : Type} (run : result A * World * list event) : list event :=
  snd run.

(** The configuration documents the benchmark found on disk, one per
    launch, in order. *)
Fixpoint launched (evs : list event) : list Config :=
  match evs with
  | [] => []
  | EvLaunch c :: rest => c :: launched rest
  | _ :: rest => launched rest
  end.

(** The tuples returned by the extractor, call by call. *)
Fixpoint extracted (evs : list event) : list Metrics :=
  match evs with
  | [] => []
  | EvExtract _ _ metrics :: rest => metrics :: extracted rest
  | _ :: rest => extracted rest
  end.

(** The counts announced by "Threshold met for ... users.", in order. *)
Fixpoint thresholds_met (evs : list event) : list Z :=
  match evs with
  | [] => []
  | EvPrint (MsgThresholdMet n) :: rest => n :: thresholds_met rest
  | _ :: rest => thresholds_met rest
  end.

(** The counts announced by "Threshold not met for ... users.". *)
Fixpoint thresholds_not_met (evs : list event) : list Z :=
  match evs with
  | [] => []
  | EvPrint (MsgThresholdNotMet n) :: rest => n :: thresholds_not_met rest
  | _ :: rest => thresholds_not_met rest
  end.

Definition is_report (e : event) : bool :=
  match e with EvReport _ _ _ => true | _ => false end.

Definition is_sleep (e : event) : bool :=
  match e with EvSleep _ => true | _ => false end.

(** The events of the helpers [run_benchmark] (after the launch itself),
    [copy_avg_response] and [extract_metrics_from_avg_response]. *)
Definition helper_event (e : event) : bool :=
  match e with
  | EvCopy _ => true
  | EvExtract _ _ _ => true
  | EvPrint (MsgErrorRunning _) => true
  | EvPrint MsgOutDirMissing => true
  | EvPrint (MsgCopied _ _) => true
  | EvPrint (MsgSourceNotFound _ _) => true
  | EvPrint (MsgUnexpected _) => true
  | EvPrint (MsgArtifactNotFound _ _) => true
  | EvPrint (MsgExtractError _ _ _) => true
  | _ => false
  end.

(** Events that neither rewrite the configuration nor launch the
    benchmark. *)
Definition quiet_event (e : event) : bool :=
  match e with
  | EvDump _ => false
  | EvLaunch _ => false
  | _ => true
  end.

(** The events right after a launch belong to the trial at [n]: the
    failure of the launch is printed, or the artifact is collected, and
    then for [n]. *)
Definition collects_for (n : Z) (q : list event) : Prop :=
  match q with
  | [] => False
  | EvCopy m :: _ => m = n
  | _ => True
  end.

(** The dispatch discipline: every launch comes directly after a rewrite
    of the configuration, finds on disk exactly the document just
    written, that document's [user_counts] is a one-element list [[n]]
    with [P n], and when the trial goes on to collect its artifact it
    does so for that same [n]. *)
Fixpoint dispatched (P : Z -> Prop) (evs : list event) : Prop :=
  match evs with
  | [] => True
  | EvLaunch _ :: _ => False
  | EvDump c :: rest =>
      match rest with
      | EvLaunch on_disk :: rest' =>
          on_disk = c
          /\ (exists n, user_counts c = Some [n] /\ P n
                        /\ match rest' with
                           | EvCopy m :: _ => m = n
                           | _ => True
                           end)
          /\ dispatched P rest'
      | _ => dispatched P rest
      end
  | _ :: rest => dispatched P rest
  end.

(** ** Verdicts, reports and trials *)

(** Whether the validator accepts a metrics tuple. *)
Definition accepts (metrics : Metrics) : exn + bool :=
  let '(ttft, latency_per_token, latency, _, _) := metrics in
  validate_criterion ttft latency_per_token latency.

(** A trial of the search, in either phase, was accepted: its metrics
    were printed and pass the validator. *)
Definition some_trial_accepted (evs : list event) : Prop :=
  exists ph n metrics,
    In (EvPrint (MsgTrial ph n metrics)) evs /\ accepts metrics = inr true.

(** A trial of the search ended on the extractor's failure value. *)
Definition extraction_failed (evs : list event) : Prop :=
  exists ph, In (EvPrint (MsgExtractFailed ph)) evs.

(** [all([ttft, latency, latency_per_token, throughput])] on the first
    four components of the tuple. *)
Definition first_four_truthy (metrics : Metrics) : bool :=
  let '(a, b, c, d, _) := metrics in
  truthy a && truthy b && truthy c && truthy d.


(** The row that [generate_summary_report] assembles. *)
Definition summary_row (optimal_user_count : Z) (metrics : Metrics)
    (benchmark_time : pyval) : SummaryRow :=
  let '(m0, m1, m2, m3, m4) := metrics in
  {| row_user_count := optimal_user_count;
     row_ttft := m0;
     row_latency := m2;
     row_latency_per_token := m1;
     row_throughput := m3;
     row_total_throughput := m4;
     row_benchmark_time := benchmark_time |}.

(** The one line [generate_summary_report] prints. *)
Definition report_message (m : message) : Prop :=
  match m with
  | MsgSummaryGenerated _ => True
  | MsgSummaryError _ => True
  | _ => False
  end.

(** The start of the probe: 56 users, no count accepted yet. *)
Definition initial_probe_state (document : Config) : probe_state :=
  {| config := document;
     user_count := 56;
     previous_user_count := 0;
     optimal_user_count := 0;
     final_metrics := None;
     benchmark_time := PyNum 0 |}.

(** The end of [adjust_user_count] (lines 253-259) from the variables
    [st]: the report is generated and the count returned when there are
    final metrics and the count is positive; otherwise the result is
    [None] and nothing is reported. *)
Definition concluded (st : probe_state) (res : result (option Z))
    (evs : list event) : Prop :=
  match final_metrics st with
  | Some metrics =>
      if 0 <? optimal_user_count st then
        res = Ok (Some (optimal_user_count st))
        /\ exists m,
             report_message m
             /\ evs = [EvReport (optimal_user_count st) metrics (benchmark_time st);
                       EvPrint m]
      else res = Ok None /\ evs = [EvPrint MsgNoOptimal]
  | None => res = Ok None /\ evs = [EvPrint MsgNoOptimal]
  end.

(** The trial at [n] started in world [w] ran to the end of the
    extraction: the benchmark completed in time [bt], the artifact was
    collected, and the extractor returned [metrics], all of which left
    the world [w1]. *)
Definition measured (echoswift : benchmark) (d : string) (n : Z) (w : World)
    (bt : pyval) (metrics : Metrics) (w1 : World) : Prop :=
  exists rc elapsed after qc qe,
    echoswift (runs w) (fs w) = Completed rc elapsed after
    /\ bt = PyNum elapsed
    /\ copy_avg_response n {| fs := after; runs := S (runs w) |} = (Ok tt, w1, qc)
    /\ extract_metrics_from_avg_response d n w1 = (Ok metrics, w1, qe).

(** ** Well-behaved benchmarks *)

(** The directory [d] is the configured, non-empty [out_dir] and accepts
    writes. *)
Definition steady (d : string) (f : FS) : Prop :=
  get_out_dir (disk_config f) = Some d /\ writable f d = true.

(** The first row of the table is numeric, with the given time to first
    token and latency per token. *)
Definition numeric_row (df : DataFrame) (ttft lpt : Q) : Prop :=
  iloc0 df "TTFT(ms)" = inr (PyNum ttft)
  /\ iloc0 df "latency_per_token(ms/token)" = inr (PyNum lpt)
  /\ (exists latency, iloc0 df "latency(ms)" = inr (PyNum latency))
  /\ (exists throughput, iloc0 df "throughput(tokens/second)" = inr (PyNum throughput)).

(** The benchmark realises the acceptance function [acc] under [d]:
    launched with [user_counts = [n]] it completes, leaves [d]
    configured and writable, and writes for [n] an artifact whose
    numbers meet the thresholds exactly when [acc n]. *)
Definition realises (echoswift : benchmark) (acc : Z -> bool) (d : string) : Prop :=
  forall k f n,
    steady d f ->
    user_counts (disk_config f) = Some [n] ->
    exists rc elapsed f' df ttft lpt,
      echoswift k f = Completed rc elapsed f'
      /\ steady d f'
      /\ user_folder f' d n = Some (Table df)
      /\ numeric_row df ttft lpt
      /\ Qle_bool ttft 2000 && Qle_bool lpt 200 = acc n.

(** ** Scenarios *)

Definition metrics_table (ttft lpt latency throughput : pyval) : csv :=
  Table [("TTFT(ms)", [ttft]);
         ("latency_per_token(ms/token)", [lpt]);
         ("latency(ms)", [latency]);
         ("throughput(tokens/second)", [throughput])].

Definition put_user_folder (f : FS) (d : string) (n : Z) (file : csv) : FS :=
  {| disk_config := disk_config f;
     user_folder := update2 (user_folder f) d n (Some file);
     results_dir := results_dir f;
     results_csv := results_csv f;
     summary_report := summary_report f;
     writable := writable f |}.

(** A benchmark that reads the load [n] from the configuration, exits
    with code [rc] after one second, and leaves [artifact n], if any, in
    the user folder. *)
Definition synthetic (rc : Z) (artifact : Z -> option csv) : benchmark :=
  fun _ f =>
    match out_dir (disk_config f), user_counts (disk_config f) with
    | Some d, Some [n] =>
        match artifact n with
        | Some file => Completed rc 1 (put_user_folder f d n file)
        | None => Completed rc 1 f
        end
    | _, _ => Completed rc 1 f
    end.

(** Artifacts within the thresholds exactly for the accepted counts. *)
Definition threshold_artifact (acc : Z -> bool) (n : Z) : option csv :=
  Some (metrics_table (PyNum (if acc n then 1500 else 2500))
                      (PyNum 40) (PyNum 900) (PyNum 25)).

(** A benchmark whose binary is missing. *)
Definition missing_binary : benchmark := fun _ _ => LaunchError.

(** A benchmark that runs, leaves its artifact in the user folder, and
    writes output that is no text: [subprocess.run] raises
    [UnicodeDecodeError]. *)
Definition undecodable_output : benchmark :=
  fun _ f =>
    match out_dir (disk_config f), user_counts (disk_config f) with
    | Some d, Some [n] =>
        RunError ValueError
          (put_user_folder f d n
             (metrics_table (PyNum 1500) (PyNum 40) (PyNum 900) (PyNum 25)))
    | _, _ => RunError ValueError f
    end.

Definition empty_fs (c : Config) : FS :=
  {| disk_config := c;
     user_folder := fun _ _ => None;
     results_dir := fun _ => false;
     results_csv := fun _ _ => None;
     summary_report := fun _ => None;
     writable := fun _ => true |}.

Definition fresh_world : World :=
  {| fs := empty_fs {| out_dir := Some "out"; user_counts := None; other_keys := [] |};
     runs := 0 |}.

(** The configuration rewritten for a trial with 56 users, before the
    launch. *)
Definition dispatched_world : World :=
  {| fs := empty_fs {| out_dir := Some "out"; user_counts := Some [56];
                       other_keys := [] |};
     runs := 0 |}.

(** Accepted at 56, nothing produced at 66. *)
Definition artifact_lost_at_66 (n : Z) : option csv :=
  if n =? 66 then None else threshold_artifact (fun n => n <? 86) n.

(** Rejected everywhere, and nothing produced at 28. *)
Definition artifact_lost_at_28 (n : Z) : option csv :=
  if n =? 28 then None else threshold_artifact (fun _ => false) n.

(** Accepted at 56, rejected from 66 on, and nothing produced at 61. *)
Definition artifact_lost_at_61 (n : Z) : option csv :=
  if n =? 61 then None else threshold_artifact (fun n => n <? 66) n.

(** Artifacts reporting a throughput of zero. *)
Definition idle_artifact (n : Z) : option csv :=
  Some (metrics_table (PyNum 1500) (PyNum 40) (PyNum 900) (PyNum 0)).


(** A results folder that still holds the copy of an earlier run for 40
    users, while the user folder of the present run is empty. *)
Definition stale_copy_world : World :=
  {| fs := {| disk_config := {| out_dir := Some "out"; user_counts := Some [40];
                                other_keys := [] |};
              user_folder := fun _ _ => None;
              results_dir := fun _ => true;
              results_csv := update2 (fun _ _ => None) "out" 40
                               (Some (metrics_table (PyNum 1200) (PyNum 35)
                                                    (PyNum 800) (PyNum 30)));
              summary_report := fun _ => None;
              writable := fun _ => true |};
     runs := 0 |}.

(** A user folder with the artifact of 40 users, and an older copy of
    another run in the results folder. *)
Definition fresh_artifact_world : World :=
  {| fs := {| disk_config := {| out_dir := Some "out"; user_counts := Some [40];
                                other_keys := [] |};
              user_folder := update2 (fun _ _ => None) "out" 40
                               (Some (metrics_table (PyNum 1500) (PyNum 40)
                                                    (PyNum 900) (PyNum 25)));
              results_dir := fun _ => false;
              results_csv := update2 (fun _ _ => None) "out" 40
                               (Some (metrics_table (PyNum 1200) (PyNum 35)
                                                    (PyNum 800) (PyNum 30)));
              summary_report := fun _ => None;
              writable := fun _ => true |};
     runs := 0 |}.

(** What holds of a line printed for a trial, in a run that ended with
    [res]: no metric of the trial is [None], and when the validator
    cannot compare the metrics, its exception ended the run there. *)
Definition trial_line_ends_run {A : Type} (res : result A) (evs : list event)
    (ph : phase) (n : Z) (m : Metrics) : Prop :=
  any_none m = false
  /\ forall e, accepts m = inl e ->
       res = Raised e /\ exists pre, evs = pre ++ [EvPrint (MsgTrial ph n m)].

(** The launches, reports and sleeps in a record keep step: at every
    point there are at most as many sleeps as reports, at most as many
    reports as launches, and at most one launch more than sleeps. *)
Definition in_step (evs : list event) : Prop :=
  (length (filter is_sleep evs) <= length (filter is_report evs))%nat
  /\ (length (filter is_report evs) <= length (launched evs))%nat
  /\ (length (launched evs) <= S (length (filter is_sleep evs)))%nat.

(** ** The binary search by outcomes *)

(** How a trial of the search ends, as the specification has it. *)
Inductive trial_outcome : Type :=
| Accepted
| Rejected
| Failed.

(** The binary search in the words of its specification, driven by the
    outcomes of its trials in order: while [low < high] a trial is run
    at the midpoint; accepted, the search goes on above it; rejected,
    it goes on below, the midpoint being the new upper bound; a failure
    ends the search.  The result is the counts tried and [low - 1] for
    the lower bound reached.  There is no result when the outcomes do
    not fit the search: when they run out while [low < high], or when
    some are left over after the search has ended. *)
Fixpoint bisection (outcomes : list trial_outcome) (low high : Z)
  : option (list Z * Z) :=
  if low <? high then
    let mid := (low + high) / 2 in
    match outcomes with
    | [] => None
    | Accepted :: rest =>
        match bisection rest (mid + 1) high with
        | Some (tried, v) => Some (mid :: tried, v)
        | None => None
        end
    | Rejected :: rest =>
        match bisection rest low mid with
        | Some (tried, v) => Some (mid :: tried, v)
        | None => None
        end
    | Failed :: rest =>
        match rest with
        | [] => Some ([mid], low - 1)
        | _ :: _ => None
        end
    end
  else
    match outcomes with
    | [] => Some ([], low - 1)
    | _ :: _ => None
    end.

(** The outcomes of the trials of a run, read off its record: a failure
    is the line printed for a failed run or a failed extraction; a
    verdict is that of the validator on the metrics printed for the
    trial.  A trial on which the validator raised has no outcome. *)
Fixpoint trial_outcomes (evs : list event) : list trial_outcome :=
  match evs with
  | [] => []
  | EvPrint (MsgRunFailed _) :: rest => Failed :: trial_outcomes rest
  | EvPrint (MsgExtractFailed _) :: rest => Failed :: trial_outcomes rest
  | EvPrint (MsgTrial _ _ metrics) :: rest =>
      match accepts metrics with
      | inr true => Accepted :: trial_outcomes rest
      | inr false => Rejected :: trial_outcomes rest
      | inl _ => trial_outcomes rest
      end
  | _ :: rest => trial_outcomes rest
  end.

(** ** The entry point *)

(** [d[key] = v] on a dict given as an association list: the value of
    an existing key is replaced in place, a new key goes to the end. *)
Fixpoint dict_set {A : Type} (d : list (string * A)) (key : string) (v : A)
  : list (string * A) :=
  match d with
  | [] => [(key, v)]
  | (k, x) :: rest =>
      if String.eqb k key then (k, v) :: rest else (k, x) :: dict_set rest key v
  end.

(** The JSON text of an integer, and its reading. *)
Definition json_int (n : Z) : string :=
  DecimalString.NilZero.string_of_int (Z.to_int n).

Definition json_read_int (text : string) : option Z :=
  option_map Z.of_int (DecimalString.NilZero.int_of_string text).

(** Lines 270-271: [config["optimal_user_count"] = n] and
    [config["user_counts"] = [n]]. *)
Definition set_optimal_user_count (config : Config) (n : Z) : Config :=
  {| out_dir := out_dir config;
     user_counts := Some [n];
     other_keys := dict_set (other_keys config) "optimal_user_count" (json_int n) |}.

(** The two lines printed by [update_config] and [main] only. *)
Inductive main_message : Type :=
| MsgKeepingConfiguration
| MsgCouldNotDetermine.

(** The record of a run of [main]: the events of the functions above,
    and the lines of its own. *)
Inductive main_event : Type :=
| Inner (e : event)
| EvPrintMain (m : main_message).

Definition Main (A : Type) : Type := World -> result A * World * list main_event.

Definition inner {A : Type} (m : M A) : Main A :=
  fun w => let '(r, w', evs) := m w in (r, w', map Inner evs).

Definition main_ret {A : Type} (a : A) : Main A := fun w => (Ok a, w, []).

Definition main_bind {A B : Type} (m : Main A) (k : A -> Main B) : Main B :=
  fun w =>
    match m w with
    | (Ok a, w1, t1) => let '(r, w2, t2) := k a w1 in (r, w2, t1 ++ t2)
    | (Raised e, w1, t1) => (Raised e, w1, t1)
    | (Unfinished, w1, t1) => (Unfinished, w1, t1)
    end.

Definition main_print (m : main_message) : Main unit :=
  fun w => (Ok tt, w, [EvPrintMain m]).

Declare Scope main_scope.
Delimit Scope main_scope with main.
Notation "x <- m ;; k" := (main_bind m (fun x => k))
  (at level 100, m at next level, right associativity) : main_scope.
Notation "m ;; k" := (main_bind m (fun _ => k))
  (at level 100, right associativity) : main_scope.

(** Lines 262-276. *)
Definition update_config (optimal_user_count : option Z) : Main unit :=
  (config <- inner json_load ;;
   config <- match optimal_user_count with
             | Some n =>
                 if 0 <? n then main_ret (set_optimal_user_count config n)
                 else main_print MsgKeepingConfiguration ;; main_ret config
             | None => main_print MsgKeepingConfiguration ;; main_ret config
             end ;;
   inner (json_dump config))%main.

(** How a run of [main] ends: it returns, or it calls the continuous
    runner with [None] for the count, where this model stops. *)
Inductive main_exit : Type :=
| Returned
| RunnerCalledWithNone.

(** Lines 279-304, with the flag [--incremental] as argument. *)
Definition main (echoswift : benchmark) (incremental : bool)
    (fuel interrupt_after : nat) : Main main_exit :=
  (config <- inner json_load ;;
   match get_out_dir config with
   | None => inner (print MsgOutDirMissing) ;; main_ret Returned
   | Some out_dir =>
       inner (mkdir_results out_dir) ;;
       optimal_user_count <- inner (adjust_user_count echoswift fuel) ;;
       match optimal_user_count with
       | Some _ => update_config optimal_user_count
       | None => main_ret tt
       end ;;
       if incremental then
         match optimal_user_count with
         | Some n =>
             inner (run_benchmark_with_incremental_requests echoswift
                      interrupt_after n out_dir) ;;
             main_ret Returned
         | None => main_ret RunnerCalledWithNone
         end
       else main_print MsgCouldNotDetermine ;; main_ret Returned
   end)%main.

(** The three parts of a finished run of [main]. *)
Definition main_outcome {A : Type} (run : result A * World * list main_event)
  : result A := fst (fst run).

Definition main_world {A : Type} (run : result A * World * list main_event)
  : World := snd (fst run).

Definition main_events {A : Type} (run : result A * World * list main_event)
  : list main_event := snd run.

(** A configuration with further keys, one of them an earlier optimum. *)
Definition tuned_world : World :=
  {| fs := empty_fs {| out_dir := Some "out";
                       user_counts := Some [56];
                       other_keys := [("model", "llama"); ("optimal_user_count", "12");
                                      ("max_requests", "5")] |};
     runs := 0 |}.

(** * Properties *)

(** ** Tactics for running the monad *)

Ltac unfold_monad :=
  unfold bind, try_except, ret, raise, lift, emit, print, get_fs,
    unfinished, json_load, json_dump in *.

(** ** The validator *)

Lemma validate_criterion_numeric (t l : Q) (x : pyval) :
  validate_criterion (PyNum t) (PyNum l) x = inr (Qle_bool t 2000 && Qle_bool l 200).
Proof.
  unfold validate_criterion; simpl.
  destruct (Qle_bool t 2000); reflexivity.
Qed.

Lemma validate_criterion_ignores_latency (a b x y : pyval) :
  validate_criterion a b x = validate_criterion a b y.
Proof. reflexivity. Qed.

(** C3.  On numbers [t] and [l] the validator answers, and answers true
    exactly when [t <= 2000] and [l <= 200]; its third argument, of any
    kind, changes nothing; the threshold table holds a bound of 200 for
    the latency, yet a latency above it is accepted. *)
Theorem validate_criterion_two_thresholds (t l : Q) (x : pyval) :
  validate_criterion (PyNum t) (PyNum l) x = inr (Qle_bool t 2000 && Qle_bool l 200)
  /\ (validate_criterion (PyNum t) (PyNum l) x = inr true
      <-> (t <= 2000)%Q /\ (l <= 200)%Q)
  /\ (forall a b y, validate_criterion a b x = validate_criterion a b y)
  /\ dict_get VALIDATION_CRITERION "latency" = inr 200%Q
  /\ validate_criterion (PyNum 2000) (PyNum 200) (PyNum 201) = inr true.
Proof.
  split; [apply validate_criterion_numeric|].
  split.
  - rewrite validate_criterion_numeric.
    split.
    + intros H. injection H as H.
      apply andb_true_iff in H. destruct H as [Ht Hl].
      split; apply Qle_bool_iff; assumption.
    + intros [Ht Hl].
      apply Qle_bool_iff in Ht. apply Qle_bool_iff in Hl.
      rewrite Ht, Hl. reflexivity.
  - split; [intros; apply validate_criterion_ignores_latency|].
    split; reflexivity.
Qed.

(** ** The trial runner *)

(** C8, as amended.  [run_benchmark] never raises, and every call is
    one launch.  Its result is [None], with [None] for the time, exactly
    when [subprocess.run] raised: when the process could not be
    launched, and also when it was started and the call raised before
    returning; either way the exception is printed.  A process that ran
    to completion is returned with its exit code, whatever that is,
    next to the elapsed time. *)
Theorem run_benchmark_fails_when_run_raises (echoswift : benchmark) (w : World) :
  exists result benchmark_time w' evs,
    run_benchmark echoswift w = (Ok (result, benchmark_time), w', evs)
    /\ runs w' = S (runs w)
    /\ (result = None <-> run_failed (echoswift (runs w) (fs w)))
    /\ (result = None -> benchmark_time = PyNone)
    /\ match echoswift (runs w) (fs w) with
       | LaunchError =>
           fs w' = fs w
           /\ evs = [EvLaunch (disk_config (fs w)); EvPrint (MsgErrorRunning OSError)]
       | RunError e after =>
           fs w' = after
           /\ evs = [EvLaunch (disk_config (fs w)); EvPrint (MsgErrorRunning e)]
       | Completed rc elapsed after =>
           result = Some {| returncode := rc |}
           /\ benchmark_time = PyNum elapsed
           /\ fs w' = after
           /\ evs = [EvLaunch (disk_config (fs w))]
       end.
Proof.
  unfold run_benchmark, subprocess_run, run_failed. unfold_monad.
  destruct (echoswift (runs w) (fs w)) as [|e after|rc elapsed after]; simpl;
    do 4 eexists; (split; [reflexivity|]); simpl;
    repeat split; auto; try discriminate; try contradiction.
Qed.

(** C8 as stated fails: the process was launched, ran and left its
    artifact for 56 users on disk, but its output was no text, so that
    [subprocess.run] raised; [run_benchmark] returns the failure value
    although the launch did not fail. *)
Lemma run_benchmark_fails_after_run_counterexample :
  undecodable_output (runs dispatched_world) (fs dispatched_world) <> LaunchError
  /\ outcome (run_benchmark undecodable_output dispatched_world) = Ok (None, PyNone)
  /\ user_folder (fs (world_of (run_benchmark undecodable_output dispatched_world)))
       "out" 56
     = Some (metrics_table (PyNum 1500) (PyNum 40) (PyNum 900) (PyNum 25)).
Proof.
  split; [discriminate|]. split; reflexivity.
Qed.

(** A process that exits with code 3 is a successful run at this layer;
    a missing binary is the failure. *)
Example run_benchmark_exit_code_3 :
  fst (fst (run_benchmark (synthetic 3 idle_artifact) fresh_world))
  = Ok (Some {| returncode := 3 |}, PyNum 1)
  /\ fst (fst (run_benchmark missing_binary fresh_world)) = Ok (None, PyNone).
Proof. split; reflexivity. Qed.

(** ** The metrics extractor *)

(** What the extractor returns, read off the artifact. *)
Lemma extract_metrics_result (d : string) (n : Z) (w : World) :
  exists metrics evs,
    extract_metrics_from_avg_response d n w = (Ok metrics, w, evs)
    /\ Forall (fun e => helper_event e = true) evs
    /\ extracted evs = [metrics]
    /\ metrics =
       match results_csv (fs w) d n with
       | None => no_metrics
       | Some Garbled => no_metrics
       | Some (Table df) =>
           match iloc0 df "TTFT(ms)", iloc0 df "latency_per_token(ms/token)",
                 iloc0 df "latency(ms)", iloc0 df "throughput(tokens/second)" with
           | inr ttft, inr latency_per_token, inr latency, inr throughput =>
               match py_mul throughput n with
               | inr total_throughput =>
                   (ttft, latency_per_token, latency, throughput, total_throughput)
               | inl _ => no_metrics
               end
           | _, _, _, _ => no_metrics
           end
       end.
Proof.
  unfold extract_metrics_from_avg_response. unfold_monad.
  destruct w as [f k]; simpl.
  destruct (results_csv f d n) as [[|df]|]; simpl.
  - do 2 eexists. split; [reflexivity|]. split; [repeat constructor|].
    split; reflexivity.
  - destruct (iloc0 df "TTFT(ms)"); simpl;
      [do 2 eexists; split; [reflexivity|]; split; [repeat constructor|];
       split; reflexivity|].
    destruct (iloc0 df "latency_per_token(ms/token)"); simpl;
      [do 2 eexists; split; [reflexivity|]; split; [repeat constructor|];
       split; reflexivity|].
    destruct (iloc0 df "latency(ms)"); simpl;
      [do 2 eexists; split; [reflexivity|]; split; [repeat constructor|];
       split; reflexivity|].
    destruct (iloc0 df "throughput(tokens/second)") as [|thr]; simpl;
      [do 2 eexists; split; [reflexivity|]; split; [repeat constructor|];
       split; reflexivity|].
    destruct (py_mul thr n); simpl;
      do 2 eexists; (split; [reflexivity|]); (split; [repeat constructor|]);
      split; reflexivity.
  - do 2 eexists. split; [reflexivity|]. split; [repeat constructor|].
    split; reflexivity.
Qed.



(** ** The report generator *)

Lemma update1_same {A : Type} (f : string -> A) (d : string) (v : A) :
  update1 f d v d = v.
Proof. unfold update1. rewrite String.eqb_refl. reflexivity. Qed.

Lemma update1_other {A : Type} (f : string -> A) (d d' : string) (v : A) :
  d' <> d -> update1 f d v d' = f d'.
Proof.
  intros H. unfold update1.
  destruct (String.eqb d' d) eqn:E; [|reflexivity].
  apply String.eqb_eq in E. contradiction.
Qed.

Lemma update2_same {A : Type} (f : string -> Z -> A) (d : string) (n : Z) (v : A) :
  update2 f d n v d n = v.
Proof. unfold update2. rewrite String.eqb_refl, Z.eqb_refl. reflexivity. Qed.

(** The report generator always returns, and only emits the record of
    its call and one line of output. *)
Lemma generate_summary_report_result (n : Z) (metrics : Metrics) (bt : pyval)
    (w : World) :
  exists w' m,
    generate_summary_report n metrics bt w
    = (Ok tt, w', [EvReport n metrics bt; EvPrint m])
    /\ report_message m
    /\ disk_config (fs w') = disk_config (fs w)
    /\ writable (fs w') = writable (fs w)
    /\ runs w' = runs w.
Proof.
  unfold generate_summary_report, mkdir_results, to_csv. unfold_monad.
  destruct metrics as [[[[m0 m1] m2] m3] m4].
  destruct w as [f k]; simpl.
  destruct (out_dir (disk_config f)) as [d|]; simpl;
    [|do 2 eexists; split; [reflexivity|]; simpl; auto].
  destruct (results_dir f d) eqn:Hdir; simpl.
  - rewrite Hdir. destruct (writable f d); simpl;
      do 2 eexists; (split; [reflexivity|]); simpl; auto.
  - destruct (writable f d) eqn:Hw; simpl;
      [|do 2 eexists; split; [reflexivity|]; simpl; auto].
    rewrite update1_same, Hw. simpl.
    do 2 eexists. split; [reflexivity|]. simpl. auto.
Qed.

(** C9.  The report generator never raises.  With [out_dir] configured
    as [d] and writable, it creates [d/Results] if need be and leaves in
    [d/Results/summary_report.csv] exactly the one row of this call,
    whatever the file held before, touching no other summary file.
    When the key is missing or the write fails, the error is printed,
    nothing is written, and the caller continues. *)
Theorem generate_summary_report_overwrites (n : Z) (metrics : Metrics) (bt : pyval)
    (w : World) :
  exists w' evs,
    generate_summary_report n metrics bt w = (Ok tt, w', evs)
    /\ match out_dir (disk_config (fs w)) with
       | Some d =>
           if writable (fs w) d then
             summary_report (fs w') d = Some [summary_row n metrics bt]
             /\ results_dir (fs w') d = true
             /\ (forall d', d' <> d ->
                   summary_report (fs w') d' = summary_report (fs w) d')
             /\ In (EvPrint (MsgSummaryGenerated d)) evs
           else
             summary_report (fs w') = summary_report (fs w)
             /\ In (EvPrint (MsgSummaryError OSError)) evs
       | None =>
           w' = w /\ In (EvPrint (MsgSummaryError KeyError)) evs
       end.
Proof.
  unfold generate_summary_report, mkdir_results, to_csv, summary_row. unfold_monad.
  destruct metrics as [[[[m0 m1] m2] m3] m4].
  destruct w as [f k]; simpl.
  destruct (out_dir (disk_config f)) as [d|]; simpl.
  2:{ do 2 eexists. split; [reflexivity|]. split; [reflexivity|].
      simpl. auto. }
  destruct (results_dir f d) eqn:Hdir; simpl.
  - rewrite Hdir. destruct (writable f d) eqn:Hw; simpl.
    + do 2 eexists. split; [reflexivity|]. simpl.
      rewrite update1_same.
      repeat split; auto.
      intros d' Hd'. apply update1_other. exact Hd'.
    + do 2 eexists. split; [reflexivity|]. simpl. auto.
  - destruct (writable f d) eqn:Hw; simpl.
    + rewrite update1_same, Hw. simpl.
      do 2 eexists. split; [reflexivity|]. simpl.
      rewrite !update1_same.
      repeat split; auto.
      intros d' Hd'. apply update1_other. exact Hd'.
    + do 2 eexists. split; [reflexivity|]. simpl. auto.
Qed.

(** An earlier report of three rows is replaced by the single new row. *)
Example generate_summary_report_replaces_rows :
  let old := summary_row 10 no_metrics PyNone in
  let w := {| fs := {| disk_config := {| out_dir := Some "out"; user_counts := None;
                                         other_keys := [] |};
                       user_folder := fun _ _ => None;
                       results_dir := fun _ => true;
                       results_csv := fun _ _ => None;
                       summary_report := fun _ => Some [old; old; old];
                       writable := fun _ => true |};
              runs := 0 |} in
  summary_report
    (fs (snd (fst (generate_summary_report 56
                     (PyNum 1500, PyNum 40, PyNum 900, PyNum 25, PyNum 1400)
                     (PyNum 1) w)))) "out"
  = Some [ {| row_user_count := 56; row_ttft := PyNum 1500; row_latency := PyNum 900;
              row_latency_per_token := PyNum 40; row_throughput := PyNum 25;
              row_total_throughput := PyNum 1400; row_benchmark_time := PyNum 1 |} ].
Proof. reflexivity. Qed.

(** ** Running the helpers in sequence *)

Lemma bind_inv {A B : Type} (m : M A) (k : A -> M B) (w : World)
    (res : result B) (w' : World) (evs : list event) :
  bind m k w = (res, w', evs) ->
  (exists a w1 t1 t2,
      m w = (Ok a, w1, t1) /\ k a w1 = (res, w', t2) /\ evs = t1 ++ t2)
  \/ (exists e, m w = (Raised e, w', evs) /\ res = Raised e)
  \/ (m w = (Unfinished, w', evs) /\ res = Unfinished).
Proof.
  unfold bind. intros H.
  destruct (m w) as [[[a|e|] w1] t1].
  - destruct (k a w1) as [[r w2] t2] eqn:Hk.
    injection H as <- <- <-. left. exists a, w1, t1, t2. auto.
  - injection H as <- <- <-. right. left. exists e. auto.
  - injection H as <- <- <-. right. right. auto.
Qed.

Lemma ret_inv {A : Type} (a : A) (w : World) (res : result A) (w' : World)
    (evs : list event) :
  ret a w = (res, w', evs) -> res = Ok a /\ w' = w /\ evs = [].
Proof. unfold ret. intros H. injection H as <- <- <-. auto. Qed.

Lemma bind_print_inv {B : Type} (m : message) (k : unit -> M B) (w : World)
    (res : result B) (w' : World) (evs : list event) :
  bind (print m) k w = (res, w', evs) ->
  exists t2, k tt w = (res, w', t2) /\ evs = EvPrint m :: t2.
Proof.
  unfold bind, print, emit. intros H.
  destruct (k tt w) as [[r w2] t2]. injection H as <- <- <-. eauto.
Qed.

Lemma bind_lift_inv {A B : Type} (r : exn + A) (k : A -> M B) (w : World)
    (res : result B) (w' : World) (evs : list event) :
  bind (lift r) k w = (res, w', evs) ->
  match r with
  | inl e => res = Raised e /\ w' = w /\ evs = []
  | inr a => k a w = (res, w', evs)
  end.
Proof.
  unfold bind, lift, raise, ret. intros H. destruct r as [e|a].
  - injection H as <- <- <-. auto.
  - destruct (k a w) as [[r w2] t2]. injection H as <- <- <-. reflexivity.
Qed.

Lemma run_benchmark_result (echoswift : benchmark) (w : World) :
  (exists w' e,
      run_failed (echoswift (runs w) (fs w))
      /\ run_benchmark echoswift w
         = (Ok (None, PyNone), w',
            [EvLaunch (disk_config (fs w)); EvPrint (MsgErrorRunning e)]))
  \/ (exists rc elapsed after,
        echoswift (runs w) (fs w) = Completed rc elapsed after
        /\ run_benchmark echoswift w
           = (Ok (Some {| returncode := rc |}, PyNum elapsed),
              {| fs := after; runs := S (runs w) |},
              [EvLaunch (disk_config (fs w))])).
Proof.
  unfold run_benchmark, subprocess_run, run_failed. unfold_monad.
  destruct (echoswift (runs w) (fs w)); simpl; eauto 10.
Qed.

Lemma copy_avg_response_result (n : Z) (w : World) :
  exists w' q,
    copy_avg_response n w = (Ok tt, w', EvCopy n :: q)
    /\ Forall (fun e => helper_event e = true) q
    /\ extracted q = []
    /\ disk_config (fs w') = disk_config (fs w)
    /\ writable (fs w') = writable (fs w).
Proof.
  unfold copy_avg_response, mkdir_results, shutil_copy. unfold_monad.
  destruct w as [f k]; simpl.
  destruct (get_out_dir (disk_config f)) as [d|]; simpl.
  2:{ do 2 eexists. split; [reflexivity|]. repeat constructor. }
  destruct (results_dir f d) eqn:Hdir; simpl.
  - destruct (user_folder f d n); simpl.
    + rewrite Hdir. destruct (writable f d); simpl;
        do 2 eexists; (split; [reflexivity|]); repeat constructor.
    + do 2 eexists; (split; [reflexivity|]); repeat constructor.
  - destruct (writable f d) eqn:Hw; simpl.
    + destruct (user_folder f d n); simpl.
      * rewrite update1_same, Hw. simpl.
        do 2 eexists; (split; [reflexivity|]); repeat constructor.
      * do 2 eexists; (split; [reflexivity|]); repeat constructor.
    + do 2 eexists; (split; [reflexivity|]); repeat constructor.
Qed.

Lemma run_then_inv {B : Type} (echoswift : benchmark)
    (k : option CompletedProcess * pyval -> M B) (w : World)
    (res : result B) (w' : World) (evs : list event) :
  bind (run_benchmark echoswift) k w = (res, w', evs) ->
  (exists w1 e t2,
      run_failed (echoswift (runs w) (fs w))
      /\ k (None, PyNone) w1 = (res, w', t2)
      /\ evs = EvLaunch (disk_config (fs w)) :: EvPrint (MsgErrorRunning e) :: t2)
  \/ (exists rc elapsed after t2,
        echoswift (runs w) (fs w) = Completed rc elapsed after
        /\ k (Some {| returncode := rc |}, PyNum elapsed)
             {| fs := after; runs := S (runs w) |} = (res, w', t2)
        /\ evs = EvLaunch (disk_config (fs w)) :: t2).
Proof.
  intros H. apply bind_inv in H.
  destruct (run_benchmark_result echoswift w)
    as [(w1 & e & He & Hr)|(rc & el & after & He & Hr)]; rewrite Hr in H.
  - destruct H as [(a & w2 & t1 & t2 & Ha & Hk & ->)|[(e' & Hx & _)|(Hx & _)]];
      try discriminate.
    injection Ha as <- <- <-. left. exists w1, e, t2. auto.
  - destruct H as [(a & w2 & t1 & t2 & Ha & Hk & ->)|[(e & Hx & _)|(Hx & _)]];
      try discriminate.
    injection Ha as <- <- <-. right. eauto 10.
Qed.

Lemma copy_then_inv {B : Type} (n : Z) (k : unit -> M B) (w : World)
    (res : result B) (w' : World) (evs : list event) :
  bind (copy_avg_response n) k w = (res, w', evs) ->
  exists w1 q t2,
    copy_avg_response n w = (Ok tt, w1, EvCopy n :: q)
    /\ k tt w1 = (res, w', t2)
    /\ evs = EvCopy n :: q ++ t2
    /\ Forall (fun e => helper_event e = true) q
    /\ extracted q = [].
Proof.
  intros H. apply bind_inv in H.
  destruct (copy_avg_response_result n w) as (w1 & q & Hr & Hq & Hx & _).
  rewrite Hr in H.
  destruct H as [(a & w2 & t1 & t2 & Ha & Hk & ->)|[(e & He & _)|(He & _)]];
    try discriminate.
  injection Ha as <- <- <-. exists w1, q, t2. auto.
Qed.

Lemma extract_then_inv {B : Type} (d : string) (n : Z) (k : Metrics -> M B)
    (w : World) (res : result B) (w' : World) (evs : list event) :
  bind (extract_metrics_from_avg_response d n) k w = (res, w', evs) ->
  exists metrics q t2,
    extract_metrics_from_avg_response d n w = (Ok metrics, w, q)
    /\ k metrics w = (res, w', t2)
    /\ evs = q ++ t2
    /\ Forall (fun e => helper_event e = true) q
    /\ extracted q = [metrics].
Proof.
  intros H. apply bind_inv in H.
  destruct (extract_metrics_result d n w) as (m & q & Hr & Hq & Hx & _).
  rewrite Hr in H.
  destruct H as [(a & w2 & t1 & t2 & Ha & Hk & ->)|[(e & He & _)|(He & _)]];
    try discriminate.
  injection Ha as <- <- <-. exists m, q, t2. auto.
Qed.

Lemma report_then_inv {B : Type} (n : Z) (metrics : Metrics) (bt : pyval)
    (k : unit -> M B) (w : World) (res : result B) (w' : World)
    (evs : list event) :
  bind (generate_summary_report n metrics bt) k w = (res, w', evs) ->
  exists w1 m t2,
    k tt w1 = (res, w', t2)
    /\ evs = EvReport n metrics bt :: EvPrint m :: t2
    /\ report_message m.
Proof.
  intros H. apply bind_inv in H.
  destruct (generate_summary_report_result n metrics bt w) as (w1 & m & Hr & Hm & _).
  rewrite Hr in H.
  destruct H as [(a & w2 & t1 & t2 & Ha & Hk & ->)|[(e & He & _)|(He & _)]];
    try discriminate.
  injection Ha as <- <- <-. exists w1, m, t2. auto.
Qed.

Lemma dump_then_inv {B : Type} (c : Config) (k : unit -> M B) (w : World)
    (res : result B) (w' : World) (evs : list event) :
  bind (json_dump c) k w = (res, w', evs) ->
  exists w1 t2,
    k tt w1 = (res, w', t2)
    /\ evs = EvDump c :: t2
    /\ disk_config (fs w1) = c
    /\ writable (fs w1) = writable (fs w).
Proof.
  unfold bind, json_dump. intros H.
  match type of H with
  | context [k tt ?w1] => destruct (k tt w1) as [[r w2] t2] eqn:Hk; exists w1, t2
  end.
  injection H as <- <- <-. auto.
Qed.

Lemma load_then_inv {B : Type} (k : Config -> M B) (w : World)
    (res : result B) (w' : World) (evs : list event) :
  bind json_load k w = (res, w', evs) ->
  k (disk_config (fs w)) w = (res, w', evs).
Proof.
  unfold bind, json_load. intros H.
  destruct (k (disk_config (fs w)) w) as [[r w2] t2].
  injection H as <- <- <-. reflexivity.
Qed.

(** What a trial does between the launch and the verdict, in both
    phases of the search: the events are the launch, helper events that
    collect for [n], and the events of the continuation taken. *)
Lemma trial_inv {B : Type} (echoswift : benchmark) (d : string) (n : Z)
    (on_run_failed : pyval -> M B) (on_extract_failed : pyval -> M B)
    (on_metrics : pyval -> Metrics -> M B)
    (w : World) (res : result B) (w' : World) (evs : list event) :
  bind (run_benchmark echoswift)
       (fun x =>
          let '(result, benchmark_time) := x in
          match result with
          | None => on_run_failed benchmark_time
          | Some _ =>
              bind (copy_avg_response n) (fun _ =>
              bind (extract_metrics_from_avg_response d n) (fun metrics =>
              if any_none metrics then on_extract_failed benchmark_time
              else on_metrics benchmark_time metrics))
          end) w = (res, w', evs) ->
  exists q tail,
    evs = EvLaunch (disk_config (fs w)) :: q ++ tail
    /\ Forall (fun e => helper_event e = true) q
    /\ collects_for n q
    /\ ((exists w1,
            run_failed (echoswift (runs w) (fs w))
            /\ on_run_failed PyNone w1 = (res, w', tail))
        \/ (exists bt metrics w1,
              measured echoswift d n w bt metrics w1
              /\ any_none metrics = true
              /\ on_extract_failed bt w1 = (res, w', tail))
        \/ (exists bt metrics w1,
              measured echoswift d n w bt metrics w1
              /\ any_none metrics = false
              /\ on_metrics bt metrics w1 = (res, w', tail))).
Proof.
  intros H. apply run_then_inv in H.
  destruct H as [(w1 & e & t2 & He & Hk & ->)|(rc & el & after & t2 & He & Hk & ->)].
  - exists [EvPrint (MsgErrorRunning e)], t2.
    split; [reflexivity|]. split; [repeat constructor|].
    split; [exact I|]. left. eauto.
  - apply copy_then_inv in Hk.
    destruct Hk as (w2 & q & t3 & Hcopy & Hk & -> & Hq & _).
    apply extract_then_inv in Hk.
    destruct Hk as (m & q' & t4 & Hex & Hk & -> & Hq' & _).
    exists (EvCopy n :: q ++ q'), t4.
    split; [simpl; rewrite <- app_assoc; reflexivity|].
    split.
    { constructor; [reflexivity|]. apply Forall_app. auto. }
    split; [reflexivity|].
    assert (Hm : measured echoswift d n w (PyNum el) m w2).
    { exists rc, el, after, (EvCopy n :: q), q'. auto. }
    destruct (any_none m) eqn:Hn.
    + right. left. eauto 10.
    + right. right. eauto 10.
Qed.

(** ** One iteration of each loop of the search *)

(** An iteration of the binary search, entered with [low < high]:
    rewrite the configuration for [mid], launch, and then stop on a
    failure, raise when the validator cannot compare the metrics, or go
    on with the upper or the lower half. *)
Lemma binary_search_loop_step (echoswift : benchmark) (fuel : nat) (low high : Z)
    (d : string) (w : World) (res : result (Z * Z)) (w' : World)
    (evs : list event) :
  low < high ->
  binary_search_loop echoswift (S fuel) low high d w = (res, w', evs) ->
  let mid := (low + high) / 2 in
  let c := set_user_counts (disk_config (fs w)) mid in
  exists q tail w0,
    evs = EvDump c :: EvLaunch c :: q ++ tail
    /\ Forall (fun e => helper_event e = true) q
    /\ collects_for mid q
    /\ disk_config (fs w0) = c
    /\ writable (fs w0) = writable (fs w)
    /\ ((run_failed (echoswift (runs w0) (fs w0))
         /\ res = Ok (low, high)
         /\ tail = [EvPrint (MsgRunFailed Refine)])
        \/ (exists bt m w1,
              measured echoswift d mid w0 bt m w1
              /\ any_none m = true
              /\ res = Ok (low, high)
              /\ tail = [EvPrint (MsgExtractFailed Refine)])
        \/ (exists bt m w1 e,
              measured echoswift d mid w0 bt m w1
              /\ any_none m = false
              /\ accepts m = inl e
              /\ res = Raised e
              /\ tail = [EvPrint (MsgTrial Refine mid m)])
        \/ (exists bt m w1 evs',
              measured echoswift d mid w0 bt m w1
              /\ any_none m = false
              /\ accepts m = inr true
              /\ tail = EvPrint (MsgTrial Refine mid m) :: evs'
              /\ binary_search_loop echoswift fuel (mid + 1) high d w1
                 = (res, w', evs'))
        \/ (exists bt m w1 evs',
              measured echoswift d mid w0 bt m w1
              /\ any_none m = false
              /\ accepts m = inr false
              /\ tail = EvPrint (MsgTrial Refine mid m) :: evs'
              /\ binary_search_loop echoswift fuel low mid d w1
                 = (res, w', evs'))).
Proof.
  intros Hlt Hrun mid c.
  cbn [binary_search_loop] in Hrun.
  apply Z.ltb_lt in Hlt as Hb. rewrite Hb in Hrun.
  fold mid in Hrun.
  apply load_then_inv in Hrun. fold c in Hrun.
  apply dump_then_inv in Hrun. destruct Hrun as (w0 & t & Hrun & -> & Hc & Hw).
  pose proof (trial_inv echoswift d mid _ _ _ _ _ _ _ Hrun) as Ht.
  cbv beta in Ht.
  destruct Ht as (q & tail & -> & Hq & Hcol & Hk).
  rewrite Hc. exists q, tail, w0.
  split; [reflexivity|]. split; [exact Hq|]. split; [exact Hcol|].
  split; [exact Hc|]. split; [exact Hw|].
  destruct Hk as [(w1 & He & Hk)|[(bt & m & w1 & Hm & Hn & Hk)
                                 |(bt & m & w1 & Hm & Hn & Hk)]].
  - apply bind_print_inv in Hk. destruct Hk as (t2 & Hk & ->).
    apply ret_inv in Hk. destruct Hk as (-> & -> & ->). left. auto.
  - apply bind_print_inv in Hk. destruct Hk as (t2 & Hk & ->).
    apply ret_inv in Hk. destruct Hk as (-> & -> & ->).
    right. left. eauto 10.
  - destruct m as [[[[ttft lpt] lat] thr] tot].
    apply bind_print_inv in Hk. destruct Hk as (t2 & Hk & ->).
    apply bind_lift_inv in Hk.
    change (validate_criterion ttft lpt lat)
      with (accepts (ttft, lpt, lat, thr, tot)) in Hk.
    destruct (accepts (ttft, lpt, lat, thr, tot)) as [e|[|]] eqn:Hacc.
    + destruct Hk as (-> & -> & ->). right. right. left. eauto 12.
    + right. right. right. left. eauto 12.
    + right. right. right. right. eauto 12.
Qed.

(** An iteration of the linear probe: the same, except that the
    document written is the one held in memory, an accepted count is
    recorded before the next iteration, and a rejected count ends the
    loop. *)
Lemma adjust_user_count_loop_step (echoswift : benchmark) (fuel : nat) (d : string)
    (st : probe_state) (w : World) (res : result probe_exit) (w' : World)
    (evs : list event) :
  adjust_user_count_loop echoswift (S fuel) d st w = (res, w', evs) ->
  let n := user_count st in
  let c := set_user_counts (config st) n in
  exists q tail w0 bt,
    let st1 := {| config := c;
                  user_count := n;
                  previous_user_count := previous_user_count st;
                  optimal_user_count := optimal_user_count st;
                  final_metrics := final_metrics st;
                  benchmark_time := bt |} in
    evs = EvDump c :: EvLaunch c :: q ++ tail
    /\ Forall (fun e => helper_event e = true) q
    /\ collects_for n q
    /\ disk_config (fs w0) = c
    /\ writable (fs w0) = writable (fs w)
    /\ ((run_failed (echoswift (runs w0) (fs w0))
         /\ res = Ok (Broke st1)
         /\ tail = [EvPrint (MsgRunFailed Probe)])
        \/ (exists m,
              measured echoswift d n w0 bt m w'
              /\ any_none m = true
              /\ res = Ok (Broke st1)
              /\ tail = [EvPrint (MsgExtractFailed Probe)])
        \/ (exists m e,
              measured echoswift d n w0 bt m w'
              /\ any_none m = false
              /\ accepts m = inl e
              /\ res = Raised e
              /\ tail = [EvPrint (MsgTrial Probe n m)])
        \/ (exists m w1 evs',
              measured echoswift d n w0 bt m w1
              /\ any_none m = false
              /\ accepts m = inr true
              /\ tail = EvPrint (MsgTrial Probe n m)
                        :: EvPrint (MsgThresholdMet n) :: evs'
              /\ adjust_user_count_loop echoswift fuel d
                   {| config := c;
                      user_count := n + increment;
                      previous_user_count := n;
                      optimal_user_count := n;
                      final_metrics := Some m;
                      benchmark_time := bt |} w1 = (res, w', evs'))
        \/ (exists m,
              measured echoswift d n w0 bt m w'
              /\ any_none m = false
              /\ accepts m = inr false
              /\ res = Ok (ThresholdNotMet st1)
              /\ tail = [EvPrint (MsgTrial Probe n m);
                         EvPrint (MsgThresholdNotMet n)])).
Proof.
  intros Hrun n c.
  cbn [adjust_user_count_loop] in Hrun.
  fold n in Hrun. fold c in Hrun.
  apply dump_then_inv in Hrun. destruct Hrun as (w0 & t & Hrun & -> & Hc & Hw).
  pose proof (trial_inv echoswift d n _ _ _ _ _ _ _ Hrun) as Ht.
  cbv beta in Ht.
  destruct Ht as (q & tail & -> & Hq & Hcol & Hk).
  rewrite Hc.
  destruct Hk as [(w1 & He & Hk)|[(bt & m & w1 & Hm & Hn & Hk)
                                 |(bt & m & w1 & Hm & Hn & Hk)]].
  - apply bind_print_inv in Hk. destruct Hk as (t2 & Hk & ->).
    apply ret_inv in Hk. destruct Hk as (-> & -> & ->).
    exists q, [EvPrint (MsgRunFailed Probe)], w0, PyNone. cbv zeta.
    split; [reflexivity|]. split; [exact Hq|]. split; [exact Hcol|].
    split; [exact Hc|]. split; [exact Hw|]. left. auto.
  - apply bind_print_inv in Hk. destruct Hk as (t2 & Hk & ->).
    apply ret_inv in Hk. destruct Hk as (-> & -> & ->).
    exists q, [EvPrint (MsgExtractFailed Probe)], w0, bt. cbv zeta.
    split; [reflexivity|]. split; [exact Hq|]. split; [exact Hcol|].
    split; [exact Hc|]. split; [exact Hw|]. right. left. eauto 10.
  - destruct m as [[[[ttft lpt] lat] thr] tot].
    cbn [user_count] in Hk.
    apply bind_print_inv in Hk. destruct Hk as (t2 & Hk & ->).
    apply bind_lift_inv in Hk.
    change (validate_criterion ttft lpt lat)
      with (accepts (ttft, lpt, lat, thr, tot)) in Hk.
    destruct (accepts (ttft, lpt, lat, thr, tot)) as [e|[|]] eqn:Hacc.
    + destruct Hk as (-> & -> & ->).
      eexists q, _, w0, bt. cbv zeta.
      split; [reflexivity|]. split; [exact Hq|]. split; [exact Hcol|].
      split; [exact Hc|]. split; [exact Hw|].
      right. right. left. eauto 10.
    + apply bind_print_inv in Hk. destruct Hk as (t3 & Hk & ->).
      eexists q, _, w0, bt. cbv zeta.
      split; [reflexivity|]. split; [exact Hq|]. split; [exact Hcol|].
      split; [exact Hc|]. split; [exact Hw|].
      right. right. right. left. eauto 12.
    + apply bind_print_inv in Hk. destruct Hk as (t3 & Hk & ->).
      apply ret_inv in Hk. destruct Hk as (-> & -> & ->).
      eexists q, _, w0, bt. cbv zeta.
      split; [reflexivity|]. split; [exact Hq|]. split; [exact Hcol|].
      split; [exact Hc|]. split; [exact Hw|].
      right. right. right. right. eauto 12.
Qed.

(** ** Helper events in the record of a run *)

Lemma launched_app (a b : list event) : launched (a ++ b) = launched a ++ launched b.
Proof.
  induction a as [|e a IH]; [reflexivity|].
  destruct e; simpl; rewrite IH; reflexivity.
Qed.

Lemma launched_helpers (q : list event) :
  Forall (fun e => helper_event e = true) q -> launched q = [].
Proof.
  induction 1 as [|e q He _ IH]; [reflexivity|].
  destruct e; simpl in *; try discriminate; exact IH.
Qed.

Lemma in_helpers (q : list event) (e : event) :
  Forall (fun e => helper_event e = true) q -> In e q -> helper_event e = true.
Proof. intros H Hin. rewrite Forall_forall in H. auto. Qed.

Lemma helpers_no_report (q : list event) :
  Forall (fun e => helper_event e = true) q ->
  Forall (fun e => is_report e = false) q.
Proof.
  intros H. eapply Forall_impl; [|exact H].
  intros [] He; simpl in *; congruence.
Qed.

Lemma mid_between (low high : Z) :
  low < high -> low <= (low + high) / 2 < high.
Proof. intros H. split; [apply Z.div_le_lower_bound | apply Z.div_lt_upper_bound]; lia. Qed.

(** What one trial of the search adds to the record: from the events
    of an iteration, where [q] holds helper events only. *)
Lemma in_trial_events (c : Config) (q tail : list event) (e : event) :
  Forall (fun e => helper_event e = true) q ->
  helper_event e = false ->
  In e (EvDump c :: EvLaunch c :: q ++ tail) ->
  e = EvDump c \/ e = EvLaunch c \/ In e tail.
Proof.
  intros Hq He [<-|[<-|Hin]]; auto.
  apply in_app_or in Hin. destruct Hin as [Hin|Hin]; auto.
  apply (in_helpers _ _ Hq) in Hin. congruence.
Qed.

Lemma accepted_in_tail (c : Config) (q tail : list event) :
  some_trial_accepted tail ->
  some_trial_accepted (EvDump c :: EvLaunch c :: q ++ tail).
Proof.
  intros (ph & n & m & Hin & Hacc). exists ph, n, m. split; [|exact Hacc].
  right. right. apply in_or_app. auto.
Qed.

Lemma binary_search_loop_facts (echoswift : benchmark) (fuel : nat) :
  forall low high d w res w' evs,
    (Z.to_nat (high - low) <= fuel)%nat ->
    binary_search_loop echoswift fuel low high d w = (res, w', evs) ->
    res <> Unfinished
    /\ Forall (fun e => is_report e = false) evs
    /\ (length (launched evs) <= Z.to_nat (high - low))%nat
    /\ (forall e, res = Raised e ->
          ~ extraction_failed evs
          /\ exists n m, In (EvPrint (MsgTrial Refine n m)) evs /\ accepts m = inl e)
    /\ (forall lo hi, res = Ok (lo, hi) ->
          low <= lo
          /\ (low <= high -> lo <= hi <= high)
          /\ (lo < hi ->
              In (EvPrint (MsgRunFailed Refine)) evs
              \/ In (EvPrint (MsgExtractFailed Refine)) evs)
          /\ (~ some_trial_accepted evs -> lo = low)).
Proof.
  induction fuel as [|fuel IH]; intros low high d w res w' evs Hfuel Hrun.
  - assert (Hge : high <= low) by lia.
    cbn [binary_search_loop] in Hrun.
    apply Z.ltb_ge in Hge as Hb. rewrite Hb in Hrun.
    apply ret_inv in Hrun. destruct Hrun as (-> & -> & ->).
    split; [discriminate|]. split; [constructor|]. split; [simpl; lia|].
    split; [discriminate|].
    intros lo hi H. injection H as <- <-. repeat split; lia.
  - destruct (Z_lt_dec low high) as [Hlt|Hge].
    2:{ cbn [binary_search_loop] in Hrun.
        assert (Hb : (low <? high) = false) by (apply Z.ltb_ge; lia).
        rewrite Hb in Hrun.
        apply ret_inv in Hrun. destruct Hrun as (-> & -> & ->).
        split; [discriminate|]. split; [constructor|]. split; [simpl; lia|].
        split; [discriminate|].
        intros lo hi H. injection H as <- <-. repeat split; lia. }
    pose proof (mid_between low high Hlt) as Hmid.
    apply (binary_search_loop_step echoswift fuel low high d w res w' evs Hlt) in Hrun.
    cbv zeta in Hrun.
    set (mid := (low + high) / 2) in *.
    set (c := set_user_counts (disk_config (fs w)) mid) in *.
    destruct Hrun as (q & tail & w0 & -> & Hq & Hcol & _ & _ & Hcase).
    assert (Hrep : forall tail', Forall (fun e => is_report e = false) tail' ->
              Forall (fun e => is_report e = false)
                     (EvDump c :: EvLaunch c :: q ++ tail')).
    { intros tail' Ht. repeat constructor. apply Forall_app. split; [|exact Ht].
      apply helpers_no_report. exact Hq. }
    assert (Hlen : forall tail', launched (EvDump c :: EvLaunch c :: q ++ tail')
                                 = c :: launched tail').
    { intros tail'. simpl. rewrite launched_app, (launched_helpers q Hq).
      reflexivity. }
    destruct Hcase as [(_ & -> & ->)
                      |[(bt & m & w1 & _ & _ & -> & ->)
                       |[(bt & m & w1 & e & _ & _ & Hacc & -> & ->)
                        |[(bt & m & w1 & evs' & _ & _ & Hacc & -> & Hrec)
                         |(bt & m & w1 & evs' & _ & _ & Hacc & -> & Hrec)]]]].
    + split; [discriminate|]. split; [apply Hrep; repeat constructor|].
      split; [rewrite Hlen; simpl; lia|]. split; [discriminate|].
      intros lo hi H. injection H as <- <-.
      split; [lia|]. split; [lia|]. split; [|reflexivity].
      intros _. left. right. right. apply in_or_app. right. left. reflexivity.
    + split; [discriminate|]. split; [apply Hrep; repeat constructor|].
      split; [rewrite Hlen; simpl; lia|]. split; [discriminate|].
      intros lo hi H. injection H as <- <-.
      split; [lia|]. split; [lia|]. split; [|reflexivity].
      intros _. right. right. right. apply in_or_app. right. left. reflexivity.
    + split; [discriminate|]. split; [apply Hrep; repeat constructor|].
      split; [rewrite Hlen; simpl; lia|]. split; [|discriminate].
      intros e' H. injection H as <-. split.
      * intros (ph & Hin).
        apply in_trial_events in Hin; [|exact Hq|reflexivity].
        destruct Hin as [Hin|[Hin|[Hin|[]]]]; discriminate.
      * exists mid, m. split; [|exact Hacc].
        right. right. apply in_or_app. right. left. reflexivity.
    + apply IH in Hrec; [|lia].
      destruct Hrec as (Hun & Hrp & Hl & Hraise & Hok).
      split; [exact Hun|].
      split; [apply Hrep; constructor; [reflexivity|exact Hrp]|].
      split; [rewrite Hlen; simpl; lia|].
      split.
      * intros e He. destruct (Hraise e He) as (Hnf & n & m' & Hin & Hm').
        split.
        -- intros (ph & Hin').
           apply in_trial_events in Hin'; [|exact Hq|reflexivity].
           destruct Hin' as [Hin'|[Hin'|[Hin'|Hin']]]; try discriminate.
           apply Hnf. exists ph. exact Hin'.
        -- exists n, m'. split; [|exact Hm'].
           right. right. apply in_or_app. right. right. exact Hin.
      * intros lo hi He. destruct (Hok lo hi He) as (H1 & H2 & H3 & H4).
        split; [lia|]. split; [lia|]. split.
        -- intros Hlh. destruct (H3 Hlh) as [Hin|Hin]; [left|right];
             right; right; apply in_or_app; right; right; exact Hin.
        -- intros Hna. exfalso. apply Hna.
           exists Refine, mid, m. split; [|exact Hacc].
           right. right. apply in_or_app. right. left. reflexivity.
    + apply IH in Hrec; [|lia].
      destruct Hrec as (Hun & Hrp & Hl & Hraise & Hok).
      split; [exact Hun|].
      split; [apply Hrep; constructor; [reflexivity|exact Hrp]|].
      split; [rewrite Hlen; simpl; lia|].
      split.
      * intros e He. destruct (Hraise e He) as (Hnf & n & m' & Hin & Hm').
        split.
        -- intros (ph & Hin').
           apply in_trial_events in Hin'; [|exact Hq|reflexivity].
           destruct Hin' as [Hin'|[Hin'|[Hin'|Hin']]]; try discriminate.
           apply Hnf. exists ph. exact Hin'.
        -- exists n, m'. split; [|exact Hm'].
           right. right. apply in_or_app. right. right. exact Hin.
      * intros lo hi He. destruct (Hok lo hi He) as (H1 & H2 & H3 & H4).
        split; [lia|]. split; [lia|]. split.
        -- intros Hlh. destruct (H3 Hlh) as [Hin|Hin]; [left|right];
             right; right; apply in_or_app; right; right; exact Hin.
        -- intros Hna. apply H4. intros Hacc'. apply Hna.
           apply accepted_in_tail.
           destruct Hacc' as (ph & n & m' & Hin & Hm').
           exists ph, n, m'. split; [right; exact Hin|exact Hm'].
Qed.

(** ** The binary search *)





(** With a benchmark that cannot be launched the search from a lower
    bound of 0 returns -1. *)
Example binary_search_user_count_negative :
  outcome (binary_search_user_count missing_binary 0 56 "out" fresh_world) = Ok (-1).
Proof. reflexivity. Qed.

(** A failure ends the search at once: with a benchmark that cannot be
    launched there is one launch, for the midpoint 28, and no second
    one.  With a benchmark accepted exactly up to 40 users the search
    between 0 and 56 tries 28, 42, 35, 39, 41 and 40, and returns 40. *)
Example binary_search_user_count_outcomes :
  let failed := binary_search_user_count missing_binary 0 56 "out" fresh_world in
  let found := binary_search_user_count
                 (synthetic 0 (threshold_artifact (fun n => n <=? 40)))
                 0 56 "out" fresh_world in
  trial_outcomes (events_of failed) = [Failed]
  /\ map user_counts (launched (events_of failed)) = [Some [28]]
  /\ bisection [Failed] 0 56 = Some ([28], -1)
  /\ trial_outcomes (events_of found)
     = [Accepted; Rejected; Accepted; Accepted; Rejected; Accepted]
  /\ map user_counts (launched (events_of found))
     = [Some [28]; Some [42]; Some [35]; Some [39]; Some [41]; Some [40]]
  /\ outcome found = Ok 40.
Proof. vm_compute. repeat split; reflexivity. Qed.

(** ** Benchmarks that realise an acceptance function *)

Lemma get_out_dir_set_user_counts (c : Config) (n : Z) :
  get_out_dir (set_user_counts c n) = get_out_dir c.
Proof. reflexivity. Qed.

Lemma copy_avg_response_copies (d : string) (n : Z) (file : csv) (w : World) :
  steady d (fs w) ->
  user_folder (fs w) d n = Some file ->
  exists w1 q,
    copy_avg_response n w = (Ok tt, w1, q)
    /\ results_csv (fs w1) d n = Some file
    /\ steady d (fs w1).
Proof.
  intros [Hd Hw] Hsrc.
  unfold copy_avg_response, mkdir_results, shutil_copy. unfold_monad.
  destruct w as [f k]; simpl in *.
  rewrite Hd. simpl.
  destruct (results_dir f d) eqn:Hdir; simpl.
  - rewrite Hsrc. simpl. rewrite Hdir, Hw. simpl.
    do 2 eexists. split; [reflexivity|]. simpl.
    rewrite update2_same. split; [reflexivity|]. split; assumption.
  - rewrite Hw. simpl. rewrite Hsrc. simpl.
    rewrite update1_same, Hw. simpl.
    do 2 eexists. split; [reflexivity|]. simpl.
    rewrite update2_same. split; [reflexivity|]. split; assumption.
Qed.

(** A trial against a benchmark that realises [acc] never fails, and
    the validator's verdict on its metrics is [acc n]. *)
Lemma measured_realised (echoswift : benchmark) (acc : Z -> bool) (d : string)
    (n : Z) (w : World) (bt : pyval) (m : Metrics) (w1 : World) :
  realises echoswift acc d ->
  steady d (fs w) ->
  user_counts (disk_config (fs w)) = Some [n] ->
  measured echoswift d n w bt m w1 ->
  any_none m = false /\ accepts m = inr (acc n) /\ steady d (fs w1).
Proof.
  intros Hreal Hst Huc (rc & el & after & qc & qe & He & _ & Hcopy & Hex).
  destruct (Hreal (runs w) (fs w) n Hst Huc)
    as (rc' & el' & f' & df & ttft & lpt & He' & Hst' & Hsrc & Hrow & Hacc).
  rewrite He in He'. injection He' as -> -> ->.
  destruct (copy_avg_response_copies d n (Table df)
              {| fs := f'; runs := S (runs w) |} Hst' Hsrc)
    as (w2 & q & Hcopy' & Hres & Hst2).
  rewrite Hcopy in Hcopy'. injection Hcopy' as -> ->.
  destruct (extract_metrics_result d n w2) as (m' & q' & Hex' & _ & _ & Hm').
  rewrite Hex in Hex'. injection Hex' as -> ->.
  rewrite Hres in Hm'.
  destruct Hrow as (H1 & H2 & (lat & H3) & (thr & H4)).
  rewrite H1, H2, H3, H4 in Hm'. simpl in Hm'. subst m'.
  split; [reflexivity|]. split; [|exact Hst2].
  unfold accepts. rewrite validate_criterion_numeric, Hacc. reflexivity.
Qed.

Lemma launch_realised (echoswift : benchmark) (acc : Z -> bool) (d : string)
    (n : Z) (w : World) :
  realises echoswift acc d ->
  steady d (fs w) ->
  user_counts (disk_config (fs w)) = Some [n] ->
  ~ run_failed (echoswift (runs w) (fs w)).
Proof.
  intros Hreal Hst Huc He.
  destruct (Hreal (runs w) (fs w) n Hst Huc) as (rc & el & f' & ? & ? & ? & He' & _).
  rewrite He' in He. exact He.
Qed.

(** The binary search against a benchmark that accepts exactly the
    counts up to [K] ends with both bounds at [K + 1]. *)
Lemma binary_search_loop_converges (echoswift : benchmark) (K : Z) (d : string) :
  realises echoswift (fun n => n <=? K) d ->
  forall fuel low high w,
    steady d (fs w) ->
    low <= K + 1 <= high ->
    (Z.to_nat (high - low) <= fuel)%nat ->
    exists w' evs,
      binary_search_loop echoswift fuel low high d w = (Ok (K + 1, K + 1), w', evs)
      /\ steady d (fs w').
Proof.
  intros Hreal fuel.
  induction fuel as [|fuel IH]; intros low high w Hst Hk Hfuel.
  - assert (low = K + 1 /\ high = K + 1) as [-> ->] by lia.
    cbn [binary_search_loop]. rewrite Z.ltb_irrefl.
    exists w, []. auto.
  - destruct (Z_lt_dec low high) as [Hlt|Hge].
    2:{ assert (low = K + 1 /\ high = K + 1) as [-> ->] by lia.
        cbn [binary_search_loop]. rewrite Z.ltb_irrefl.
        exists w, []. auto. }
    destruct (binary_search_loop echoswift (S fuel) low high d w)
      as [[res w'] evs] eqn:Hrun.
    pose proof (mid_between low high Hlt) as Hmid.
    apply (binary_search_loop_step echoswift fuel low high d w res w' evs Hlt) in Hrun.
    cbv zeta in Hrun.
    set (mid := (low + high) / 2) in *.
    destruct Hrun as (q & tail & w0 & -> & _ & _ & Hc & Hw & Hcase).
    assert (Hst0 : steady d (fs w0)).
    { destruct Hst as [Hd Hwr]. split.
      - rewrite Hc, get_out_dir_set_user_counts. exact Hd.
      - rewrite Hw. exact Hwr. }
    assert (Huc : user_counts (disk_config (fs w0)) = Some [mid]).
    { rewrite Hc. reflexivity. }
    destruct Hcase as [(He & _)
                      |[(bt & m & w1 & Hm & Hn & _)
                       |[(bt & m & w1 & e & Hm & _ & Hacc & _)
                        |[(bt & m & w1 & evs' & Hm & _ & Hacc & -> & Hrec)
                         |(bt & m & w1 & evs' & Hm & _ & Hacc & -> & Hrec)]]]].
    + exfalso. exact (launch_realised _ _ _ _ _ Hreal Hst0 Huc He).
    + destruct (measured_realised _ _ _ _ _ _ _ _ Hreal Hst0 Huc Hm) as (Hn' & _).
      congruence.
    + destruct (measured_realised _ _ _ _ _ _ _ _ Hreal Hst0 Huc Hm) as (_ & Ha & _).
      congruence.
    + destruct (measured_realised _ _ _ _ _ _ _ _ Hreal Hst0 Huc Hm) as (_ & Ha & Hst1).
      rewrite Hacc in Ha. injection Ha as Ha. symmetry in Ha.
      apply Z.leb_le in Ha.
      destruct (IH (mid + 1) high w1 Hst1) as (w2 & evs2 & Hrec' & Hst2); [lia|lia|].
      rewrite Hrec in Hrec'. injection Hrec' as -> -> ->.
      eauto.
    + destruct (measured_realised _ _ _ _ _ _ _ _ Hreal Hst0 Huc Hm) as (_ & Ha & Hst1).
      rewrite Hacc in Ha. injection Ha as Ha. symmetry in Ha.
      apply Z.leb_gt in Ha.
      destruct (IH low mid w1 Hst1) as (w2 & evs2 & Hrec' & Hst2); [lia|lia|].
      rewrite Hrec in Hrec'. injection Hrec' as -> -> ->.
      eauto.
Qed.

(** C2.  Against a benchmark whose trials are accepted exactly for the
    counts up to [K], and for bounds with [low < K < high], the binary
    search terminates and returns [K]. *)
Theorem binary_search_user_count_converges (echoswift : benchmark)
    (K low high : Z) (d : string) (w : World) :
  realises echoswift (fun n => n <=? K) d ->
  steady d (fs w) ->
  low < K < high ->
  exists w' evs,
    binary_search_user_count echoswift low high d w = (Ok K, w', evs).
Proof.
  intros Hreal Hst Hk.
  destruct (binary_search_loop_converges echoswift K d Hreal
              (Z.to_nat (high - low)) low high w Hst)
    as (w' & evs & Hloop & _); [lia|lia|].
  unfold binary_search_user_count, bind. rewrite Hloop. unfold ret.
  exists w', (evs ++ []). f_equal. f_equal. f_equal. lia.
Qed.

(** The synthetic benchmark realises its acceptance function. *)
Lemma synthetic_realises (rc : Z) (acc : Z -> bool) (d : string) :
  realises (synthetic rc (threshold_artifact acc)) acc d.
Proof.
  intros k f n [Hd Hw] Huc.
  assert (Hout : out_dir (disk_config f) = Some d).
  { unfold get_out_dir in Hd.
    destruct (out_dir (disk_config f)) as [d'|]; [|discriminate].
    destruct (String.eqb d' ""); [discriminate|exact Hd]. }
  unfold synthetic. rewrite Huc, Hout.
  unfold threshold_artifact.
  do 6 eexists. split; [reflexivity|].
  split; [split; [exact Hd|exact Hw]|].
  split; [simpl; apply update2_same|].
  split.
  { unfold numeric_row, metrics_table. cbn.
    split; [reflexivity|]. split; [reflexivity|]. split; eexists; reflexivity. }
  destruct (acc n); reflexivity.
Qed.

(** The search between 86 and 96 against a benchmark that accepts up
    to 90 users returns 90. *)
Lemma binary_search_user_count_converges_witness :
  exists w' evs,
    binary_search_user_count (synthetic 0 (threshold_artifact (fun n => n <=? 90)))
      86 96 "out" fresh_world = (Ok 90, w', evs).
Proof.
  apply (binary_search_user_count_converges
           (synthetic 0 (threshold_artifact (fun n => n <=? 90))) 90 86 96 "out"
           fresh_world).
  - apply synthetic_realises.
  - split; reflexivity.
  - lia.
Defined.

(** ** The linear probe *)

Lemma thresholds_met_app (a b : list event) :
  thresholds_met (a ++ b) = thresholds_met a ++ thresholds_met b.
Proof.
  induction a as [|e a IH]; [reflexivity|].
  destruct e as [| | | | | |m]; simpl; try exact IH.
  destruct m; simpl; rewrite ?IH; reflexivity.
Qed.

Lemma thresholds_not_met_app (a b : list event) :
  thresholds_not_met (a ++ b) = thresholds_not_met a ++ thresholds_not_met b.
Proof.
  induction a as [|e a IH]; [reflexivity|].
  destruct e as [| | | | | |m]; simpl; try exact IH.
  destruct m; simpl; rewrite ?IH; reflexivity.
Qed.

Lemma thresholds_helpers (q : list event) :
  Forall (fun e => helper_event e = true) q ->
  thresholds_met q = [] /\ thresholds_not_met q = [].
Proof.
  induction 1 as [|e q He _ IH]; [split; reflexivity|].
  destruct e as [| | | | | |m]; simpl in *; try discriminate; try exact IH.
  destruct m; simpl in *; try discriminate; exact IH.
Qed.

(** An iteration of the probe against a benchmark that realises [acc]:
    an accepted count is recorded and the loop goes on ten users
    higher; a rejected count ends the loop with the last accepted count
    and the rejected one. *)
Lemma adjust_user_count_loop_realised (echoswift : benchmark) (acc : Z -> bool)
    (fuel : nat) (d : string) (st : probe_state) (w : World)
    (res : result probe_exit) (w' : World) (evs : list event) :
  realises echoswift acc d ->
  steady d (fs w) ->
  get_out_dir (config st) = Some d ->
  adjust_user_count_loop echoswift (S fuel) d st w = (res, w', evs) ->
  let n := user_count st in
  let c := set_user_counts (config st) n in
  exists bt m tail,
    map user_counts (launched evs) = Some [n] :: map user_counts (launched tail)
    /\ thresholds_met evs = thresholds_met tail
    /\ thresholds_not_met evs = thresholds_not_met tail
    /\ if acc n then
         exists w1 evs',
           steady d (fs w1)
           /\ tail = EvPrint (MsgTrial Probe n m) :: EvPrint (MsgThresholdMet n) :: evs'
           /\ adjust_user_count_loop echoswift fuel d
                {| config := c;
                   user_count := n + increment;
                   previous_user_count := n;
                   optimal_user_count := n;
                   final_metrics := Some m;
                   benchmark_time := bt |} w1 = (res, w', evs')
       else
         res = Ok (ThresholdNotMet
                     {| config := c;
                        user_count := n;
                        previous_user_count := previous_user_count st;
                        optimal_user_count := optimal_user_count st;
                        final_metrics := final_metrics st;
                        benchmark_time := bt |})
         /\ steady d (fs w')
         /\ tail = [EvPrint (MsgTrial Probe n m); EvPrint (MsgThresholdNotMet n)].
Proof.
  intros Hreal Hst Hd Hrun n c.
  apply adjust_user_count_loop_step in Hrun. cbv zeta in Hrun.
  fold n in Hrun. fold c in Hrun.
  destruct Hrun as (q & tail & w0 & bt & -> & Hq & _ & Hc & Hw & Hcase).
  assert (Hst0 : steady d (fs w0)).
  { destruct Hst as [_ Hwr]. split.
    - rewrite Hc. exact Hd.
    - rewrite Hw. exact Hwr. }
  assert (Huc : user_counts (disk_config (fs w0)) = Some [n]).
  { rewrite Hc. reflexivity. }
  assert (Hl : map user_counts (launched (EvDump c :: EvLaunch c :: q ++ tail))
               = Some [n] :: map user_counts (launched tail)).
  { simpl. rewrite launched_app, (launched_helpers q Hq). reflexivity. }
  destruct (thresholds_helpers q Hq) as [Hq1 Hq2].
  assert (Ht1 : thresholds_met (EvDump c :: EvLaunch c :: q ++ tail)
                = thresholds_met tail).
  { simpl. rewrite thresholds_met_app, Hq1. reflexivity. }
  assert (Ht2 : thresholds_not_met (EvDump c :: EvLaunch c :: q ++ tail)
                = thresholds_not_met tail).
  { simpl. rewrite thresholds_not_met_app, Hq2. reflexivity. }
  destruct Hcase as [(He & _)
                    |[(m & Hm & Hn & _)
                     |[(m & e & Hm & _ & Hacc & _)
                      |[(m & w1 & evs' & Hm & _ & Hacc & -> & Hrec)
                       |(m & Hm & _ & Hacc & -> & ->)]]]].
  - exfalso. exact (launch_realised _ _ _ _ _ Hreal Hst0 Huc He).
  - destruct (measured_realised _ _ _ _ _ _ _ _ Hreal Hst0 Huc Hm) as (Hn' & _).
    congruence.
  - destruct (measured_realised _ _ _ _ _ _ _ _ Hreal Hst0 Huc Hm) as (_ & Ha & _).
    congruence.
  - destruct (measured_realised _ _ _ _ _ _ _ _ Hreal Hst0 Huc Hm) as (_ & Ha & Hst1).
    rewrite Hacc in Ha. injection Ha as Ha.
    exists bt, m, (EvPrint (MsgTrial Probe n m) :: EvPrint (MsgThresholdMet n) :: evs').
    split; [exact Hl|]. split; [exact Ht1|]. split; [exact Ht2|].
    rewrite <- Ha. eauto.
  - destruct (measured_realised _ _ _ _ _ _ _ _ Hreal Hst0 Huc Hm) as (_ & Ha & Hst1).
    rewrite Hacc in Ha. injection Ha as Ha.
    exists bt, m, [EvPrint (MsgTrial Probe n m); EvPrint (MsgThresholdNotMet n)].
    split; [exact Hl|]. split; [exact Ht1|]. split; [exact Ht2|].
    rewrite <- Ha. auto.
Qed.


(** ** The dispatch discipline *)

Lemma helpers_quiet (q : list event) :
  Forall (fun e => helper_event e = true) q ->
  Forall (fun e => quiet_event e = true) q.
Proof.
  intros H. eapply Forall_impl; [|exact H].
  intros [] He; simpl in *; congruence.
Qed.

Lemma dispatched_quiet_app (P : Z -> Prop) (q rest : list event) :
  Forall (fun e => quiet_event e = true) q ->
  dispatched P rest ->
  dispatched P (q ++ rest).
Proof.
  intros Hq Hrest. induction Hq as [|e q He _ IH]; [exact Hrest|].
  destruct e; simpl in *; try discriminate; exact IH.
Qed.

Lemma dispatched_quiet (P : Z -> Prop) (q : list event) :
  Forall (fun e => quiet_event e = true) q -> dispatched P q.
Proof.
  intros Hq. rewrite <- (app_nil_r q). apply dispatched_quiet_app; [exact Hq|exact I].
Qed.

(** The events of one trial satisfy the discipline, whatever follows. *)
Lemma dispatched_trial (P : Z -> Prop) (c : Config) (n : Z) (q rest : list event) :
  user_counts c = Some [n] ->
  P n ->
  Forall (fun e => helper_event e = true) q ->
  collects_for n q ->
  dispatched P rest ->
  dispatched P (EvDump c :: EvLaunch c :: q ++ rest).
Proof.
  intros Huc Hp Hq Hcol Hrest.
  cbn [dispatched].
  split; [reflexivity|]. split.
  - exists n. split; [exact Huc|]. split; [exact Hp|].
    destruct q as [|e q]; [contradiction|].
    destruct e; simpl in *; auto.
  - apply dispatched_quiet_app; [apply helpers_quiet; exact Hq|exact Hrest].
Qed.

Lemma dispatched_binary_search_loop (echoswift : benchmark) (P : Z -> Prop)
    (fuel : nat) :
  forall low high d w res w' evs rest,
    (forall n, low <= n < high -> P n) ->
    binary_search_loop echoswift fuel low high d w = (res, w', evs) ->
    dispatched P rest ->
    dispatched P (evs ++ rest).
Proof.
  induction fuel as [|fuel IH]; intros low high d w res w' evs rest HP Hrun Hrest.
  - cbn [binary_search_loop] in Hrun.
    destruct (low <? high); [|apply ret_inv in Hrun];
      [injection Hrun as <- <- <-|destruct Hrun as (_ & _ & ->)]; exact Hrest.
  - destruct (Z_lt_dec low high) as [Hlt|Hge].
    2:{ cbn [binary_search_loop] in Hrun.
        assert (Hb : (low <? high) = false) by (apply Z.ltb_ge; lia).
        rewrite Hb in Hrun. apply ret_inv in Hrun.
        destruct Hrun as (_ & _ & ->). exact Hrest. }
    pose proof (mid_between low high Hlt) as Hmid.
    apply (binary_search_loop_step echoswift fuel low high d w res w' evs Hlt) in Hrun.
    cbv zeta in Hrun.
    set (mid := (low + high) / 2) in *.
    destruct Hrun as (q & tail & w0 & -> & Hq & Hcol & _ & _ & Hcase).
    cbn [app]. rewrite <- app_assoc.
    apply (dispatched_trial P _ mid); auto.
    destruct Hcase as [(_ & _ & ->)
                      |[(bt & m & w1 & _ & _ & _ & ->)
                       |[(bt & m & w1 & e & _ & _ & _ & _ & ->)
                        |[(bt & m & w1 & evs' & _ & _ & _ & -> & Hrec)
                         |(bt & m & w1 & evs' & _ & _ & _ & -> & Hrec)]]]];
      cbn [app dispatched]; try exact Hrest.
    + eapply IH; [|exact Hrec|exact Hrest]. intros n Hn. apply HP. lia.
    + eapply IH; [|exact Hrec|exact Hrest]. intros n Hn. apply HP. lia.
Qed.


(** ** The whole search *)

Lemma mkdir_results_result (d : string) (w : World) :
  (exists w1, mkdir_results d w = (Ok tt, w1, [])
              /\ disk_config (fs w1) = disk_config (fs w)
              /\ writable (fs w1) = writable (fs w))
  \/ mkdir_results d w = (Raised OSError, w, []).
Proof.
  unfold mkdir_results.
  destruct (results_dir (fs w) d); [left; eauto|].
  destruct (writable (fs w) d); [left; eauto|right; reflexivity].
Qed.

(** The course of [adjust_user_count]: it stops at once without
    [out_dir] or when the results folder cannot be created; otherwise
    the probe runs, then after a rejected count the binary search and
    one more extraction, and then the conclusion. *)
Lemma adjust_user_count_inv (echoswift : benchmark) (fuel : nat) (w : World)
    (res : result (option Z)) (w' : World) (evs : list event) :
  adjust_user_count echoswift fuel w = (res, w', evs) ->
  (get_out_dir (disk_config (fs w)) = None
   /\ res = Ok None /\ evs = [EvPrint MsgOutDirMissing])
  \/ (exists d,
        get_out_dir (disk_config (fs w)) = Some d
        /\ ((res = Raised OSError /\ evs = [])
            \/ exists w1 lres w2 levs,
                 disk_config (fs w1) = disk_config (fs w)
                 /\ writable (fs w1) = writable (fs w)
                 /\ adjust_user_count_loop echoswift fuel d
                      (initial_probe_state (disk_config (fs w))) w1
                    = (lres, w2, levs)
                 /\ ((lres = Unfinished /\ res = Unfinished /\ evs = levs)
                     \/ (exists e, lres = Raised e /\ res = Raised e /\ evs = levs)
                     \/ (exists st fevs,
                           lres = Ok (Broke st)
                           /\ concluded st res fevs
                           /\ evs = levs ++ fevs)
                     \/ (exists st bres w3 bevs,
                           lres = Ok (ThresholdNotMet st)
                           /\ binary_search_user_count echoswift
                                (previous_user_count st) (user_count st) d w2
                              = (bres, w3, bevs)
                           /\ ((bres = Unfinished /\ res = Unfinished
                                /\ evs = levs ++ bevs)
                               \/ (exists e, bres = Raised e /\ res = Raised e
                                             /\ evs = levs ++ bevs)
                               \/ (exists optimal metrics q fevs,
                                     bres = Ok optimal
                                     /\ extract_metrics_from_avg_response d optimal w3
                                        = (Ok metrics, w3, q)
                                     /\ Forall (fun e => helper_event e = true) q
                                     /\ concluded
                                          {| config := config st;
                                             user_count := user_count st;
                                             previous_user_count := previous_user_count st;
                                             optimal_user_count := optimal;
                                             final_metrics := Some metrics;
                                             benchmark_time := benchmark_time st |}
                                          res fevs
                                     /\ evs = levs ++ bevs ++ q ++ fevs)))))).
Proof.
  intros Hrun. unfold adjust_user_count in Hrun.
  apply load_then_inv in Hrun.
  destruct (get_out_dir (disk_config (fs w))) as [d|].
  2:{ apply bind_print_inv in Hrun. destruct Hrun as (t & Hk & ->).
      apply ret_inv in Hk. destruct Hk as (-> & -> & ->). left. auto. }
  right. exists d. split; [reflexivity|].
  apply bind_inv in Hrun.
  destruct (mkdir_results_result d w) as [(w1 & Hmk & Hc1 & Hw1)|Hmk]; rewrite Hmk in Hrun.
  2:{ destruct Hrun as [(a & w2 & t1 & t2 & Ha & _)|[(e & He & ->)|(He & _)]];
        try discriminate.
      injection He as <- <- <-. left. auto. }
  destruct Hrun as [(a & w1' & t1 & t2 & Ha & Hk & ->)|[(e & He & _)|(He & _)]];
    try discriminate.
  injection Ha as <- <- <-. cbn [app].
  right. fold (initial_probe_state (disk_config (fs w))) in Hk.
  apply bind_inv in Hk.
  destruct (adjust_user_count_loop echoswift fuel d
              (initial_probe_state (disk_config (fs w))) w1)
    as [[lres w2] levs] eqn:Hloop.
  exists w1, lres, w2, levs.
  split; [exact Hc1|]. split; [exact Hw1|]. split; [exact Hloop|].
  destruct Hk as [(exit & w2' & t1 & t3 & Ha & Hk & ->)
                 |[(e & He & ->)|(He & ->)]].
  2:{ injection He as -> <- <-. right. left. eauto. }
  2:{ injection He as -> <- <-. left. auto. }
  injection Ha as -> <- <-.
  right. right.
  apply bind_inv in Hk.
  destruct exit as [st|st].
  - left.
    destruct Hk as [(a & w3 & t1 & t4 & Ha & Hk & ->)|[(e & He & _)|(He & _)]];
      try discriminate.
    apply ret_inv in Ha. destruct Ha as (Ha & -> & ->). injection Ha as ->.
    exists st, t4. split; [reflexivity|]. split; [|reflexivity].
    unfold concluded.
    destruct (final_metrics st) as [m|].
    + destruct (0 <? optimal_user_count st).
      * apply report_then_inv in Hk. destruct Hk as (w4 & msg & t5 & Hk & -> & Hmsg).
        apply ret_inv in Hk. destruct Hk as (-> & -> & ->). eauto.
      * apply bind_print_inv in Hk. destruct Hk as (t5 & Hk & ->).
        apply ret_inv in Hk. destruct Hk as (-> & -> & ->). auto.
    + apply bind_print_inv in Hk. destruct Hk as (t5 & Hk & ->).
      apply ret_inv in Hk. destruct Hk as (-> & -> & ->). auto.
  - right.
    destruct (binary_search_user_count echoswift (previous_user_count st)
                (user_count st) d w2) as [[bres w3] bevs] eqn:Hbs.
    exists st, bres, w3, bevs. split; [reflexivity|]. split; [exact Hbs|].
    destruct Hk as [(a & w4 & t1 & t4 & Ha & Hk & ->)|[(e & He & ->)|(He & ->)]].
    + apply bind_inv in Ha. rewrite Hbs in Ha.
      destruct Ha as [(optimal & w3' & t5 & t6 & Hb & Ha & ->)
                     |[(e & He & He')|(He & He')]]; try discriminate.
      injection Hb as -> <- <-.
      apply extract_then_inv in Ha.
      destruct Ha as (m & q & t7 & Hex & Ha & -> & Hq & _).
      apply ret_inv in Ha. destruct Ha as (Ha & -> & ->). injection Ha as ->.
      right. right. exists optimal, m, q, t4.
      split; [reflexivity|]. split; [exact Hex|]. split; [exact Hq|].
      split; [|rewrite app_nil_r, <- !app_assoc; reflexivity].
      unfold concluded. cbn [final_metrics optimal_user_count benchmark_time] in *.
      destruct (0 <? optimal).
      * apply report_then_inv in Hk. destruct Hk as (w5 & msg & t8 & Hk & -> & Hmsg).
        apply ret_inv in Hk. destruct Hk as (-> & -> & ->). eauto.
      * apply bind_print_inv in Hk. destruct Hk as (t8 & Hk & ->).
        apply ret_inv in Hk. destruct Hk as (-> & -> & ->). auto.
    + apply bind_inv in He. rewrite Hbs in He.
      destruct He as [(optimal & w3' & t5 & t6 & Hb & Ha & Hevs)
                     |[(e' & He & He')|(He & He')]]; try discriminate.
      * injection Hb as -> <- <-.
        apply extract_then_inv in Ha.
        destruct Ha as (m & q & t7 & Hex & Ha & -> & Hq & _).
        apply ret_inv in Ha. destruct Ha as (Ha & _). discriminate.
      * injection He as -> -> ->. injection He' as ->. right. left. eauto.
    + apply bind_inv in He. rewrite Hbs in He.
      destruct He as [(optimal & w3' & t5 & t6 & Hb & Ha & Hevs)
                     |[(e' & He & He')|(He & He')]]; try discriminate.
      * injection Hb as -> <- <-.
        apply extract_then_inv in Ha.
        destruct Ha as (m & q & t7 & Hex & Ha & -> & Hq & _).
        apply ret_inv in Ha. destruct Ha as (Ha & _). discriminate.
      * injection He as -> -> ->. left. auto.
Qed.

(** ** The continuous runner *)

Lemma bind_emit_inv {B : Type} (e : event) (k : unit -> M B) (w : World)
    (res : result B) (w' : World) (evs : list event) :
  bind (emit e) k w = (res, w', evs) ->
  exists t2, k tt w = (res, w', t2) /\ evs = e :: t2.
Proof.
  unfold bind, emit. intros H.
  destruct (k tt w) as [[r w2] t2]. injection H as <- <- <-. eauto.
Qed.

(** One iteration of the continuous loop: rewrite the configuration
    for the fixed count, launch, and stop when the launch failed or
    when one of the first four metrics is falsy; otherwise report and
    sleep. *)
Lemma continuous_iteration_inv (echoswift : benchmark) (n : Z) (d : string)
    (w : World) (res : result loop_ctl) (w' : World) (evs : list event) :
  continuous_iteration echoswift n d w = (res, w', evs) ->
  let c := set_user_counts (disk_config (fs w)) n in
  exists q tail,
    evs = EvDump c :: EvLaunch c :: q ++ tail
    /\ Forall (fun e => helper_event e = true) q
    /\ collects_for n q
    /\ ((extracted q = []
         /\ res = Ok Break
         /\ tail = [EvPrint MsgContinuousRunFailed])
        \/ (exists metrics,
              extracted q = [metrics]
              /\ first_four_truthy metrics = false
              /\ res = Ok Break
              /\ tail = [EvPrint MsgContinuousExtractFailed])
        \/ (exists metrics bt m,
              extracted q = [metrics]
              /\ first_four_truthy metrics = true
              /\ res = Ok Continue
              /\ tail = [EvReport n metrics bt; EvPrint m; EvSleep 5])).
Proof.
  intros Hrun c. unfold continuous_iteration in Hrun.
  apply load_then_inv in Hrun. fold c in Hrun.
  apply dump_then_inv in Hrun. destruct Hrun as (w0 & t & Hrun & -> & Hc & _).
  apply run_then_inv in Hrun. rewrite Hc in Hrun.
  destruct Hrun as [(w1 & e & t2 & _ & Hk & ->)|(rc & el & after & t2 & _ & Hk & ->)].
  - apply bind_print_inv in Hk. destruct Hk as (t3 & Hk & ->).
    apply ret_inv in Hk. destruct Hk as (-> & -> & ->).
    exists [EvPrint (MsgErrorRunning e)], [EvPrint MsgContinuousRunFailed].
    split; [reflexivity|]. split; [repeat constructor|]. split; [exact I|].
    left. auto.
  - apply copy_then_inv in Hk.
    destruct Hk as (w2 & q & t3 & _ & Hk & -> & Hq & Hxq).
    apply extract_then_inv in Hk.
    destruct Hk as (m & q' & t4 & _ & Hk & -> & Hq' & Hxq').
    assert (Hx : extracted (EvCopy n :: q ++ q') = [m]).
    { simpl. clear - Hxq Hxq'. induction q as [|e q IH]; [exact Hxq'|].
      destruct e; simpl in *; try discriminate; auto. }
    assert (Hh : Forall (fun e => helper_event e = true) (EvCopy n :: q ++ q')).
    { constructor; [reflexivity|]. apply Forall_app. auto. }
    exists (EvCopy n :: q ++ q'), t4.
    split; [simpl; rewrite <- app_assoc; reflexivity|].
    split; [exact Hh|]. split; [reflexivity|].
    destruct m as [[[[ttft latency] lpt] thr] tot].
    change (truthy ttft && truthy latency && truthy lpt && truthy thr)
      with (first_four_truthy (ttft, latency, lpt, thr, tot)) in Hk.
    destruct (first_four_truthy (ttft, latency, lpt, thr, tot)) eqn:Hf;
      cbn [negb] in Hk.
    + apply report_then_inv in Hk. destruct Hk as (w3 & msg & t5 & Hk & -> & _).
      apply bind_emit_inv in Hk. destruct Hk as (t6 & Hk & ->).
      apply ret_inv in Hk. destruct Hk as (-> & -> & ->).
      right. right. eauto 10.
    + apply bind_print_inv in Hk. destruct Hk as (t5 & Hk & ->).
      apply ret_inv in Hk. destruct Hk as (-> & -> & ->).
      right. left. eauto 10.
Qed.

Lemma extracted_app (a b : list event) :
  extracted (a ++ b) = extracted a ++ extracted b.
Proof.
  induction a as [|e a IH]; [reflexivity|].
  destruct e; simpl; rewrite ?IH; reflexivity.
Qed.

Lemma truthy_number (q : Q) : truthy (PyNum q) = true <-> ~ (q == 0)%Q.
Proof.
  simpl. rewrite negb_true_iff. split.
  - intros H. apply Qeq_bool_neq. exact H.
  - intros H. destruct (Qeq_bool q 0) eqn:E; [|reflexivity].
    apply Qeq_bool_iff in E. contradiction.
Qed.

Lemma truthy_sound (v : pyval) :
  truthy v = true -> v <> PyNone /\ forall q, v = PyNum q -> ~ (q == 0)%Q.
Proof.
  intros H. split.
  - intros ->. discriminate.
  - intros q ->. apply truthy_number. exact H.
Qed.

(** C10.  In an iteration of the continuous runner the extractor is
    called at most once.  When it was called and one of the first four
    components of its tuple is falsy (in particular a number equal to
    zero, and not only [None]), the iteration prints the extraction
    error and breaks out of the loop with neither the report nor the
    sleep; the report and the sleep happen exactly when all four are
    truthy, that is not [None] and not zero, and then the loop goes on.
    A broken iteration ends the loop where it stands. *)
Theorem continuous_iteration_stops_on_falsy_metric (echoswift : benchmark)
    (n : Z) (d : string) (w : World) :
  let run := continuous_iteration echoswift n d w in
  match extracted (events_of run) with
  | [] =>
      outcome run = Ok Break
      /\ existsb is_report (events_of run) = false
      /\ existsb is_sleep (events_of run) = false
  | [metrics] =>
      if first_four_truthy metrics then
        outcome run = Ok Continue
        /\ (exists bt, In (EvReport n metrics bt) (events_of run))
        /\ In (EvSleep 5) (events_of run)
      else
        outcome run = Ok Break
        /\ In (EvPrint MsgContinuousExtractFailed) (events_of run)
        /\ existsb is_report (events_of run) = false
        /\ existsb is_sleep (events_of run) = false
  | _ => False
  end
  /\ (forall k, outcome run = Ok Break ->
        continuous_loop echoswift (S k) n d w = (Ok tt, world_of run, events_of run))
  /\ (forall a b c e t,
        first_four_truthy (a, b, c, e, t) = true ->
        Forall (fun v => v <> PyNone /\ forall q, v = PyNum q -> ~ (q == 0)%Q)
               [a; b; c; e])
  /\ (forall a b c e t v,
        In v [a; b; c; e] ->
        v = PyNone \/ (exists q, v = PyNum q /\ (q == 0)%Q) ->
        first_four_truthy (a, b, c, e, t) = false).
Proof.
  intros run.
  destruct (continuous_iteration echoswift n d w) as [[res w'] evs] eqn:Hrun.
  subst run. unfold outcome, events_of, world_of. cbn [fst snd].
  pose proof Hrun as Hinv.
  apply continuous_iteration_inv in Hinv. cbv zeta in Hinv.
  destruct Hinv as (q & tail & Hevs & Hq & _ & Hcase).
  assert (Hno : forall tail', existsb is_report tail' = false ->
            existsb is_sleep tail' = false ->
            existsb is_report (EvDump (set_user_counts (disk_config (fs w)) n)
                               :: EvLaunch (set_user_counts (disk_config (fs w)) n)
                               :: q ++ tail') = false
            /\ existsb is_sleep (EvDump (set_user_counts (disk_config (fs w)) n)
                                 :: EvLaunch (set_user_counts (disk_config (fs w)) n)
                                 :: q ++ tail') = false).
  { intros tail' H1 H2. cbn [existsb is_report is_sleep orb].
    rewrite !existsb_app, H1, H2, !orb_false_r.
    clear - Hq. induction Hq as [|e q He _ IH]; [auto|].
    destruct e as [| | | | | |m]; simpl in *; try discriminate; auto. }
  assert (Hxe : forall tail', extracted (EvDump (set_user_counts (disk_config (fs w)) n)
                               :: EvLaunch (set_user_counts (disk_config (fs w)) n)
                               :: q ++ tail') = extracted q ++ extracted tail').
  { intros tail'. cbn [extracted]. apply extracted_app. }
  split; [|split; [|split]].
  - rewrite Hevs, Hxe.
    destruct Hcase as [(Hx & -> & ->)
                      |[(m & Hx & Hf & -> & ->)|(m & bt & msg & Hx & Hf & -> & ->)]];
      rewrite Hx; cbn [extracted app].
    + split; [reflexivity|]. apply Hno; reflexivity.
    + rewrite Hf. split; [reflexivity|]. split.
      * right. right. apply in_or_app. right. left. reflexivity.
      * apply Hno; reflexivity.
    + rewrite Hf. split; [reflexivity|]. split.
      * exists bt. right. right. apply in_or_app. right. left. reflexivity.
      * right. right. apply in_or_app. right. right. right. left. reflexivity.
  - intros k Hres. subst res.
    cbn [continuous_loop]. unfold bind. rewrite Hrun. unfold ret.
    rewrite app_nil_r. reflexivity.
  - intros a b c e t H. unfold first_four_truthy in H.
    apply andb_true_iff in H. destruct H as [H He].
    apply andb_true_iff in H. destruct H as [H Hc].
    apply andb_true_iff in H. destruct H as [Ha Hb].
    repeat (constructor; [apply truthy_sound; assumption|]).
    constructor.
  - intros a b c e t v Hin Hv.
    assert (Hf : truthy v = false).
    { destruct Hv as [->|(x & -> & Hx)]; [reflexivity|].
      simpl. apply Qeq_bool_iff in Hx. rewrite Hx. reflexivity. }
    unfold first_four_truthy.
    destruct Hin as [<-|[<-|[<-|[<-|[]]]]]; rewrite Hf;
      rewrite ?andb_false_r; reflexivity.
Qed.

(** With a throughput of zero in the artifact the extraction succeeds,
    and the runner stops in its first iteration without a report. *)
Example continuous_runner_stops_on_zero_throughput :
  let run := run_benchmark_with_incremental_requests
               (synthetic 0 idle_artifact) 3 20 "out" fresh_world in
  outcome run = Ok tt
  /\ extracted (events_of run)
     = [(PyNum 1500, PyNum 40, PyNum 900, PyNum 0, PyNum (0 * inject_Z 20))]
  /\ length (launched (events_of run)) = 1%nat
  /\ existsb is_report (events_of run) = false
  /\ summary_report (fs (world_of run)) "out" = None.
Proof. repeat split. Qed.

(** ** The dispatch discipline in the three loops *)

Lemma dispatched_adjust_user_count_loop (echoswift : benchmark) (P : Z -> Prop)
    (fuel : nat) :
  (forall n, P n -> P (n + increment)) ->
  forall d st w res w' evs rest,
    P (user_count st) ->
    adjust_user_count_loop echoswift fuel d st w = (res, w', evs) ->
    dispatched P rest ->
    dispatched P (evs ++ rest).
Proof.
  intros Hstep.
  induction fuel as [|fuel IH]; intros d st w res w' evs rest Hp Hrun Hrest.
  - cbn [adjust_user_count_loop] in Hrun. injection Hrun as <- <- <-. exact Hrest.
  - apply adjust_user_count_loop_step in Hrun. cbv zeta in Hrun.
    destruct Hrun as (q & tail & w0 & bt & -> & Hq & Hcol & _ & _ & Hcase).
    cbn [app]. rewrite <- app_assoc.
    apply (dispatched_trial P _ (user_count st)); auto.
    destruct Hcase as [(_ & _ & ->)
                      |[(m & _ & _ & _ & ->)
                       |[(m & e & _ & _ & _ & _ & ->)
                        |[(m & w1 & evs' & _ & _ & _ & -> & Hrec)
                         |(m & _ & _ & _ & _ & ->)]]]];
      cbn [app dispatched]; try exact Hrest.
    eapply IH; [|exact Hrec|exact Hrest]. cbn. apply Hstep. exact Hp.
Qed.

(** The probe leaves its loop for the binary search with bounds that
    are not negative. *)
Lemma adjust_user_count_loop_bounds (echoswift : benchmark) (fuel : nat) :
  forall d st w st' w' evs,
    0 <= previous_user_count st ->
    0 <= user_count st ->
    adjust_user_count_loop echoswift fuel d st w = (Ok (ThresholdNotMet st'), w', evs) ->
    0 <= previous_user_count st'.
Proof.
  induction fuel as [|fuel IH]; intros d st w st' w' evs Hprev Huc Hrun.
  - discriminate.
  - apply adjust_user_count_loop_step in Hrun. cbv zeta in Hrun.
    destruct Hrun as (q & tail & w0 & bt & _ & _ & _ & _ & _ & Hcase).
    destruct Hcase as [(_ & He & _)
                      |[(m & _ & _ & He & _)
                       |[(m & e & _ & _ & _ & He & _)
                        |[(m & w1 & evs' & _ & _ & _ & _ & Hrec)
                         |(m & _ & _ & _ & He & _)]]]]; try discriminate.
    + apply IH in Hrec; [exact Hrec|cbn; exact Huc|cbn; unfold increment; lia].
    + injection He as ->. exact Hprev.
Qed.

Lemma binary_search_user_count_inv (echoswift : benchmark) (low high : Z)
    (d : string) (w : World) (res : result Z) (w' : World) (evs : list event) :
  binary_search_user_count echoswift low high d w = (res, w', evs) ->
  exists lres,
    binary_search_loop echoswift (Z.to_nat (high - low)) low high d w = (lres, w', evs)
    /\ res = match lres with
             | Ok (lo, _) => Ok (lo - 1)
             | Raised e => Raised e
             | Unfinished => Unfinished
             end.
Proof.
  unfold binary_search_user_count. intros H. apply bind_inv in H.
  destruct H as [([lo hi] & w1 & t1 & t2 & Ha & Hk & ->)|[(e & He & ->)|(He & ->)]].
  - apply ret_inv in Hk. destruct Hk as (-> & -> & ->).
    rewrite app_nil_r. exists (Ok (lo, hi)). auto.
  - exists (Raised e). auto.
  - exists Unfinished. auto.
Qed.

Lemma concluded_quiet (st : probe_state) (res : result (option Z)) (evs : list event) :
  concluded st res evs -> Forall (fun e => quiet_event e = true) evs.
Proof.
  unfold concluded. intros H.
  destruct (final_metrics st); [destruct (0 <? optimal_user_count st)|].
  - destruct H as (_ & msg & _ & ->). repeat constructor.
  - destruct H as (_ & ->). repeat constructor.
  - destruct H as (_ & ->). repeat constructor.
Qed.

Lemma dispatched_continuous_loop (echoswift : benchmark) (k : nat) :
  forall n d w res w' evs,
    continuous_loop echoswift k n d w = (res, w', evs) ->
    dispatched (fun m => m = n) evs.
Proof.
  induction k as [|k IH]; intros n d w res w' evs Hrun.
  - cbn [continuous_loop] in Hrun. injection Hrun as <- <- <-. exact I.
  - cbn [continuous_loop] in Hrun. apply bind_inv in Hrun.
    destruct (continuous_iteration echoswift n d w) as [[r w1] t] eqn:Hit.
    apply continuous_iteration_inv in Hit. cbv zeta in Hit.
    destruct Hit as (q & tail & -> & Hq & Hcol & Hcase).
    assert (Htail : Forall (fun e => quiet_event e = true) tail).
    { destruct Hcase as [(_ & _ & ->)|[(m & _ & _ & _ & ->)|(m & bt & msg & _ & _ & _ & ->)]];
        repeat constructor. }
    assert (Hd : forall rest, dispatched (fun m => m = n) rest ->
              dispatched (fun m => m = n)
                ((EvDump (set_user_counts (disk_config (fs w)) n)
                  :: EvLaunch (set_user_counts (disk_config (fs w)) n)
                  :: q ++ tail) ++ rest)).
    { intros rest Hrest. cbn [app]. rewrite <- app_assoc.
      apply (dispatched_trial _ _ n); auto.
      apply dispatched_quiet_app; assumption. }
    destruct Hrun as [(ctl & w2 & t1 & t2 & Ha & Hk & ->)|[(e & He & ->)|(He & ->)]].
    + injection Ha as -> <- <-. apply Hd.
      destruct ctl.
      * eapply IH. exact Hk.
      * apply ret_inv in Hk. destruct Hk as (_ & _ & ->). exact I.
    + injection He as -> <- <-. rewrite <- (app_nil_r (_ :: _)). apply Hd. exact I.
    + injection He as -> <- <-. rewrite <- (app_nil_r (_ :: _)). apply Hd. exact I.
Qed.

(** C6.  In the probe, in the binary search, in the whole of
    [adjust_user_count] and in the continuous runner, every launch of
    the benchmark comes directly after a rewrite of the configuration
    file, and finds on disk the document just written; the
    [user_counts] of that document is the one-element list of the count
    of the trial: a count of the form 56 + 10 k in the probe, a
    midpoint within the bounds in the binary search, the fixed count in
    the continuous runner; and the artifact collected after the launch
    is the one of that count. *)
Theorem launches_follow_config_rewrite (echoswift : benchmark) :
  (forall fuel d document w,
      dispatched (fun n => exists k : nat, n = 56 + 10 * Z.of_nat k)
        (events_of (adjust_user_count_loop echoswift fuel d
                      (initial_probe_state document) w)))
  /\ (forall low high d w,
        dispatched (fun n => low <= n < high)
          (events_of (binary_search_user_count echoswift low high d w)))
  /\ (forall fuel w,
        dispatched (fun n => 0 <= n) (events_of (adjust_user_count echoswift fuel w)))
  /\ (forall k n d w,
        dispatched (fun m => m = n)
          (events_of (run_benchmark_with_incremental_requests echoswift k n d w))).
Proof.
  split; [|split; [|split]].
  - intros fuel d document w.
    destruct (adjust_user_count_loop echoswift fuel d (initial_probe_state document) w)
      as [[res w'] evs] eqn:Hrun.
    unfold events_of. cbn [snd]. rewrite <- (app_nil_r evs).
    eapply dispatched_adjust_user_count_loop; [| |exact Hrun|exact I].
    + intros n (k & ->). exists (S k). unfold increment. lia.
    + exists O. reflexivity.
  - intros low high d w.
    destruct (binary_search_user_count echoswift low high d w)
      as [[res w'] evs] eqn:Hrun.
    unfold events_of. cbn [snd].
    apply binary_search_user_count_inv in Hrun. destruct Hrun as (lres & Hloop & _).
    rewrite <- (app_nil_r evs).
    eapply dispatched_binary_search_loop; [|exact Hloop|exact I]. auto.
  - intros fuel w.
    destruct (adjust_user_count echoswift fuel w) as [[res w'] evs] eqn:Hrun.
    unfold events_of. cbn [snd].
    apply adjust_user_count_inv in Hrun.
    destruct Hrun as [(_ & _ & ->)|(d & _ & [(_ & ->)|Hrun])]; [exact I|exact I|].
    destruct Hrun as (w1 & lres & w2 & levs & _ & _ & Hloop & Hcase).
    assert (Hl : forall rest, dispatched (fun n => 0 <= n) rest ->
              dispatched (fun n => 0 <= n) (levs ++ rest)).
    { intros rest Hrest.
      eapply dispatched_adjust_user_count_loop; [| |exact Hloop|exact Hrest].
      - intros n Hn. unfold increment. lia.
      - cbn. lia. }
    destruct Hcase as [(_ & _ & ->)
                      |[(e & _ & _ & ->)
                       |[(st & fevs & _ & Hc & ->)
                        |(st & bres & w3 & bevs & -> & Hbs & Hcase)]]].
    + rewrite <- (app_nil_r levs). apply Hl. exact I.
    + rewrite <- (app_nil_r levs). apply Hl. exact I.
    + apply Hl. apply dispatched_quiet. eapply concluded_quiet. exact Hc.
    + apply adjust_user_count_loop_bounds in Hloop; [|cbn; lia|cbn; lia].
      apply binary_search_user_count_inv in Hbs. destruct Hbs as (lres & Hbl & _).
      assert (Hb : forall rest, dispatched (fun n => 0 <= n) rest ->
                dispatched (fun n => 0 <= n) (bevs ++ rest)).
      { intros rest Hrest.
        eapply dispatched_binary_search_loop; [|exact Hbl|exact Hrest].
        intros n Hn. cbv beta. lia. }
      destruct Hcase as [(_ & _ & ->)
                        |[(e & _ & _ & ->)
                         |(optimal & m & q & fevs & _ & _ & Hq & Hc & ->)]].
      * apply Hl. rewrite <- (app_nil_r bevs). apply Hb. exact I.
      * apply Hl. rewrite <- (app_nil_r bevs). apply Hb. exact I.
      * apply Hl. apply Hb. apply dispatched_quiet_app.
        -- apply helpers_quiet. exact Hq.
        -- apply dispatched_quiet. eapply concluded_quiet. exact Hc.
  - intros k n d w.
    unfold run_benchmark_with_incremental_requests.
    destruct (bind (print (MsgStarting n)) (fun _ => continuous_loop echoswift k n d) w)
      as [[res w'] evs] eqn:Hrun.
    unfold events_of. cbn [snd].
    apply bind_print_inv in Hrun. destruct Hrun as (t & Hk & ->).
    cbn [dispatched]. eapply dispatched_continuous_loop. exact Hk.
Qed.

(** ** Failures of the extractor during the search *)

Lemma some_trial_accepted_app_l (a b : list event) :
  some_trial_accepted a -> some_trial_accepted (a ++ b).
Proof.
  intros (ph & n & m & Hin & Hacc). exists ph, n, m.
  split; [apply in_or_app; auto|exact Hacc].
Qed.

Lemma some_trial_accepted_app_r (a b : list event) :
  some_trial_accepted b -> some_trial_accepted (a ++ b).
Proof.
  intros (ph & n & m & Hin & Hacc). exists ph, n, m.
  split; [apply in_or_app; auto|exact Hacc].
Qed.

Lemma extraction_failed_app (a b : list event) :
  extraction_failed (a ++ b) -> extraction_failed a \/ extraction_failed b.
Proof.
  intros (ph & Hin). apply in_app_or in Hin.
  destruct Hin; [left|right]; exists ph; assumption.
Qed.

(** The probe when none of its trials is accepted: it runs one trial
    at most, reports nothing, and leaves the variables of the last
    accepted count as they were. *)
Lemma adjust_user_count_loop_none_accepted (echoswift : benchmark) (fuel : nat)
    (d : string) (st : probe_state) (w : World) (res : result probe_exit)
    (w' : World) (evs : list event) :
  adjust_user_count_loop echoswift fuel d st w = (res, w', evs) ->
  ~ some_trial_accepted evs ->
  Forall (fun e => is_report e = false) evs
  /\ match res with
     | Unfinished => evs = []
     | Raised _ => ~ extraction_failed evs
     | Ok (Broke st') =>
         final_metrics st' = final_metrics st
         /\ optimal_user_count st' = optimal_user_count st
     | Ok (ThresholdNotMet st') =>
         previous_user_count st' = previous_user_count st
         /\ ~ extraction_failed evs
     end.
Proof.
  intros Hrun Hna. destruct fuel as [|fuel].
  - cbn [adjust_user_count_loop] in Hrun. injection Hrun as <- <- <-.
    split; [constructor|reflexivity].
  - apply adjust_user_count_loop_step in Hrun. cbv zeta in Hrun.
    destruct Hrun as (q & tail & w0 & bt & -> & Hq & _ & _ & _ & Hcase).
    assert (Hrep : forall tail', Forall (fun e => is_report e = false) tail' ->
              Forall (fun e => is_report e = false)
                (EvDump (set_user_counts (config st) (user_count st))
                 :: EvLaunch (set_user_counts (config st) (user_count st))
                 :: q ++ tail')).
    { intros tail' Ht. repeat constructor. apply Forall_app. split; [|exact Ht].
      apply helpers_no_report. exact Hq. }
    assert (Hnf : forall tail',
              ~ In (EvPrint (MsgExtractFailed Probe)) tail' ->
              ~ In (EvPrint (MsgExtractFailed Refine)) tail' ->
              ~ extraction_failed
                  (EvDump (set_user_counts (config st) (user_count st))
                   :: EvLaunch (set_user_counts (config st) (user_count st))
                   :: q ++ tail')).
    { intros tail' H1 H2 (ph & Hin).
      apply in_trial_events in Hin; [|exact Hq|reflexivity].
      destruct Hin as [Hin|[Hin|Hin]]; try discriminate.
      destruct ph; contradiction. }
    destruct Hcase as [(_ & -> & ->)
                      |[(m & _ & _ & -> & ->)
                       |[(m & e & _ & _ & _ & -> & ->)
                        |[(m & w1 & evs' & _ & _ & Hacc & -> & _)
                         |(m & _ & _ & _ & -> & ->)]]]].
    + split; [apply Hrep; repeat constructor|]. cbn. auto.
    + split; [apply Hrep; repeat constructor|]. cbn. auto.
    + split; [apply Hrep; repeat constructor|].
      apply Hnf; intros [H|[]]; discriminate.
    + exfalso. apply Hna.
      exists Probe, (user_count st), m. split; [|exact Hacc].
      right. right. apply in_or_app. right. left. reflexivity.
    + split; [apply Hrep; repeat constructor|]. cbn.
      split; [reflexivity|].
      apply Hnf; intros [H|[H|[]]]; discriminate.
Qed.

Lemma thresholds_met_trial (c : Config) (q tail : list event) :
  Forall (fun e => helper_event e = true) q ->
  thresholds_met (EvDump c :: EvLaunch c :: q ++ tail) = thresholds_met tail.
Proof.
  intros Hq. cbn [thresholds_met].
  rewrite thresholds_met_app. destruct (thresholds_helpers q Hq) as [-> _].
  reflexivity.
Qed.

(** The binary search announces no accepted count of the probe and
    prints none of the probe's failures. *)
Lemma binary_search_loop_refine_only (echoswift : benchmark) (fuel : nat) :
  forall low high d w res w' evs,
    binary_search_loop echoswift fuel low high d w = (res, w', evs) ->
    thresholds_met evs = []
    /\ ~ In (EvPrint (MsgExtractFailed Probe)) evs.
Proof.
  induction fuel as [|fuel IH]; intros low high d w res w' evs Hrun.
  - cbn [binary_search_loop] in Hrun.
    destruct (low <? high); [|apply ret_inv in Hrun];
      [injection Hrun as <- <- <-|destruct Hrun as (_ & _ & ->)];
      (split; [reflexivity|intros []]).
  - destruct (Z_lt_dec low high) as [Hlt|Hge].
    2:{ cbn [binary_search_loop] in Hrun.
        assert (Hb : (low <? high) = false) by (apply Z.ltb_ge; lia).
        rewrite Hb in Hrun. apply ret_inv in Hrun.
        destruct Hrun as (_ & _ & ->). split; [reflexivity|intros []]. }
    apply (binary_search_loop_step echoswift fuel low high d w res w' evs Hlt) in Hrun.
    cbv zeta in Hrun.
    destruct Hrun as (q & tail & w0 & -> & Hq & _ & _ & _ & Hcase).
    rewrite (thresholds_met_trial _ q tail Hq).
    assert (Hin : ~ In (EvPrint (MsgExtractFailed Probe)) tail ->
              ~ In (EvPrint (MsgExtractFailed Probe))
                  (EvDump (set_user_counts (disk_config (fs w)) ((low + high) / 2))
                   :: EvLaunch (set_user_counts (disk_config (fs w)) ((low + high) / 2))
                   :: q ++ tail)).
    { intros Ht H. apply in_trial_events in H; [|exact Hq|reflexivity].
      destruct H as [H|[H|H]]; try discriminate. contradiction. }
    destruct Hcase as [(_ & _ & ->)
                      |[(bt & m & w1 & _ & _ & _ & ->)
                       |[(bt & m & w1 & e & _ & _ & _ & _ & ->)
                        |[(bt & m & w1 & evs' & _ & _ & _ & -> & Hrec)
                         |(bt & m & w1 & evs' & _ & _ & _ & -> & Hrec)]]]].
    + split; [reflexivity|]. apply Hin. intros [H|[]]; discriminate.
    + split; [reflexivity|]. apply Hin. intros [H|[]]; discriminate.
    + split; [reflexivity|]. apply Hin. intros [H|[]]; discriminate.
    + apply IH in Hrec. destruct Hrec as (Ht & Hn).
      split; [exact Ht|]. apply Hin. intros [H|H]; [discriminate|contradiction].
    + apply IH in Hrec. destruct Hrec as (Ht & Hn).
      split; [exact Ht|]. apply Hin. intros [H|H]; [discriminate|contradiction].
Qed.

(** The probe, when it breaks out after a failure, holds the last
    count it announced as accepted, with the metrics of that trial;
    when it ends in another way, none of its extractions failed. *)
Lemma adjust_user_count_loop_last_accepted (echoswift : benchmark) (fuel : nat) :
  forall d st w res w' evs,
    adjust_user_count_loop echoswift fuel d st w = (res, w', evs) ->
    0 < user_count st ->
    match res with
    | Ok (Broke st') =>
        match thresholds_met evs with
        | [] =>
            optimal_user_count st' = optimal_user_count st
            /\ final_metrics st' = final_metrics st
        | _ :: _ =>
            let n := last (thresholds_met evs) 0 in
            optimal_user_count st' = n
            /\ 0 < n
            /\ exists metrics,
                 final_metrics st' = Some metrics
                 /\ In (EvPrint (MsgTrial Probe n metrics)) evs
                 /\ accepts metrics = inr true
        end
    | _ => ~ extraction_failed evs
    end.
Proof.
  induction fuel as [|fuel IH]; intros d st w res w' evs Hrun Hpos.
  - cbn [adjust_user_count_loop] in Hrun. injection Hrun as <- <- <-.
    intros (ph & []).
  - apply adjust_user_count_loop_step in Hrun. cbv zeta in Hrun.
    destruct Hrun as (q & tail & w0 & bt & -> & Hq & _ & _ & _ & Hcase).
    rewrite (thresholds_met_trial _ q tail Hq).
    assert (Hin : ~ extraction_failed tail ->
              ~ extraction_failed
                  (EvDump (set_user_counts (config st) (user_count st))
                   :: EvLaunch (set_user_counts (config st) (user_count st))
                   :: q ++ tail)).
    { intros Ht (ph & H). apply in_trial_events in H; [|exact Hq|reflexivity].
      destruct H as [H|[H|H]]; try discriminate. apply Ht. exists ph. exact H. }
    destruct Hcase as [(_ & -> & ->)
                      |[(m & _ & _ & -> & ->)
                       |[(m & e & _ & _ & _ & -> & ->)
                        |[(m & w1 & evs' & _ & _ & Hacc & -> & Hrec)
                         |(m & _ & _ & _ & -> & ->)]]]].
    + cbn. auto.
    + cbn. auto.
    + apply Hin. intros (ph & [H|[]]). discriminate.
    + apply IH in Hrec; [|cbn; unfold increment; lia].
      cbn [thresholds_met].
      destruct res as [[st'|st']|e|];
        try (apply Hin; intros (ph & [H|[H|H]]);
             [discriminate|discriminate|apply Hrec; exists ph; exact H]).
      assert (Hlift : forall e, In e evs' ->
                In e (EvDump (set_user_counts (config st) (user_count st))
                      :: EvLaunch (set_user_counts (config st) (user_count st))
                      :: q ++ EvPrint (MsgTrial Probe (user_count st) m)
                              :: EvPrint (MsgThresholdMet (user_count st)) :: evs')).
      { intros e He. right. right. apply in_or_app. right. right. right. exact He. }
      destruct (thresholds_met evs') as [|x l] eqn:Hl.
      * cbn in Hrec. destruct Hrec as (Ho & Hf). cbn.
        split; [exact Ho|]. split; [exact Hpos|].
        exists m. split; [exact Hf|]. split; [|exact Hacc].
        right. right. apply in_or_app. right. left. reflexivity.
      * cbv zeta in Hrec. destruct Hrec as (Ho & Hn & m' & Hf & Hi & Ha).
        cbv zeta. change (last (user_count st :: x :: l) 0) with (last (x :: l) 0).
        split; [exact Ho|]. split; [exact Hn|].
        exists m'. split; [exact Hf|]. split; [apply Hlift; exact Hi|exact Ha].
    + apply Hin. intros (ph & [H|[H|[]]]); discriminate.
Qed.

Lemma concluded_events (st : probe_state) (res : result (option Z)) (evs : list event) :
  concluded st res evs ->
  thresholds_met evs = []
  /\ ~ In (EvPrint (MsgExtractFailed Probe)) evs.
Proof.
  unfold concluded. intros H.
  destruct (final_metrics st); [destruct (0 <? optimal_user_count st)|].
  - destruct H as (_ & msg & Hmsg & ->).
    destruct msg; try contradiction; (split; [reflexivity|]);
      intros [H|[H|[]]]; discriminate.
  - destruct H as (_ & ->). split; [reflexivity|]. intros [H|[]]; discriminate.
  - destruct H as (_ & ->). split; [reflexivity|]. intros [H|[]]; discriminate.
Qed.

(** C1, as amended.  When the extractor reports a failure on a trial of
    the search, [adjust_user_count] raises nothing and returns.  If no
    trial of the search, in the probe or in the binary search, was
    accepted, it returns [None] and [generate_summary_report] is not
    called.  If the failure is one of the probe and the probe had
    announced accepted counts, it returns the last of them and calls
    [generate_summary_report] for that count with the metrics of its
    accepted trial. *)
Theorem adjust_user_count_on_extraction_failure
    (echoswift : benchmark) (fuel : nat) (w : World) :
  extraction_failed (events_of (adjust_user_count echoswift fuel w)) ->
  (exists r, outcome (adjust_user_count echoswift fuel w) = Ok r)
  /\ (~ some_trial_accepted (events_of (adjust_user_count echoswift fuel w)) ->
      outcome (adjust_user_count echoswift fuel w) = Ok None
      /\ Forall (fun e => is_report e = false)
                (events_of (adjust_user_count echoswift fuel w)))
  /\ (In (EvPrint (MsgExtractFailed Probe))
         (events_of (adjust_user_count echoswift fuel w)) ->
      thresholds_met (events_of (adjust_user_count echoswift fuel w)) <> [] ->
      let n := last (thresholds_met (events_of (adjust_user_count echoswift fuel w))) 0 in
      outcome (adjust_user_count echoswift fuel w) = Ok (Some n)
      /\ exists metrics bt,
           In (EvPrint (MsgTrial Probe n metrics))
              (events_of (adjust_user_count echoswift fuel w))
           /\ accepts metrics = inr true
           /\ In (EvReport n metrics bt)
                 (events_of (adjust_user_count echoswift fuel w))).
Proof.
  destruct (adjust_user_count echoswift fuel w) as [[res w'] evs] eqn:Hrun.
  unfold events_of, outcome. cbn [fst snd]. intros Hfail.
  apply adjust_user_count_inv in Hrun.
  destruct Hrun as [(_ & -> & ->)|(d & _ & [(_ & ->)|Hrun])].
  { destruct Hfail as (ph & [H|[]]). discriminate. }
  { destruct Hfail as (ph & []). }
  destruct Hrun as (w1 & lres & w2 & levs & _ & _ & Hloop & Hcase).
  pose proof (adjust_user_count_loop_last_accepted _ _ _ _ _ _ _ _ Hloop) as Hlast.
  specialize (Hlast ltac:(cbn; lia)).
  split; [|split].
  - (* the search returns *)
    destruct Hcase as [(-> & -> & ->)
                      |[(e & -> & -> & ->)
                       |[(st & fevs & -> & Hc & ->)
                        |(st & bres & w3 & bevs & -> & Hbs & Hcase)]]];
      try contradiction.
    + unfold concluded in Hc.
      destruct (final_metrics st); [destruct (0 <? optimal_user_count st)|];
        destruct Hc as (-> & _); eauto.
    + apply binary_search_user_count_inv in Hbs. destruct Hbs as (lres & Hbl & Hbres).
      pose proof (binary_search_loop_facts echoswift _ _ _ d w2 lres w3 bevs
                    (Nat.le_refl _) Hbl) as (Hun & _ & _ & Hraise & _).
      destruct Hcase as [(-> & _)
                        |[(e & -> & -> & ->)
                         |(optimal & m & q & fevs & -> & _ & Hq & Hc & ->)]].
      * destruct lres as [[lo hi]|e|]; try discriminate. congruence.
      * destruct lres as [[lo hi]|e'|]; try discriminate.
        injection Hbres as <-.
        destruct (Hraise e eq_refl) as (Hnbf & _).
        apply extraction_failed_app in Hfail. tauto.
      * unfold concluded in Hc. cbn in Hc.
        destruct (0 <? optimal); destruct Hc as (-> & _); eauto.
  - (* no trial accepted *)
    intros Hna.
    assert (Hnl : ~ some_trial_accepted levs).
    { intros H. apply Hna.
      destruct Hcase as [(_ & _ & ->)
                        |[(e & _ & _ & ->)
                         |[(st & fevs & _ & _ & ->)
                          |(st & bres & w3 & bevs & _ & _ & Hcase)]]]; auto;
        try (apply some_trial_accepted_app_l; exact H).
      destruct Hcase as [(_ & _ & ->)|[(e & _ & _ & ->)|(o & m & q & f & _ & _ & _ & _ & ->)]];
        apply some_trial_accepted_app_l; exact H. }
    destruct (adjust_user_count_loop_none_accepted _ _ _ _ _ _ _ _ Hloop Hnl)
      as (Hrep & Hres).
    destruct Hcase as [(-> & -> & ->)
                      |[(e & -> & -> & ->)
                       |[(st & fevs & -> & Hc & ->)
                        |(st & bres & w3 & bevs & -> & Hbs & Hcase)]]].
    + subst levs. destruct Hfail as (ph & []).
    + contradiction.
    + destruct Hres as (Hfm & Hopt). unfold concluded in Hc.
      rewrite Hfm in Hc. cbn in Hc. destruct Hc as (-> & ->).
      split; [reflexivity|]. apply Forall_app. split; [exact Hrep|repeat constructor].
    + destruct Hres as (Hprev & Hnf). cbn in Hprev.
      apply binary_search_user_count_inv in Hbs. destruct Hbs as (lres & Hbl & Hbres).
      pose proof (binary_search_loop_facts echoswift _ _ _ d w2 lres w3 bevs
                    (Nat.le_refl _) Hbl) as (Hun & Hbrep & _ & Hraise & Hok).
      assert (Hnb : ~ some_trial_accepted bevs).
      { intros H. apply Hna.
        destruct Hcase as [(_ & _ & ->)|[(e & _ & _ & ->)|(o & m & q & f & _ & _ & _ & _ & ->)]];
          apply some_trial_accepted_app_r;
          try apply some_trial_accepted_app_l; exact H. }
      destruct Hcase as [(-> & _)
                        |[(e & -> & -> & ->)
                         |(optimal & m & q & fevs & -> & _ & Hq & Hc & ->)]].
      * destruct lres as [[lo hi]|e|]; try discriminate. congruence.
      * destruct lres as [[lo hi]|e'|]; try discriminate.
        injection Hbres as <-.
        destruct (Hraise e eq_refl) as (Hnbf & _).
        apply extraction_failed_app in Hfail. tauto.
      * destruct lres as [[lo hi]|e'|]; try discriminate.
        injection Hbres as ->.
        destruct (Hok lo hi eq_refl) as (_ & _ & _ & Hlo).
        rewrite (Hlo Hnb), Hprev in Hc.
        unfold concluded in Hc. cbn in Hc. destruct Hc as (-> & ->).
        split; [reflexivity|].
        apply Forall_app. split; [exact Hrep|].
        apply Forall_app. split; [exact Hbrep|].
        apply Forall_app. split; [apply helpers_no_report; exact Hq|repeat constructor].
  - (* a failure of the probe after accepted counts *)
    intros Hin Hmet.
    destruct Hcase as [(-> & -> & ->)
                      |[(e & -> & -> & ->)
                       |[(st & fevs & -> & Hc & ->)
                        |(st & bres & w3 & bevs & -> & Hbs & Hcase)]]];
      try contradiction.
    + destruct (concluded_events _ _ _ Hc) as (Hft & _).
      rewrite thresholds_met_app, Hft, app_nil_r in Hmet |- *.
      destruct (thresholds_met levs) as [|x l] eqn:Hl; [congruence|].
      cbv zeta in Hlast. destruct Hlast as (Ho & Hn & m & Hf & Hi & Ha).
      unfold concluded in Hc. rewrite Hf, Ho in Hc.
      apply Z.ltb_lt in Hn. rewrite Hn in Hc.
      destruct Hc as (-> & msg & _ & ->).
      cbv zeta. split; [reflexivity|].
      exists m, (benchmark_time st).
      split; [apply in_or_app; left; exact Hi|]. split; [exact Ha|].
      apply in_or_app. right. left. reflexivity.
    + exfalso.
      apply binary_search_user_count_inv in Hbs. destruct Hbs as (lres & Hbl & _).
      destruct (binary_search_loop_refine_only _ _ _ _ _ _ _ _ _ Hbl) as (_ & Hnb).
      assert (Hnl : ~ In (EvPrint (MsgExtractFailed Probe)) levs).
      { intros H. apply Hlast. exists Probe. exact H. }
      destruct Hcase as [(_ & _ & ->)
                        |[(e & _ & _ & ->)
                         |(optimal & m & q & fevs & _ & _ & Hq & Hc & ->)]].
      * apply in_app_or in Hin. tauto.
      * apply in_app_or in Hin. tauto.
      * destruct (concluded_events _ _ _ Hc) as (_ & Hnc).
        apply in_app_or in Hin. destruct Hin as [Hin|Hin]; [contradiction|].
        apply in_app_or in Hin. destruct Hin as [Hin|Hin]; [contradiction|].
        apply in_app_or in Hin. destruct Hin as [Hin|Hin]; [|contradiction].
        apply (in_helpers _ _ Hq) in Hin. discriminate.
Qed.

Lemma adjust_user_count_on_extraction_failure_witness :
  outcome (adjust_user_count (synthetic 0 artifact_lost_at_28) 3 fresh_world) = Ok None
  /\ Forall (fun e => is_report e = false)
            (events_of (adjust_user_count (synthetic 0 artifact_lost_at_28) 3
                          fresh_world)).
Proof.
  assert (Hfail : extraction_failed
                    (events_of (adjust_user_count (synthetic 0 artifact_lost_at_28) 3
                                  fresh_world))).
  { exists Refine. vm_compute.
    repeat (first [left; reflexivity | right]). }
  destruct (adjust_user_count_on_extraction_failure
              (synthetic 0 artifact_lost_at_28) 3 fresh_world Hfail) as (_ & Hnone & _).
  apply Hnone.
  - intros (ph & n & m & Hin & Hacc). vm_compute in Hin.
    repeat match goal with
           | H : _ \/ _ |- _ => destruct H as [H|H]
           end;
      try discriminate; try contradiction;
      injection Hin as <- <- <-; vm_compute in Hacc; discriminate.
Defined.

(** C1 as stated fails.  The count of 56 users is accepted, the trial
    at 66 leaves no artifact and the extractor reports the failure; the
    search then returns 56, not [None], and writes the summary report
    of the 56 users. *)
Lemma adjust_user_count_failure_after_accepted_trial_counterexample :
  let run := adjust_user_count (synthetic 0 artifact_lost_at_66) 5 fresh_world in
  In (EvExtract "out" 66 no_metrics) (events_of run)
  /\ In (EvPrint (MsgExtractFailed Probe)) (events_of run)
  /\ outcome run = Ok (Some 56)
  /\ existsb is_report (events_of run) = true
  /\ summary_report (fs (world_of run)) "out"
     = Some [summary_row 56 (PyNum 1500, PyNum 40, PyNum 900, PyNum 25,
                             PyNum (25 * inject_Z 56))
                         (PyNum 1)].
Proof.
  vm_compute.
  split; [repeat (first [left; reflexivity | right])|].
  split; [repeat (first [left; reflexivity | right])|].
  repeat split.
Qed.

(** A failure in the binary search after an accepted probe: 56 users
    are accepted, 66 rejected, and the trial at the midpoint 61 leaves
    no artifact.  The search falls back to [low - 1 = 55], a count that
    was never run; the extraction for 55 fails as well, but its tuple
    of [None]s is a non-empty tuple, so the report is written for 55
    users with empty metrics and 55 is returned. *)
Example adjust_user_count_failure_in_binary_search :
  let run := adjust_user_count (synthetic 0 artifact_lost_at_61) 5 fresh_world in
  In (EvPrint (MsgExtractFailed Refine)) (events_of run)
  /\ map user_counts (launched (events_of run)) = [Some [56]; Some [66]; Some [61]]
  /\ outcome run = Ok (Some 55)
  /\ summary_report (fs (world_of run)) "out"
     = Some [summary_row 55 no_metrics (PyNum 1)].
Proof.
  vm_compute.
  split; [repeat (first [left; reflexivity | right])|].
  repeat split.
Qed.

(** The whole search against a benchmark that is accepted exactly
    below 86 users: the probe goes from 56 to 86, the binary search
    between 76 and 86 tries 81, 84 and 85, and the report is written
    for 85 users. *)
Example adjust_user_count_end_to_end :
  let run := adjust_user_count (synthetic 0 (threshold_artifact (fun n => n <? 86)))
               10 fresh_world in
  outcome run = Ok (Some 85)
  /\ map user_counts (launched (events_of run))
     = [Some [56]; Some [66]; Some [76]; Some [86]; Some [81]; Some [84]; Some [85]]
  /\ summary_report (fs (world_of run)) "out"
     = Some [summary_row 85 (PyNum 1500, PyNum 40, PyNum 900, PyNum 25,
                             PyNum (25 * inject_Z 85))
                         (PyNum 1)].
Proof. vm_compute. repeat split. Qed.

(** ** Collecting the artifact *)

Lemma update2_other {A : Type} (f : string -> Z -> A) (d d' : string) (n n' : Z)
    (v : A) :
  d' <> d \/ n' <> n -> update2 f d n v d' n' = f d' n'.
Proof.
  intros H. unfold update2.
  destruct (String.eqb d' d) eqn:Ed; [|reflexivity].
  destruct (Z.eqb n' n) eqn:En; [|reflexivity].
  apply String.eqb_eq in Ed. apply Z.eqb_eq in En. tauto.
Qed.

(** The ways [copy_avg_response] ends, with the files it leaves. *)
Lemma copy_avg_response_cases (n : Z) (w : World) :
  exists w' evs,
    copy_avg_response n w = (Ok tt, w', evs)
    /\ disk_config (fs w') = disk_config (fs w)
    /\ user_folder (fs w') = user_folder (fs w)
    /\ summary_report (fs w') = summary_report (fs w)
    /\ writable (fs w') = writable (fs w)
    /\ runs w' = runs w
    /\ match get_out_dir (disk_config (fs w)) with
       | None =>
           w' = w /\ evs = [EvCopy n; EvPrint MsgOutDirMissing]
       | Some d =>
           if results_dir (fs w) d || writable (fs w) d then
             (forall d', results_dir (fs w') d' = update1 (results_dir (fs w)) d true d')
             /\ match user_folder (fs w) d n with
                | Some src =>
                    if writable (fs w) d then
                      (forall d' n', results_csv (fs w') d' n'
                                     = update2 (results_csv (fs w)) d n (Some src) d' n')
                      /\ evs = [EvCopy n; EvPrint (MsgCopied d n)]
                    else
                      results_csv (fs w') = results_csv (fs w)
                      /\ evs = [EvCopy n; EvPrint (MsgUnexpected OSError)]
                | None =>
                    results_csv (fs w') = results_csv (fs w)
                    /\ evs = [EvCopy n; EvPrint (MsgSourceNotFound d n)]
                end
           else
             w' = w /\ evs = [EvCopy n; EvPrint (MsgUnexpected OSError)]
       end.
Proof.
  unfold copy_avg_response, mkdir_results, shutil_copy. unfold_monad.
  destruct w as [f k]; simpl.
  destruct (get_out_dir (disk_config f)) as [d|]; simpl.
  2:{ do 2 eexists. split; [reflexivity|]. simpl. auto 10. }
  destruct (results_dir f d) eqn:Hdir; simpl.
  - assert (Hsame : forall d', results_dir f d' = update1 (results_dir f) d true d').
    { intros d'. unfold update1. destruct (String.eqb d' d) eqn:E; [|reflexivity].
      apply String.eqb_eq in E. subst d'. exact Hdir. }
    destruct (user_folder f d n) as [src|]; simpl.
    + rewrite Hdir. destruct (writable f d) eqn:Hw; simpl;
        do 2 eexists; (split; [reflexivity|]); simpl; auto 10.
    + do 2 eexists. split; [reflexivity|]. simpl. auto 10.
  - destruct (writable f d) eqn:Hw; simpl.
    + destruct (user_folder f d n) as [src|]; simpl.
      * rewrite update1_same, Hw. simpl.
        do 2 eexists. split; [reflexivity|]. simpl. auto 10.
      * do 2 eexists. split; [reflexivity|]. simpl. auto 10.
    + do 2 eexists. split; [reflexivity|]. simpl. auto 10.
Qed.

(** X1.  [copy_avg_response] never raises and changes nothing but the
    results folder of the configured directory: the configuration, the
    user folders, the summary reports and the copies kept for other
    user counts or under other directories stay as they are, and no
    results folder is ever removed. *)
Theorem copy_avg_response_touches_only_its_copy (n : Z) (w : World) :
  exists w' evs,
    copy_avg_response n w = (Ok tt, w', evs)
    /\ disk_config (fs w') = disk_config (fs w)
    /\ user_folder (fs w') = user_folder (fs w)
    /\ summary_report (fs w') = summary_report (fs w)
    /\ writable (fs w') = writable (fs w)
    /\ (forall d' n',
          get_out_dir (disk_config (fs w)) <> Some d' \/ n' <> n ->
          results_csv (fs w') d' n' = results_csv (fs w) d' n')
    /\ (forall d',
          get_out_dir (disk_config (fs w)) <> Some d' ->
          results_dir (fs w') d' = results_dir (fs w) d')
    /\ (forall d', results_dir (fs w) d' = true -> results_dir (fs w') d' = true).
Proof.
  destruct (copy_avg_response_cases n w)
    as (w' & evs & Hrun & Hc & Hu & Hs & Hw & _ & Hcase).
  exists w', evs. split; [exact Hrun|]. split; [exact Hc|]. split; [exact Hu|].
  split; [exact Hs|]. split; [exact Hw|].
  destruct (get_out_dir (disk_config (fs w))) as [d|].
  2:{ destruct Hcase as (-> & _). auto. }
  destruct (results_dir (fs w) d || writable (fs w) d).
  2:{ destruct Hcase as (-> & _). auto. }
  destruct Hcase as (Hdir & Hcsv).
  assert (Hkeep : forall d' n', Some d <> Some d' \/ n' <> n ->
            results_csv (fs w') d' n' = results_csv (fs w) d' n').
  { intros d' n' Hne.
    destruct (user_folder (fs w) d n) as [src|]; [destruct (writable (fs w) d)|];
      try (destruct Hcsv as (-> & _); reflexivity).
    destruct Hcsv as (Hcsv & _). rewrite Hcsv. apply update2_other.
    destruct Hne as [Hne|Hne]; [left|right; exact Hne].
    intros ->. apply Hne. reflexivity. }
  split; [exact Hkeep|]. split.
  - intros d' Hne. rewrite Hdir. apply update1_other. intros ->. apply Hne. reflexivity.
  - intros d' Ht. rewrite Hdir. unfold update1.
    destruct (String.eqb d' d); [reflexivity|exact Ht].
Qed.

(** X2.  With [out_dir] configured as [d] and writable and the artifact
    of [n] users present in the user folder, [copy_avg_response] creates
    the results folder if need be and leaves the artifact as the copy
    for [n], in place of whatever copy was there before. *)
Theorem copy_avg_response_replaces_copy (d : string) (n : Z) (src : csv) (w : World) :
  steady d (fs w) ->
  user_folder (fs w) d n = Some src ->
  outcome (copy_avg_response n w) = Ok tt
  /\ results_csv (fs (world_of (copy_avg_response n w))) d n = Some src
  /\ results_dir (fs (world_of (copy_avg_response n w))) d = true
  /\ events_of (copy_avg_response n w) = [EvCopy n; EvPrint (MsgCopied d n)].
Proof.
  intros [Hd Hw] Hsrc.
  destruct (copy_avg_response_cases n w)
    as (w' & evs & Hrun & _ & _ & _ & _ & _ & Hcase).
  rewrite Hrun. unfold outcome, world_of, events_of. cbn [fst snd].
  rewrite Hd, Hw, orb_true_r, Hsrc in Hcase.
  destruct Hcase as (Hdir & Hcsv & ->).
  split; [reflexivity|]. split; [|split; [|reflexivity]].
  - rewrite Hcsv. apply update2_same.
  - rewrite Hdir. apply update1_same.
Qed.

Lemma copy_avg_response_replaces_copy_witness :
  outcome (copy_avg_response 40 fresh_artifact_world) = Ok tt
  /\ results_csv (fs (world_of (copy_avg_response 40 fresh_artifact_world))) "out" 40
     = Some (metrics_table (PyNum 1500) (PyNum 40) (PyNum 900) (PyNum 25))
  /\ results_dir (fs (world_of (copy_avg_response 40 fresh_artifact_world))) "out" = true
  /\ events_of (copy_avg_response 40 fresh_artifact_world)
     = [EvCopy 40; EvPrint (MsgCopied "out" 40)].
Proof.
  apply (copy_avg_response_replaces_copy "out" 40
           (metrics_table (PyNum 1500) (PyNum 40) (PyNum 900) (PyNum 25))
           fresh_artifact_world).
  - split; reflexivity.
  - reflexivity.
Defined.

(** X3.  Collecting the artifact of the same user count a second time
    changes nothing: the results folder and every copy in it are after
    the second call what they were after the first. *)
Theorem copy_avg_response_idempotent (n : Z) (w : World) :
  let once := world_of (copy_avg_response n w) in
  let twice := world_of (copy_avg_response n once) in
  (forall d' n', results_csv (fs twice) d' n' = results_csv (fs once) d' n')
  /\ (forall d', results_dir (fs twice) d' = results_dir (fs once) d')
  /\ disk_config (fs twice) = disk_config (fs once)
  /\ user_folder (fs twice) = user_folder (fs once)
  /\ summary_report (fs twice) = summary_report (fs once)
  /\ writable (fs twice) = writable (fs once).
Proof.
  intros once twice. subst twice once.
  destruct (copy_avg_response_cases n w)
    as (w1 & evs1 & Hrun1 & Hc1 & Hu1 & _ & Hw1 & _ & Hcase1).
  rewrite Hrun1. unfold world_of. cbn [fst snd].
  destruct (copy_avg_response_cases n w1)
    as (w2 & evs2 & Hrun2 & Hc2 & Hu2 & Hs2 & Hw2 & _ & Hcase2).
  rewrite Hrun2. cbn [fst snd].
  rewrite Hc1, Hu1, Hw1 in Hcase2.
  split; [|split; [|auto]].
  - intros d' n'.
    destruct (get_out_dir (disk_config (fs w))) as [d|].
    2:{ destruct Hcase2 as (-> & _). reflexivity. }
    destruct (results_dir (fs w1) d || writable (fs w) d).
    2:{ destruct Hcase2 as (-> & _). reflexivity. }
    destruct Hcase2 as (_ & Hcsv2).
    destruct (user_folder (fs w) d n) as [src|]; [destruct (writable (fs w) d) eqn:Hw|];
      try (destruct Hcsv2 as (-> & _); reflexivity).
    destruct Hcsv2 as (Hcsv2 & _). rewrite Hcsv2.
    rewrite orb_true_r in Hcase1. destruct Hcase1 as (_ & Hcsv1 & _).
    unfold update2. destruct (String.eqb d' d && Z.eqb n' n) eqn:E; [|reflexivity].
    rewrite Hcsv1. unfold update2. rewrite E. reflexivity.
  - intros d'.
    destruct (get_out_dir (disk_config (fs w))) as [d|].
    2:{ destruct Hcase2 as (-> & _). reflexivity. }
    destruct (results_dir (fs w1) d || writable (fs w) d) eqn:E2.
    2:{ destruct Hcase2 as (-> & _). reflexivity. }
    destruct Hcase2 as (Hdir2 & _). rewrite Hdir2.
    unfold update1. destruct (String.eqb d' d) eqn:E; [|reflexivity].
    apply String.eqb_eq in E. subst d'.
    destruct (results_dir (fs w) d || writable (fs w) d) eqn:E1.
    + destruct Hcase1 as (Hdir1 & _). rewrite Hdir1. symmetry. apply update1_same.
    + destruct Hcase1 as (-> & _).
      apply orb_false_iff in E1. destruct E1 as [E1 E1'].
      rewrite E1, E1' in E2. discriminate.
Qed.

(** X4.  When the user folder holds no artifact for [n], the copy kept
    from an earlier run is left in the results folder, and the
    extractor called next returns the metrics of that earlier run. *)
Theorem copy_avg_response_keeps_earlier_copy (d : string) (n : Z) (w : World) :
  get_out_dir (disk_config (fs w)) = Some d ->
  user_folder (fs w) d n = None ->
  results_csv (fs (world_of (copy_avg_response n w))) = results_csv (fs w)
  /\ (forall d' n',
        outcome (extract_metrics_from_avg_response d' n'
                   (world_of (copy_avg_response n w)))
        = outcome (extract_metrics_from_avg_response d' n' w))
  /\ (results_dir (fs w) d || writable (fs w) d = true ->
      In (EvPrint (MsgSourceNotFound d n)) (events_of (copy_avg_response n w))).
Proof.
  intros Hd Hsrc.
  destruct (copy_avg_response_cases n w)
    as (w' & evs & Hrun & _ & _ & _ & _ & _ & Hcase).
  rewrite Hrun. unfold outcome, world_of, events_of. cbn [fst snd].
  rewrite Hd, Hsrc in Hcase.
  assert (Hcsv : results_csv (fs w') = results_csv (fs w)).
  { destruct (results_dir (fs w) d || writable (fs w) d).
    - destruct Hcase as (_ & H & _). exact H.
    - destruct Hcase as (-> & _). reflexivity. }
  split; [exact Hcsv|]. split.
  - intros d' n'.
    destruct (extract_metrics_result d' n' w') as (m' & q' & Hex' & _ & _ & Hm').
    destruct (extract_metrics_result d' n' w) as (m & q & Hex & _ & _ & Hm).
    rewrite Hex', Hex. cbn [fst]. rewrite Hm', Hm, Hcsv. reflexivity.
  - intros Hok. rewrite Hok in Hcase. destruct Hcase as (_ & _ & ->).
    right. left. reflexivity.
Qed.

Lemma copy_avg_response_keeps_earlier_copy_witness :
  outcome (extract_metrics_from_avg_response "out" 40
             (world_of (copy_avg_response 40 stale_copy_world)))
  = Ok (PyNum 1200, PyNum 35, PyNum 800, PyNum 30, PyNum (30 * inject_Z 40)).
Proof.
  destruct (copy_avg_response_keeps_earlier_copy "out" 40 stale_copy_world)
    as (_ & H & _); [reflexivity|reflexivity|].
  rewrite H. reflexivity.
Defined.

(** ** What the binary search returns without monotonicity *)

Lemma binary_search_loop_brackets (echoswift : benchmark) (fuel : nat) :
  forall low high d w lo hi w' evs,
    binary_search_loop echoswift fuel low high d w = (Ok (lo, hi), w', evs) ->
    (lo = low
     \/ exists m, In (EvPrint (MsgTrial Refine (lo - 1) m)) evs /\ accepts m = inr true)
    /\ (hi = high
        \/ exists m, In (EvPrint (MsgTrial Refine hi m)) evs /\ accepts m = inr false).
Proof.
  induction fuel as [|fuel IH]; intros low high d w lo hi w' evs Hrun.
  - cbn [binary_search_loop] in Hrun.
    destruct (low <? high); [discriminate|].
    apply ret_inv in Hrun. destruct Hrun as (H & _). injection H as <- <-. auto.
  - destruct (Z_lt_dec low high) as [Hlt|Hge].
    2:{ cbn [binary_search_loop] in Hrun.
        assert (Hb : (low <? high) = false) by (apply Z.ltb_ge; lia).
        rewrite Hb in Hrun. apply ret_inv in Hrun.
        destruct Hrun as (H & _). injection H as <- <-. auto. }
    apply (binary_search_loop_step echoswift fuel low high d w _ w' evs Hlt) in Hrun.
    cbv zeta in Hrun.
    set (mid := (low + high) / 2) in *.
    destruct Hrun as (q & tail & w0 & -> & Hq & _ & _ & _ & Hcase).
    assert (Hlift : forall e tail', In e tail' ->
              In e (EvDump (set_user_counts (disk_config (fs w)) mid)
                    :: EvLaunch (set_user_counts (disk_config (fs w)) mid)
                    :: q ++ tail')).
    { intros e tail' He. right. right. apply in_or_app. right. exact He. }
    destruct Hcase as [(_ & H & _)
                      |[(bt & m & w1 & _ & _ & H & _)
                       |[(bt & m & w1 & e & _ & _ & _ & H & _)
                        |[(bt & m & w1 & evs' & _ & _ & Hacc & -> & Hrec)
                         |(bt & m & w1 & evs' & _ & _ & Hacc & -> & Hrec)]]]];
      try discriminate.
    + injection H as <- <-. auto.
    + injection H as <- <-. auto.
    + apply IH in Hrec. destruct Hrec as (Hlo & Hhi). split.
      * destruct Hlo as [->|(m' & Hin & Hm')].
        -- right. exists m. replace (mid + 1 - 1) with mid by lia.
           split; [|exact Hacc]. apply Hlift. left. reflexivity.
        -- right. exists m'. split; [|exact Hm']. apply Hlift. right. exact Hin.
      * destruct Hhi as [->|(m' & Hin & Hm')]; [left; reflexivity|].
        right. exists m'. split; [|exact Hm']. apply Hlift. right. exact Hin.
    + apply IH in Hrec. destruct Hrec as (Hlo & Hhi). split.
      * destruct Hlo as [->|(m' & Hin & Hm')]; [left; reflexivity|].
        right. exists m'. split; [|exact Hm']. apply Hlift. right. exact Hin.
      * destruct Hhi as [->|(m' & Hin & Hm')].
        -- right. exists m. split; [|exact Hacc]. apply Hlift. left. reflexivity.
        -- right. exists m'. split; [|exact Hm']. apply Hlift. right. exact Hin.
Qed.

(** X5.  Whatever the benchmark does, monotone or not, a count [v]
    returned by the binary search is either [low - 1] or the count of a
    trial of this search that was accepted; and when no failure broke
    the search off, [v + 1] is either [high] or the count of a trial of
    this search that was rejected. *)
Theorem binary_search_user_count_returns_boundary (echoswift : benchmark)
    (low high : Z) (d : string) (w : World) :
  let run := binary_search_user_count echoswift low high d w in
  match outcome run with
  | Ok v =>
      (v = low - 1
       \/ exists m, In (EvPrint (MsgTrial Refine v m)) (events_of run)
                    /\ accepts m = inr true)
      /\ (low <= high ->
          ~ In (EvPrint (MsgRunFailed Refine)) (events_of run) ->
          ~ In (EvPrint (MsgExtractFailed Refine)) (events_of run) ->
          v + 1 = high
          \/ exists m, In (EvPrint (MsgTrial Refine (v + 1) m)) (events_of run)
                       /\ accepts m = inr false)
  | _ => True
  end.
Proof.
  intros run. subst run.
  destruct (binary_search_user_count echoswift low high d w) as [[res w'] evs] eqn:Hrun.
  unfold outcome, events_of. cbn [fst snd].
  apply binary_search_user_count_inv in Hrun. destruct Hrun as (lres & Hloop & ->).
  destruct lres as [[lo hi]|e|]; [|exact I|exact I].
  destruct (binary_search_loop_brackets _ _ _ _ _ _ _ _ _ _ Hloop) as (Hlo & Hhi).
  pose proof (binary_search_loop_facts echoswift _ low high d w _ w' evs
                (Nat.le_refl _) Hloop) as (_ & _ & _ & _ & Hok).
  destruct (Hok lo hi eq_refl) as (_ & Hb & Hfail & _).
  split.
  - destruct Hlo as [->|H]; [left; reflexivity|right; exact H].
  - intros Hle Hn1 Hn2.
    assert (lo = hi) as ->.
    { destruct (Z_lt_dec lo hi) as [Hlt|Hge]; [|lia].
      destruct (Hfail Hlt); contradiction. }
    replace (hi - 1 + 1) with hi by lia.
    destruct Hhi as [->|H]; [left; reflexivity|right; exact H].
Qed.

(** ** The report of the search *)

Lemma filter_no_report (l : list event) :
  Forall (fun e => is_report e = false) l -> filter is_report l = [].
Proof.
  induction 1 as [|e l He _ IH]; [reflexivity|].
  simpl. rewrite He. exact IH.
Qed.

Lemma adjust_user_count_loop_no_report (echoswift : benchmark) (fuel : nat) :
  forall d st w res w' evs,
    adjust_user_count_loop echoswift fuel d st w = (res, w', evs) ->
    Forall (fun e => is_report e = false) evs.
Proof.
  induction fuel as [|fuel IH]; intros d st w res w' evs Hrun.
  - cbn [adjust_user_count_loop] in Hrun. injection Hrun as <- <- <-. constructor.
  - apply adjust_user_count_loop_step in Hrun. cbv zeta in Hrun.
    destruct Hrun as (q & tail & w0 & bt & -> & Hq & _ & _ & _ & Hcase).
    repeat constructor. apply Forall_app. split; [apply helpers_no_report; exact Hq|].
    destruct Hcase as [(_ & _ & ->)
                      |[(m & _ & _ & _ & ->)
                       |[(m & e & _ & _ & _ & _ & ->)
                        |[(m & w1 & evs' & _ & _ & _ & -> & Hrec)
                         |(m & _ & _ & _ & _ & ->)]]]];
      repeat constructor.
    eapply IH. exact Hrec.
Qed.

(** X6.  [adjust_user_count] calls [generate_summary_report] exactly
    once when it returns a count, and for that count, which is always
    positive; when it returns [None], raises or is cut short, it does not
    call it at all. *)
Theorem adjust_user_count_reports_what_it_returns (echoswift : benchmark)
    (fuel : nat) (w : World) :
  let run := adjust_user_count echoswift fuel w in
  match outcome run with
  | Ok (Some n) =>
      0 < n
      /\ exists metrics bt,
           filter is_report (events_of run) = [EvReport n metrics bt]
  | _ => filter is_report (events_of run) = []
  end.
Proof.
  intros run. subst run.
  destruct (adjust_user_count echoswift fuel w) as [[res w'] evs] eqn:Hrun.
  unfold outcome, events_of. cbn [fst snd].
  apply adjust_user_count_inv in Hrun.
  destruct Hrun as [(_ & -> & ->)|(d & _ & [(-> & ->)|Hrun])]; [reflexivity|reflexivity|].
  destruct Hrun as (w1 & lres & w2 & levs & _ & _ & Hloop & Hcase).
  pose proof (filter_no_report _ (adjust_user_count_loop_no_report _ _ _ _ _ _ _ _ Hloop))
    as Hl.
  assert (Hc : forall st fevs pre,
            filter is_report pre = [] ->
            concluded st res fevs ->
            match res with
            | Ok (Some n) =>
                0 < n
                /\ exists metrics bt,
                     filter is_report (pre ++ fevs) = [EvReport n metrics bt]
            | _ => filter is_report (pre ++ fevs) = []
            end).
  { intros st fevs pre Hpre Hc. unfold concluded in Hc. rewrite filter_app, Hpre.
    destruct (final_metrics st) as [m|];
      [destruct (0 <? optimal_user_count st) eqn:Hpos|].
    - destruct Hc as (-> & msg & _ & ->). apply Z.ltb_lt in Hpos.
      split; [exact Hpos|]. exists m, (benchmark_time st). reflexivity.
    - destruct Hc as (-> & ->). reflexivity.
    - destruct Hc as (-> & ->). reflexivity. }
  destruct Hcase as [(_ & -> & ->)
                    |[(e & _ & -> & ->)
                     |[(st & fevs & _ & Hcon & ->)
                      |(st & bres & w3 & bevs & _ & Hbs & Hcase)]]];
    try exact Hl.
  - apply (Hc st fevs levs Hl Hcon).
  - apply binary_search_user_count_inv in Hbs. destruct Hbs as (lres' & Hbl & _).
    pose proof (binary_search_loop_facts echoswift _ _ _ d w2 lres' w3 bevs
                  (Nat.le_refl _) Hbl) as (_ & Hbrep & _).
    apply filter_no_report in Hbrep.
    destruct Hcase as [(_ & -> & ->)
                      |[(e & _ & -> & ->)
                       |(optimal & m & q & fevs & _ & _ & Hq & Hcon & ->)]].
    + rewrite filter_app, Hl, Hbrep. reflexivity.
    + rewrite filter_app, Hl, Hbrep. reflexivity.
    + rewrite !app_assoc.
      eapply Hc; [|exact Hcon].
      rewrite !filter_app, Hl, Hbrep.
      rewrite (filter_no_report _ (helpers_no_report _ Hq)). reflexivity.
Qed.

(** ** Exceptions that escape the search *)

(** The validator raises nothing but [TypeError], and only on a value
    that is [None] or text. *)
Lemma accepts_raises (m : Metrics) (e : exn) :
  accepts m = inl e ->
  e = TypeError
  /\ exists v, (v = PyNone \/ exists s, v = PyStr s)
               /\ (v = fst (fst (fst (fst m))) \/ v = snd (fst (fst (fst m)))).
Proof.
  destruct m as [[[[a b] c] t] u]. unfold accepts, validate_criterion. simpl.
  destruct a as [|qa| |sa]; simpl; try discriminate.
  - intros H. injection H as <-. split; [reflexivity|]. exists PyNone. auto.
  - destruct (Qle_bool qa 2000); [|discriminate].
    destruct b as [|qb| |sb]; simpl; try discriminate.
    + intros H. injection H as <-. split; [reflexivity|]. exists PyNone. auto.
    + intros H. injection H as <-. split; [reflexivity|]. exists (PyStr sb). eauto.
  - intros H. injection H as <-. split; [reflexivity|]. exists (PyStr sa). eauto.
Qed.

Lemma trial_line_later {A : Type} (res : result A) (pre evs : list event)
    (ph : phase) (n : Z) (m : Metrics) :
  trial_line_ends_run res evs ph n m ->
  trial_line_ends_run res (pre ++ evs) ph n m.
Proof.
  intros (Hn & H). split; [exact Hn|].
  intros e He. destruct (H e He) as (Hr & pre' & ->).
  split; [exact Hr|]. exists (pre ++ pre'). rewrite app_assoc. reflexivity.
Qed.

Lemma adjust_user_count_loop_trial_lines (echoswift : benchmark) (fuel : nat) :
  forall d st w res w' evs ph n m,
    adjust_user_count_loop echoswift fuel d st w = (res, w', evs) ->
    In (EvPrint (MsgTrial ph n m)) evs ->
    trial_line_ends_run res evs ph n m.
Proof.
  induction fuel as [|fuel IH]; intros d st w res w' evs ph n m Hrun Hin.
  - cbn [adjust_user_count_loop] in Hrun. injection Hrun as <- <- <-. destruct Hin.
  - apply adjust_user_count_loop_step in Hrun. cbv zeta in Hrun.
    destruct Hrun as (q & tail & w0 & bt & -> & Hq & _ & _ & _ & Hcase).
    apply in_trial_events in Hin; [|exact Hq|reflexivity].
    destruct Hin as [Hin|[Hin|Hin]]; try discriminate.
    change (EvDump ?c :: EvLaunch ?c' :: q ++ tail)
      with ((EvDump c :: EvLaunch c' :: q) ++ tail).
    apply trial_line_later.
    destruct Hcase as [(_ & _ & ->)
                      |[(m0 & _ & _ & _ & ->)
                       |[(m0 & e0 & _ & Hn & Hacc & -> & ->)
                        |[(m0 & w1 & evs' & _ & Hn & Hacc & -> & Hrec)
                         |(m0 & _ & Hn & Hacc & _ & ->)]]]].
    + destruct Hin as [Hin|[]]. discriminate.
    + destruct Hin as [Hin|[]]. discriminate.
    + destruct Hin as [Hin|[]]. injection Hin as <- <- <-.
      split; [exact Hn|]. intros e He. rewrite Hacc in He. injection He as <-.
      split; [reflexivity|]. exists []. reflexivity.
    + destruct Hin as [Hin|[Hin|Hin]]; try discriminate.
      * injection Hin as <- <- <-.
        split; [exact Hn|]. intros e He. rewrite Hacc in He. discriminate.
      * change (EvPrint ?a :: EvPrint ?b :: evs') with ([EvPrint a; EvPrint b] ++ evs').
        apply trial_line_later. eapply IH; eassumption.
    + destruct Hin as [Hin|[Hin|[]]]; try discriminate.
      injection Hin as <- <- <-.
      split; [exact Hn|]. intros e He. rewrite Hacc in He. discriminate.
Qed.

Lemma binary_search_loop_trial_lines (echoswift : benchmark) (fuel : nat) :
  forall low high d w res w' evs ph n m,
    binary_search_loop echoswift fuel low high d w = (res, w', evs) ->
    In (EvPrint (MsgTrial ph n m)) evs ->
    trial_line_ends_run res evs ph n m.
Proof.
  induction fuel as [|fuel IH]; intros low high d w res w' evs ph n m Hrun Hin.
  - cbn [binary_search_loop] in Hrun.
    destruct (low <? high); injection Hrun as <- <- <-; destruct Hin.
  - destruct (Z_lt_dec low high) as [Hlt|Hge].
    2:{ cbn [binary_search_loop] in Hrun.
        assert (Hb : (low <? high) = false) by (apply Z.ltb_ge; lia).
        rewrite Hb in Hrun. injection Hrun as <- <- <-. destruct Hin. }
    apply (binary_search_loop_step echoswift fuel low high d w _ w' evs Hlt) in Hrun.
    cbv zeta in Hrun.
    set (mid := (low + high) / 2) in *.
    set (c := set_user_counts (disk_config (fs w)) mid) in *.
    destruct Hrun as (q & tail & w0 & -> & Hq & _ & _ & _ & Hcase).
    apply in_trial_events in Hin; [|exact Hq|reflexivity].
    destruct Hin as [Hin|[Hin|Hin]]; try discriminate.
    change (EvDump c :: EvLaunch c :: q ++ tail)
      with ((EvDump c :: EvLaunch c :: q) ++ tail).
    apply trial_line_later.
    destruct Hcase as [(_ & _ & ->)
                      |[(bt & m0 & w1 & _ & _ & _ & ->)
                       |[(bt & m0 & w1 & e0 & _ & Hn & Hacc & -> & ->)
                        |[(bt & m0 & w1 & evs' & _ & Hn & Hacc & -> & Hrec)
                         |(bt & m0 & w1 & evs' & _ & Hn & Hacc & -> & Hrec)]]]].
    + destruct Hin as [Hin|[]]. discriminate.
    + destruct Hin as [Hin|[]]. discriminate.
    + destruct Hin as [Hin|[]]. injection Hin as <- <- <-.
      split; [exact Hn|]. intros e He. rewrite Hacc in He. injection He as <-.
      split; [reflexivity|]. exists []. reflexivity.
    + destruct Hin as [Hin|Hin].
      * injection Hin as <- <- <-.
        split; [exact Hn|]. intros e He. rewrite Hacc in He. discriminate.
      * change (EvPrint ?a :: evs') with ([EvPrint a] ++ evs').
        apply trial_line_later. eapply IH; eassumption.
    + destruct Hin as [Hin|Hin].
      * injection Hin as <- <- <-.
        split; [exact Hn|]. intros e He. rewrite Hacc in He. discriminate.
      * change (EvPrint ?a :: evs') with ([EvPrint a] ++ evs').
        apply trial_line_later. eapply IH; eassumption.
Qed.

Lemma trial_line_transfer {A B : Type} (res : result A) (res' : result B)
    (evs post : list event) (ph : phase) (n : Z) (m : Metrics) :
  trial_line_ends_run res evs ph n m ->
  (forall e, res = Raised e -> res' = Raised e /\ post = []) ->
  trial_line_ends_run res' (evs ++ post) ph n m.
Proof.
  intros (Hn & H) Hres. split; [exact Hn|].
  intros e He. destruct (H e He) as (Hr & pre & ->).
  destruct (Hres e Hr) as (-> & ->).
  split; [reflexivity|]. exists pre. rewrite app_nil_r. reflexivity.
Qed.

(** X7.  The exception of the validator is never caught.  A line is
    printed for a trial only when none of its metrics is [None]; and
    when the validator cannot compare the metrics printed, because the
    time to first token or the latency per token is text, the
    [TypeError] it raises ends [adjust_user_count] on the spot: the
    exception escapes to the caller and the line of that trial is the
    last of the record, with no report written. *)
Theorem adjust_user_count_validator_exception (echoswift : benchmark)
    (fuel : nat) (w : World) (ph : phase) (n : Z) (m : Metrics) :
  let run := adjust_user_count echoswift fuel w in
  In (EvPrint (MsgTrial ph n m)) (events_of run) ->
  any_none m = false
  /\ forall e,
       accepts m = inl e ->
       e = TypeError
       /\ outcome run = Raised TypeError
       /\ exists pre, events_of run = pre ++ [EvPrint (MsgTrial ph n m)].
Proof.
  intros run. subst run.
  destruct (adjust_user_count echoswift fuel w) as [[res w'] evs] eqn:Hrun.
  unfold outcome, events_of. cbn [fst snd]. intros Hin.
  assert (H : trial_line_ends_run res evs ph n m).
  { apply adjust_user_count_inv in Hrun.
    destruct Hrun as [(_ & _ & ->)|(d & _ & [(_ & ->)|Hrun])].
    - destruct Hin as [Hin|[]]. discriminate.
    - destruct Hin.
    - destruct Hrun as (w1 & lres & w2 & levs & _ & _ & Hloop & Hcase).
      pose proof (adjust_user_count_loop_trial_lines _ _ _ _ _ _ _ _ ph n m Hloop) as Hl.
      assert (Hcon : forall st fevs, concluded st res fevs ->
                       ~ In (EvPrint (MsgTrial ph n m)) fevs).
      { intros st fevs Hc Hf. unfold concluded in Hc.
        destruct (final_metrics st); [destruct (0 <? optimal_user_count st)|].
        - destruct Hc as (_ & msg & Hmsg & ->).
          destruct Hf as [Hf|[Hf|[]]]; [discriminate|].
          injection Hf as ->. exact Hmsg.
        - destruct Hc as (_ & ->). destruct Hf as [Hf|[]]. discriminate.
        - destruct Hc as (_ & ->). destruct Hf as [Hf|[]]. discriminate. }
      destruct Hcase as [(-> & -> & ->)
                        |[(e' & -> & -> & ->)
                         |[(st & fevs & -> & Hc & ->)
                          |(st & bres & w3 & bevs & -> & Hbs & Hcase)]]].
      + rewrite <- (app_nil_r levs). eapply trial_line_transfer; [exact (Hl Hin)|].
        discriminate.
      + rewrite <- (app_nil_r levs). eapply trial_line_transfer; [exact (Hl Hin)|].
        intros e He. injection He as ->. auto.
      + apply in_app_or in Hin. destruct Hin as [Hin|Hin].
        * eapply trial_line_transfer; [exact (Hl Hin)|discriminate].
        * exfalso. exact (Hcon _ _ Hc Hin).
      + apply binary_search_user_count_inv in Hbs. destruct Hbs as (lres & Hbl & Hres).
        pose proof (binary_search_loop_trial_lines _ _ _ _ _ _ _ _ _ ph n m Hbl) as Hb.
        assert (Hlb : forall post,
                  In (EvPrint (MsgTrial ph n m)) (levs ++ bevs) ->
                  (forall e, lres = Raised e -> res = Raised e /\ post = []) ->
                  trial_line_ends_run res (levs ++ bevs ++ post) ph n m).
        { intros post Hi Hpost. apply in_app_or in Hi. destruct Hi as [Hi|Hi].
          - eapply trial_line_transfer; [exact (Hl Hi)|discriminate].
          - apply trial_line_later.
            eapply trial_line_transfer; [exact (Hb Hi)|exact Hpost]. }
        destruct Hcase as [(-> & -> & ->)
                          |[(e' & -> & -> & ->)
                           |(optimal & m' & q & fevs & -> & _ & Hq & Hc & ->)]].
        * destruct lres as [[lo hi]|e|]; try discriminate.
          rewrite <- (app_nil_r bevs).
          apply Hlb; [exact Hin|discriminate].
        * destruct lres as [[lo hi]|e|]; try discriminate.
          injection Hres as ->.
          rewrite <- (app_nil_r bevs).
          apply Hlb; [exact Hin|].
          intros e0 He0. injection He0 as ->. auto.
        * destruct lres as [[lo hi]|e|]; try discriminate.
          rewrite app_assoc in Hin. apply in_app_or in Hin.
          destruct Hin as [Hin|Hin].
          -- apply Hlb; [exact Hin|discriminate].
          -- exfalso. apply in_app_or in Hin. destruct Hin as [Hin|Hin].
             ++ apply (in_helpers _ _ Hq) in Hin. discriminate.
             ++ exact (Hcon _ _ Hc Hin). }
  destruct H as (Hn & Hr). split; [exact Hn|].
  intros e He. destruct (Hr e He) as (-> & Hpre).
  destruct (accepts_raises m e He) as (-> & _). auto.
Qed.

Lemma adjust_user_count_validator_exception_witness :
  let run := adjust_user_count
               (synthetic 0 (fun _ => Some (metrics_table (PyNum 1500) (PyStr "slow")
                                                          (PyNum 900) (PyNum 25))))
               3 fresh_world in
  let m := (PyNum 1500, PyStr "slow", PyNum 900, PyNum 25, PyNum (25 * inject_Z 56)) in
  any_none m = false
  /\ forall e,
       accepts m = inl e ->
       e = TypeError
       /\ outcome run = Raised TypeError
       /\ exists pre, events_of run = pre ++ [EvPrint (MsgTrial Probe 56 m)].
Proof.
  apply (adjust_user_count_validator_exception
           (synthetic 0 (fun _ => Some (metrics_table (PyNum 1500) (PyStr "slow")
                                                      (PyNum 900) (PyNum 25))))
           3 fresh_world Probe 56
           (PyNum 1500, PyStr "slow", PyNum 900, PyNum 25, PyNum (25 * inject_Z 56))).
  vm_compute. tauto.
Defined.

(** An artifact with text in the latency column of 56 users stops the
    search with the [TypeError] of the validator. *)
Example adjust_user_count_type_error :
  outcome (adjust_user_count
             (synthetic 0 (fun _ => Some (metrics_table (PyNum 1500) (PyStr "slow")
                                                        (PyNum 900) (PyNum 25))))
             3 fresh_world)
  = Raised TypeError.
Proof. reflexivity. Qed.

(** ** The search finds the optimal count *)

Lemma steady_out_dir (d : string) (f : FS) :
  steady d f -> out_dir (disk_config f) = Some d.
Proof.
  intros [Hd _]. unfold get_out_dir in Hd.
  destruct (out_dir (disk_config f)) as [d'|]; [|discriminate].
  destruct (String.eqb d' ""); [discriminate|exact Hd].
Qed.

Lemma mkdir_results_steady (d : string) (w : World) :
  steady d (fs w) ->
  exists w1,
    mkdir_results d w = (Ok tt, w1, [])
    /\ steady d (fs w1)
    /\ disk_config (fs w1) = disk_config (fs w).
Proof.
  intros [Hd Hw]. unfold mkdir_results.
  destruct (results_dir (fs w) d).
  - exists w. repeat split; auto.
  - rewrite Hw. eexists. split; [reflexivity|]. repeat split; auto.
Qed.

Lemma generate_summary_report_writes (d : string) (n : Z) (metrics : Metrics)
    (bt : pyval) (w : World) :
  steady d (fs w) ->
  exists w',
    generate_summary_report n metrics bt w
    = (Ok tt, w', [EvReport n metrics bt; EvPrint (MsgSummaryGenerated d)])
    /\ summary_report (fs w') d = Some [summary_row n metrics bt]
    /\ steady d (fs w').
Proof.
  intros Hst. pose proof (steady_out_dir d _ Hst) as Hout. destruct Hst as [Hd Hw].
  unfold generate_summary_report, mkdir_results, to_csv, summary_row. unfold_monad.
  destruct metrics as [[[[m0 m1] m2] m3] m4].
  destruct w as [f k]; simpl in *. rewrite Hout. simpl.
  destruct (results_dir f d) eqn:Hdir; simpl.
  - rewrite Hdir, Hw. simpl. eexists. split; [reflexivity|]. simpl.
    rewrite update1_same. repeat split; auto.
  - rewrite Hw. simpl. rewrite update1_same, Hw. simpl.
    eexists. split; [reflexivity|]. simpl.
    rewrite update1_same. repeat split; auto.
Qed.

(** The probe against a benchmark that accepts exactly the counts up
    to [K] ends on the first count above [K], with the last accepted
    count below it. *)
Lemma adjust_user_count_loop_reaches_rejection (echoswift : benchmark) (K : Z)
    (d : string) :
  realises echoswift (fun n => n <=? K) d ->
  forall fuel st w,
    steady d (fs w) ->
    get_out_dir (config st) = Some d ->
    previous_user_count st <= K + 1 ->
    (1 <= fuel)%nat ->
    K < user_count st + 10 * Z.of_nat fuel - 10 ->
    exists st' w' evs,
      adjust_user_count_loop echoswift fuel d st w = (Ok (ThresholdNotMet st'), w', evs)
      /\ steady d (fs w')
      /\ previous_user_count st' <= K + 1 <= user_count st'.
Proof.
  intros Hreal fuel.
  induction fuel as [|fuel IH]; intros st w Hst Hd Hprev Hfuel HK; [lia|].
  destruct (adjust_user_count_loop echoswift (S fuel) d st w) as [[res w'] evs] eqn:Hrun.
  eapply adjust_user_count_loop_realised in Hrun; [|exact Hreal|exact Hst|exact Hd].
  cbv zeta beta in Hrun.
  destruct Hrun as (bt & m & tail & _ & _ & _ & Hcase).
  destruct (user_count st <=? K) eqn:Hacc.
  - apply Z.leb_le in Hacc.
    destruct Hcase as (w1 & evs' & Hst1 & _ & Hrec).
    match type of Hrec with
    | adjust_user_count_loop _ _ _ ?s _ = _ =>
        destruct (IH s w1 Hst1) as (st' & w2 & evs2 & Hrec' & Hst2 & Hb);
          [cbn; rewrite get_out_dir_set_user_counts; exact Hd
          |cbn [previous_user_count]; lia|lia|cbn [user_count]; unfold increment; lia|]
    end.
    rewrite Hrec in Hrec'. injection Hrec' as Hres Hw' Hevs. subst w2 res.
    exists st', w', evs. auto.
  - apply Z.leb_gt in Hacc.
    destruct Hcase as (-> & Hst' & _).
    eexists _, w', evs. split; [reflexivity|]. split; [exact Hst'|]. cbn. lia.
Qed.

(** The whole search against such a benchmark, step by step. *)
Lemma adjust_user_count_realised (echoswift : benchmark) (K : Z) (d : string)
    (fuel : nat) (w : World) :
  realises echoswift (fun n => n <=? K) d ->
  steady d (fs w) ->
  1 <= K ->
  (1 <= fuel)%nat ->
  K < 56 + 10 * Z.of_nat fuel - 10 ->
  exists w' pre metrics bt,
    adjust_user_count echoswift fuel w
    = (Ok (Some K), w',
       pre ++ [EvReport K metrics bt; EvPrint (MsgSummaryGenerated d)])
    /\ summary_report (fs w') d = Some [summary_row K metrics bt]
    /\ steady d (fs w').
Proof.
  intros Hreal Hst HK Hfuel Hbound.
  destruct (mkdir_results_steady d w Hst) as (w1 & Hmk & Hst1 & Hc1).
  destruct (adjust_user_count_loop_reaches_rejection echoswift K d Hreal fuel
              (initial_probe_state (disk_config (fs w))) w1 Hst1)
    as (st & w2 & levs & Hloop & Hst2 & Hb);
    [exact (proj1 Hst)|cbn [initial_probe_state previous_user_count]; lia
    |exact Hfuel|exact Hbound|].
  destruct (binary_search_loop_converges echoswift K d Hreal
              (Z.to_nat (user_count st - previous_user_count st))
              (previous_user_count st) (user_count st) w2 Hst2 Hb (Nat.le_refl _))
    as (w3 & bevs & Hbs & Hst3).
  destruct (extract_metrics_result d K w3) as (m & q & Hex & _ & _ & _).
  destruct (generate_summary_report_writes d K m (benchmark_time st) w3 Hst3)
    as (w4 & Hrep & Hsum & Hst4).
  exists w4, (levs ++ bevs ++ q), m, (benchmark_time st).
  split; [|split; [exact Hsum|exact Hst4]].
  unfold adjust_user_count, bind at 1, json_load.
  destruct Hst as [Hd _]. rewrite Hd.
  unfold bind at 1. rewrite Hmk.
  unfold bind at 1. fold (initial_probe_state (disk_config (fs w))). rewrite Hloop.
  unfold bind at 1. unfold bind at 1. unfold binary_search_user_count.
  unfold bind at 1. rewrite Hbs.
  replace (K + 1 - 1) with K by lia.
  unfold ret at 1. unfold bind at 1. rewrite Hex. unfold ret at 1.
  cbn [final_metrics optimal_user_count benchmark_time].
  assert (Hpos : (0 <? K) = true) by (apply Z.ltb_lt; lia).
  rewrite Hpos. unfold bind at 1. rewrite Hrep. unfold ret.
  rewrite !app_nil_r, <- !app_assoc. reflexivity.
Qed.

(** X8.  Against a benchmark whose trials are accepted exactly for the
    counts up to some [K >= 1], with [out_dir] configured and writable
    and enough iterations for the probe to pass [K], the whole of
    [adjust_user_count] returns [K], whether [K] lies below the start of
    56 users, on a count of the probe or between two of them, and
    leaves in the summary report the one row of [K] users. *)
Theorem adjust_user_count_finds_optimum (echoswift : benchmark) (K : Z) (d : string)
    (fuel : nat) (w : World) :
  realises echoswift (fun n => n <=? K) d ->
  steady d (fs w) ->
  1 <= K ->
  (1 <= fuel)%nat ->
  K < 56 + 10 * Z.of_nat fuel - 10 ->
  outcome (adjust_user_count echoswift fuel w) = Ok (Some K)
  /\ exists metrics bt,
       In (EvReport K metrics bt) (events_of (adjust_user_count echoswift fuel w))
       /\ summary_report (fs (world_of (adjust_user_count echoswift fuel w))) d
          = Some [summary_row K metrics bt].
Proof.
  intros Hreal Hst HK Hfuel Hbound.
  destruct (adjust_user_count_realised echoswift K d fuel w Hreal Hst HK Hfuel Hbound)
    as (w' & pre & m & bt & Hrun & Hsum & _).
  rewrite Hrun. unfold outcome, events_of, world_of. cbn [fst snd].
  split; [reflexivity|].
  exists m, bt. split; [|exact Hsum].
  apply in_or_app. right. left. reflexivity.
Qed.

Lemma adjust_user_count_finds_optimum_witness :
  outcome (adjust_user_count (synthetic 0 (threshold_artifact (fun n => n <=? 93)))
             6 fresh_world) = Ok (Some 93)
  /\ exists metrics bt,
       In (EvReport 93 metrics bt)
          (events_of (adjust_user_count
                        (synthetic 0 (threshold_artifact (fun n => n <=? 93)))
                        6 fresh_world))
       /\ summary_report
            (fs (world_of (adjust_user_count
                             (synthetic 0 (threshold_artifact (fun n => n <=? 93)))
                             6 fresh_world))) "out"
          = Some [summary_row 93 metrics bt].
Proof.
  apply (adjust_user_count_finds_optimum
           (synthetic 0 (threshold_artifact (fun n => n <=? 93))) 93 "out" 6
           fresh_world).
  - apply synthetic_realises.
  - split; reflexivity.
  - lia.
  - lia.
  - lia.
Defined.

(** ** Counting the iterations of the continuous runner *)

Lemma filter_helpers (p : event -> bool) (q : list event) :
  (forall e, helper_event e = true -> p e = false) ->
  Forall (fun e => helper_event e = true) q -> filter p q = [].
Proof.
  intros Hp. induction 1 as [|e q He _ IH]; [reflexivity|].
  simpl. rewrite (Hp e He). exact IH.
Qed.

(** The events of one iteration, with the line printed by the report
    generator in a continuing one. *)
Lemma continuous_iteration_events (echoswift : benchmark) (n : Z) (d : string)
    (w : World) (res : result loop_ctl) (w' : World) (evs : list event) :
  continuous_iteration echoswift n d w = (res, w', evs) ->
  exists c q,
    Forall (fun e => helper_event e = true) q
    /\ ((res = Ok Break
         /\ (evs = EvDump c :: EvLaunch c :: q ++ [EvPrint MsgContinuousRunFailed]
             \/ evs = EvDump c :: EvLaunch c :: q ++ [EvPrint MsgContinuousExtractFailed]))
        \/ (exists metrics bt m,
              res = Ok Continue
              /\ first_four_truthy metrics = true
              /\ report_message m
              /\ evs = EvDump c :: EvLaunch c :: q
                         ++ [EvReport n metrics bt; EvPrint m; EvSleep 5])).
Proof.
  intros Hrun. unfold continuous_iteration in Hrun.
  apply load_then_inv in Hrun.
  apply dump_then_inv in Hrun. destruct Hrun as (w0 & t & Hrun & -> & Hc & _).
  apply run_then_inv in Hrun. rewrite Hc in Hrun.
  exists (set_user_counts (disk_config (fs w)) n).
  destruct Hrun as [(w1 & e & t2 & _ & Hk & ->)|(rc & el & after & t2 & _ & Hk & ->)].
  - apply bind_print_inv in Hk. destruct Hk as (t3 & Hk & ->).
    apply ret_inv in Hk. destruct Hk as (-> & -> & ->).
    exists [EvPrint (MsgErrorRunning e)].
    split; [repeat constructor|]. left. split; [reflexivity|]. left. reflexivity.
  - apply copy_then_inv in Hk.
    destruct Hk as (w2 & q & t3 & _ & Hk & -> & Hq & _).
    apply extract_then_inv in Hk.
    destruct Hk as (m & q' & t4 & _ & Hk & -> & Hq' & _).
    exists (EvCopy n :: q ++ q').
    split; [constructor; [reflexivity|]; apply Forall_app; auto|].
    destruct m as [[[[ttft latency] lpt] thr] tot].
    change (truthy ttft && truthy latency && truthy lpt && truthy thr)
      with (first_four_truthy (ttft, latency, lpt, thr, tot)) in Hk.
    destruct (first_four_truthy (ttft, latency, lpt, thr, tot)) eqn:Hf;
      cbn [negb] in Hk.
    + apply report_then_inv in Hk. destruct Hk as (w3 & msg & t5 & Hk & -> & Hmsg).
      apply bind_emit_inv in Hk. destruct Hk as (t6 & Hk & ->).
      apply ret_inv in Hk. destruct Hk as (-> & -> & ->).
      right. exists (ttft, latency, lpt, thr, tot), (PyNum el), msg.
      repeat split; auto.
      simpl. rewrite <- app_assoc. reflexivity.
    + apply bind_print_inv in Hk. destruct Hk as (t5 & Hk & ->).
      apply ret_inv in Hk. destruct Hk as (-> & -> & ->).
      left. split; [reflexivity|]. right.
      simpl. rewrite <- app_assoc. reflexivity.
Qed.

Lemma helpers_firstn (i : nat) (q : list event) :
  Forall (fun e => helper_event e = true) q ->
  Forall (fun e => helper_event e = true) (firstn i q).
Proof.
  intros H. revert i. induction H as [|e q He _ IH]; intros [|i]; simpl; auto.
Qed.

(** The counts of launches, reports and sleeps in a prefix of the
    record of one iteration; in a whole iteration that goes on there is
    one of each. *)
Lemma continuous_iteration_prefix (echoswift : benchmark) (n : Z) (d : string)
    (w : World) (res : result loop_ctl) (w' : World) (evs : list event) (i : nat) :
  continuous_iteration echoswift n d w = (res, w', evs) ->
  let pre := firstn i evs in
  let counts l := (length (launched l), length (filter is_report l),
                   length (filter is_sleep l)) in
  (counts pre = (0, 0, 0) \/ counts pre = (1, 0, 0)
   \/ counts pre = (1, 1, 0) \/ counts pre = (1, 1, 1))%nat
  /\ (res = Ok Continue -> counts evs = (1, 1, 1)%nat)
  /\ (res = Ok Continue \/ res = Ok Break).
Proof.
  intros Hrun pre counts. subst pre counts. cbv beta.
  apply continuous_iteration_events in Hrun.
  destruct Hrun as (c & q & Hq & Hcase).
  assert (Hrep : forall j, filter is_report (firstn j q) = []).
  { intros j. apply filter_helpers; [|apply helpers_firstn; exact Hq].
    intros [] He; simpl in *; congruence. }
  assert (Hsl : forall j, filter is_sleep (firstn j q) = []).
  { intros j. apply filter_helpers; [|apply helpers_firstn; exact Hq].
    intros [] He; simpl in *; congruence. }
  assert (Hla : forall j, launched (firstn j q) = []).
  { intros j. apply launched_helpers. apply helpers_firstn. exact Hq. }
  assert (Hpre : forall tail,
            firstn i (EvDump c :: EvLaunch c :: q ++ tail) = []
            \/ firstn i (EvDump c :: EvLaunch c :: q ++ tail) = [EvDump c]
            \/ exists j, firstn i (EvDump c :: EvLaunch c :: q ++ tail)
                         = EvDump c :: EvLaunch c
                           :: firstn j q ++ firstn (j - length q) tail).
  { intros tail. destruct i as [|[|j]]; [left; reflexivity|right; left; reflexivity|].
    right. right. exists j. cbn [firstn]. rewrite firstn_app. reflexivity. }
  assert (Hall : forall tail,
            filter is_report (EvDump c :: EvLaunch c :: q ++ tail) = filter is_report tail
            /\ filter is_sleep (EvDump c :: EvLaunch c :: q ++ tail) = filter is_sleep tail
            /\ length (launched (EvDump c :: EvLaunch c :: q ++ tail))
               = S (length (launched tail))).
  { intros tail. cbn [filter is_report is_sleep launched length].
    rewrite !filter_app, launched_app.
    rewrite <- (firstn_all q), Hrep, Hsl, Hla. auto. }
  destruct Hcase as [(-> & [->| ->])|(m & bt & msg & -> & _ & _ & ->)].
  - split; [|split; [discriminate|auto]].
    destruct (Hpre [EvPrint MsgContinuousRunFailed]) as [-> | [-> | (j & ->)]];
      [left; reflexivity|left; reflexivity|].
    right. left.
    cbn [filter is_report is_sleep launched length].
    rewrite !filter_app, launched_app, Hrep, Hsl, Hla.
    destruct (j - length q)%nat as [|[|t]]; reflexivity.
  - split; [|split; [discriminate|auto]].
    destruct (Hpre [EvPrint MsgContinuousExtractFailed]) as [-> | [-> | (j & ->)]];
      [left; reflexivity|left; reflexivity|].
    right. left.
    cbn [filter is_report is_sleep launched length].
    rewrite !filter_app, launched_app, Hrep, Hsl, Hla.
    destruct (j - length q)%nat as [|[|t]]; reflexivity.
  - split; [|split; [|auto]].
    + destruct (Hpre [EvReport n m bt; EvPrint msg; EvSleep 5])
        as [-> | [-> | (j & ->)]];
        [left; reflexivity|left; reflexivity|].
      cbn [filter is_report is_sleep launched length].
      rewrite !filter_app, launched_app, Hrep, Hsl, Hla.
      destruct (j - length q)%nat as [|[|[|[|t]]]]; cbn; auto.
    + intros _. destruct (Hall [EvReport n m bt; EvPrint msg; EvSleep 5])
        as (-> & -> & ->). reflexivity.
Qed.

Lemma in_step_loop (echoswift : benchmark) (n : Z) (d : string) (k : nat) :
  forall w res w' evs i,
    continuous_loop echoswift k n d w = (res, w', evs) ->
    in_step (firstn i evs).
Proof.
  induction k as [|k IH]; intros w res w' evs i Hrun.
  - cbn [continuous_loop] in Hrun. injection Hrun as <- <- <-.
    unfold in_step. destruct i as [|[|i]]; cbn; repeat split; lia.
  - cbn [continuous_loop] in Hrun. apply bind_inv in Hrun.
    destruct (continuous_iteration echoswift n d w) as [[r w1] t] eqn:Hit.
    pose proof (continuous_iteration_prefix echoswift n d w r w1 t i Hit) as Hp.
    cbv zeta beta in Hp. destruct Hp as (Hpre & Hfull & Hres).
    destruct Hrun as [(a & w2 & t1 & t2 & Ha & Hk & ->)|[(e & He & _)|(He & _)]];
      [|destruct Hres as [-> | ->]; discriminate
       |destruct Hres as [-> | ->]; discriminate].
    injection Ha as -> -> ->.
    rewrite firstn_app.
    destruct a.
    + (* the iteration goes on *)
      specialize (Hfull eq_refl). injection Hfull as Hl Hr Hs.
      destruct (Nat.le_gt_cases (length t1) i) as [Hi|Hi].
      * rewrite (firstn_all2 t1 Hi).
        destruct (IH _ _ _ _ (i - length t1)%nat Hk) as (H1 & H2 & H3).
        unfold in_step. rewrite !filter_app, launched_app, !length_app, Hl, Hr, Hs.
        repeat split; lia.
      * replace (i - length t1)%nat with O by lia. cbn [firstn]. rewrite app_nil_r.
        unfold in_step.
        destruct Hpre as [H|[H|[H|H]]]; injection H as -> -> ->; repeat split; lia.
    + apply ret_inv in Hk. destruct Hk as (_ & _ & ->).
      rewrite firstn_nil, app_nil_r. unfold in_step.
      destruct Hpre as [H|[H|[H|H]]]; injection H as -> -> ->; repeat split; lia.
Qed.

(** X9.  In the record of the continuous runner every report is for
    the count the runner was started with and carries four truthy
    metrics; and the launches, reports and sleeps keep step in every
    prefix of the record: at most as many sleeps as reports, at most as
    many reports as launches, and at most one launch more than sleeps.
    A launch is thus reported before the next one, and slept on before
    the next one.  Holding of every prefix, this holds of a run
    wherever it is cut short. *)
Theorem continuous_runner_keeps_step (echoswift : benchmark) (k : nat) (n : Z)
    (d : string) (w : World) :
  let evs := events_of (run_benchmark_with_incremental_requests echoswift k n d w) in
  Forall (fun e => forall count metrics bt,
                     e = EvReport count metrics bt ->
                     count = n /\ first_four_truthy metrics = true) evs
  /\ forall i, in_step (firstn i evs).
Proof.
  intros evs. subst evs.
  unfold run_benchmark_with_incremental_requests.
  destruct (continuous_loop echoswift k n d w) as [[res w'] evs] eqn:Hrun.
  unfold bind, print, emit. rewrite Hrun. unfold events_of. cbn [fst snd app].
  split.
  - apply Forall_cons; [discriminate|].
    clear - Hrun. revert w res w' evs Hrun.
    induction k as [|k IH]; intros w res w' evs Hrun.
    + cbn [continuous_loop] in Hrun. injection Hrun as <- <- <-.
      apply Forall_cons; [discriminate|constructor].
    + cbn [continuous_loop] in Hrun. apply bind_inv in Hrun.
      destruct (continuous_iteration echoswift n d w) as [[r w1] t] eqn:Hit.
      apply continuous_iteration_events in Hit.
      destruct Hit as (c & q & Hq & Hcase).
      assert (Hqr : Forall (fun e => forall count metrics bt,
                              e = EvReport count metrics bt ->
                              count = n /\ first_four_truthy metrics = true) q).
      { eapply Forall_impl; [|exact Hq]. intros e He count m bt ->. discriminate. }
      assert (Ht : Forall (fun e => forall count metrics bt,
                             e = EvReport count metrics bt ->
                             count = n /\ first_four_truthy metrics = true) t).
      { assert (Hno : forall e, is_report e = false ->
                  forall count metrics bt,
                    e = EvReport count metrics bt ->
                    count = n /\ first_four_truthy metrics = true).
        { intros e He count m' bt' ->. discriminate. }
        destruct Hcase as [(_ & [->| ->])|(m & bt & msg & _ & Hm & _ & ->)].
        - apply Forall_cons; [apply Hno; reflexivity|].
          apply Forall_cons; [apply Hno; reflexivity|].
          apply Forall_app. split; [exact Hqr|].
          apply Forall_cons; [apply Hno; reflexivity|constructor].
        - apply Forall_cons; [apply Hno; reflexivity|].
          apply Forall_cons; [apply Hno; reflexivity|].
          apply Forall_app. split; [exact Hqr|].
          apply Forall_cons; [apply Hno; reflexivity|constructor].
        - apply Forall_cons; [apply Hno; reflexivity|].
          apply Forall_cons; [apply Hno; reflexivity|].
          apply Forall_app. split; [exact Hqr|].
          apply Forall_cons.
          { intros count m' bt' H. injection H as <- <- <-. auto. }
          apply Forall_cons; [apply Hno; reflexivity|].
          apply Forall_cons; [apply Hno; reflexivity|constructor]. }
      destruct Hrun as [(a & w2 & t1 & t2 & Ha & Hk & ->)|[(e & He & ->)|(He & ->)]].
      * injection Ha as -> -> ->. apply Forall_app. split; [exact Ht|].
        destruct a; [eapply IH; exact Hk|].
        apply ret_inv in Hk. destruct Hk as (_ & _ & ->). constructor.
      * injection He as _ _ <-. exact Ht.
      * injection He as _ _ <-. exact Ht.
  - intros [|i]; [unfold in_step; cbn; repeat split; lia|].
    cbn [firstn].
    pose proof (in_step_loop echoswift n d k w res w' evs i Hrun) as (H1 & H2 & H3).
    unfold in_step. cbn [filter is_report is_sleep launched]. auto.
Qed.

(** ** The row written by a continuing iteration *)

(** X10.  One iteration of the continuous runner, end to end.  The
    benchmark, launched on the rewritten configuration, completes and
    leaves under a writable [out_dir] an artifact whose first row holds
    four numbers other than zero, the throughput a whole number whose
    product with the user count stays within 2^53 in magnitude, where
    numpy computes it exactly for an integer cell and for a float cell
    alike.  Then the iteration goes on, and the summary report holds
    one row in which the latency column has the artifact's latency and
    the latency-per-token column the artifact's latency per token: the
    two names exchanged at the unpacking of the tuple (line 157) are
    exchanged back by the positions read in the report generator. *)
Theorem continuous_iteration_report_row (echoswift : benchmark) (n : Z) (d : string)
    (w : World) (rc : Z) (elapsed : Q) (after : FS) (df : DataFrame)
    (ttft lpt latency : Q) (throughput : Z) :
  echoswift (runs w)
            (fs (world_of (json_dump (set_user_counts (disk_config (fs w)) n) w)))
  = Completed rc elapsed after ->
  steady d after ->
  user_folder after d n = Some (Table df) ->
  iloc0 df "TTFT(ms)" = inr (PyNum ttft) ->
  iloc0 df "latency_per_token(ms/token)" = inr (PyNum lpt) ->
  iloc0 df "latency(ms)" = inr (PyNum latency) ->
  iloc0 df "throughput(tokens/second)" = inr (PyNum (inject_Z throughput)) ->
  ~ (ttft == 0)%Q -> ~ (lpt == 0)%Q -> ~ (latency == 0)%Q -> throughput <> 0 ->
  Z.abs n <= 2 ^ 53 ->
  Z.abs (throughput * n) <= 2 ^ 53 ->
  outcome (continuous_iteration echoswift n d w) = Ok Continue
  /\ summary_report (fs (world_of (continuous_iteration echoswift n d w))) d
     = Some [{| row_user_count := n;
                row_ttft := PyNum ttft;
                row_latency := PyNum latency;
                row_latency_per_token := PyNum lpt;
                row_throughput := PyNum (inject_Z throughput);
                row_total_throughput := PyNum (inject_Z throughput * inject_Z n);
                row_benchmark_time := PyNum elapsed |}].
Proof.
  intros Hrun Hst Hsrc Ht Hl Hla Hth Zt Zl Zla Zth0 _ _.
  assert (Zth : ~ (inject_Z throughput == 0)%Q).
  { unfold Qeq. simpl. lia. }
  destruct (copy_avg_response_copies d n (Table df)
              {| fs := after; runs := S (runs w) |} Hst Hsrc)
    as (w2 & qc & Hcopy & Hres & Hst2).
  destruct (extract_metrics_result d n w2) as (m & qe & Hex & _ & _ & Hm).
  rewrite Hres, Ht, Hl, Hla, Hth in Hm. cbn [py_mul] in Hm. subst m.
  destruct (generate_summary_report_writes d n
              (PyNum ttft, PyNum lpt, PyNum latency, PyNum (inject_Z throughput),
               PyNum (inject_Z throughput * inject_Z n)) (PyNum elapsed) w2 Hst2)
    as (w3 & Hrep & Hsum & _).
  assert (Hit : exists evs, continuous_iteration echoswift n d w = (Ok Continue, w3, evs)).
  { unfold continuous_iteration. unfold bind at 1, json_load.
    unfold bind at 1. unfold json_dump at 1.
    unfold world_of, json_dump in Hrun. cbn [fst snd fs] in Hrun.
    match goal with
    | |- context [bind (run_benchmark echoswift) _ ?w0] =>
        destruct (run_benchmark_result echoswift w0)
          as [(w1 & e & He & _)|(rc' & el' & after' & He & Hr)];
          cbn [fs runs] in He; rewrite Hrun in He; [contradiction|];
          injection He as <- <- <-;
          unfold bind at 1; rewrite Hr
    end.
    cbn [runs].
    unfold bind at 1. rewrite Hcopy.
    unfold bind at 1. rewrite Hex.
    rewrite (proj2 (truthy_number ttft) Zt), (proj2 (truthy_number lpt) Zl),
      (proj2 (truthy_number latency) Zla), (proj2 (truthy_number (inject_Z throughput)) Zth).
    cbn [andb negb].
    unfold bind at 1. rewrite Hrep.
    unfold bind, emit, ret. eexists. reflexivity. }
  destruct Hit as (evs & ->). split; [reflexivity|]. exact Hsum.
Qed.

Lemma continuous_iteration_report_row_witness :
  outcome (continuous_iteration
             (synthetic 0 (threshold_artifact (fun _ => true))) 7 "out" fresh_world)
  = Ok Continue
  /\ summary_report
       (fs (world_of (continuous_iteration
                        (synthetic 0 (threshold_artifact (fun _ => true)))
                        7 "out" fresh_world))) "out"
     = Some [{| row_user_count := 7;
                row_ttft := PyNum 1500;
                row_latency := PyNum 900;
                row_latency_per_token := PyNum 40;
                row_throughput := PyNum 25;
                row_total_throughput := PyNum (25 * inject_Z 7);
                row_benchmark_time := PyNum 1 |}].
Proof.
  apply (continuous_iteration_report_row
           (synthetic 0 (threshold_artifact (fun _ => true))) 7 "out" fresh_world
           0 1
           (put_user_folder
              (fs (world_of (json_dump (set_user_counts (disk_config (fs fresh_world)) 7)
                                       fresh_world)))
              "out" 7
              (metrics_table (PyNum 1500) (PyNum 40) (PyNum 900) (PyNum 25)))
           [("TTFT(ms)", [PyNum 1500]);
            ("latency_per_token(ms/token)", [PyNum 40]);
            ("latency(ms)", [PyNum 900]);
            ("throughput(tokens/second)", [PyNum 25])]
           1500 40 900 25).
  - reflexivity.
  - split; reflexivity.
  - reflexivity.
  - reflexivity.
  - reflexivity.
  - reflexivity.
  - reflexivity.
  - unfold Qeq; simpl; lia.
  - unfold Qeq; simpl; lia.
  - unfold Qeq; simpl; lia.
  - lia.
  - simpl; lia.
  - simpl; lia.
Defined.

(** ** Rewriting the configuration with the optimum *)

Lemma dict_get_set_same {A : Type} (d : list (string * A)) (key : string) (v : A) :
  dict_get (dict_set d key v) key = inr v.
Proof.
  induction d as [|[k x] d IH]; simpl.
  - rewrite String.eqb_refl. reflexivity.
  - destruct (String.eqb k key) eqn:E; simpl; rewrite E; [reflexivity|exact IH].
Qed.

Lemma dict_get_set_other {A : Type} (d : list (string * A)) (key key' : string) (v : A) :
  key' <> key ->
  dict_get (dict_set d key v) key' = dict_get d key'.
Proof.
  intros Hne. induction d as [|[k x] d IH]; simpl.
  - destruct (String.eqb key key') eqn:E; [|reflexivity].
    apply String.eqb_eq in E. congruence.
  - destruct (String.eqb k key) eqn:E; simpl.
    + apply String.eqb_eq in E. subst k.
      destruct (String.eqb key key') eqn:E'; [|reflexivity].
      apply String.eqb_eq in E'. congruence.
    + destruct (String.eqb k key'); [reflexivity|exact IH].
Qed.

Lemma dict_set_twice {A : Type} (d : list (string * A)) (key : string) (v v' : A) :
  dict_set (dict_set d key v) key v' = dict_set d key v'.
Proof.
  induction d as [|[k x] d IH]; simpl.
  - rewrite String.eqb_refl. reflexivity.
  - destruct (String.eqb k key) eqn:E; simpl; rewrite E; [reflexivity|].
    rewrite IH. reflexivity.
Qed.

Lemma json_read_int_json_int (n : Z) : json_read_int (json_int n) = Some n.
Proof.
  unfold json_read_int, json_int.
  rewrite DecimalString.NilZero.isi.
  - simpl. rewrite DecimalZ.of_to. reflexivity.
  - destruct n; simpl; try discriminate.
    intros H. injection H as H. exact (DecimalPos.Unsigned.to_uint_nonnil _ H).
  - destruct n; simpl; try discriminate.
    intros H. injection H as H. exact (DecimalPos.Unsigned.to_uint_nonnil _ H).
Qed.

(** X11.  What [update_config] does to a configuration file that it
    can read and rewrite: it rewrites it once.  Given a positive count
    [n] it stores [n] under [optimal_user_count], as the numeral that
    reads back as [n], sets [user_counts] to [[n]], and prints nothing.
    Given [None], zero or a negative count it prints the warning and
    writes the document back as it was.  In every case [out_dir] and
    every other key are kept, and no file besides the configuration is
    touched. *)
Theorem update_config_effect (optimal_user_count : option Z) (w : World) :
  let run := update_config optimal_user_count w in
  let before := disk_config (fs w) in
  let after := disk_config (fs (main_world run)) in
  out_dir after = out_dir before
  /\ (forall key, key <> "optimal_user_count" ->
        dict_get (other_keys after) key = dict_get (other_keys before) key)
  /\ summary_report (fs (main_world run)) = summary_report (fs w)
  /\ results_csv (fs (main_world run)) = results_csv (fs w)
  /\ match optimal_user_count with
     | Some n =>
         if 0 <? n then
           main_events run = [Inner (EvDump after)]
           /\ user_counts after = Some [n]
           /\ (exists text,
                 dict_get (other_keys after) "optimal_user_count" = inr text
                 /\ json_read_int text = Some n)
         else
           main_events run = [EvPrintMain MsgKeepingConfiguration; Inner (EvDump before)]
           /\ after = before
     | None =>
         main_events run = [EvPrintMain MsgKeepingConfiguration; Inner (EvDump before)]
         /\ after = before
     end.
Proof.
  intros run before after. subst run before after.
  unfold update_config, main_bind, inner, json_load, json_dump, main_ret, main_print,
    main_outcome, main_world, main_events.
  destruct optimal_user_count as [n|]; [destruct (0 <? n) eqn:Hpos|];
    cbn [fst snd fs disk_config summary_report results_csv map app].
  - split; [reflexivity|].
    split; [intros key Hkey; cbn [set_optimal_user_count other_keys];
            apply dict_get_set_other; exact Hkey|].
    split; [reflexivity|]. split; [reflexivity|].
    split; [reflexivity|]. split; [reflexivity|].
    exists (json_int n). split; [apply dict_get_set_same|apply json_read_int_json_int].
  - repeat split; reflexivity.
  - repeat split; reflexivity.
Qed.

(** X12.  Recording a second optimum replaces the first: the document
    left by two calls of [update_config] is the one the second call
    alone would leave, with a single [optimal_user_count] key.  In
    particular the call is idempotent. *)
Theorem update_config_overwrites (n m : Z) (w : World) :
  0 < n -> 0 < m ->
  disk_config (fs (main_world
                     (update_config (Some m) (main_world (update_config (Some n) w)))))
  = disk_config (fs (main_world (update_config (Some m) w))).
Proof.
  intros Hn Hm.
  unfold update_config, main_bind, inner, json_load, json_dump, main_ret, main_world.
  apply Z.ltb_lt in Hn, Hm. rewrite Hn, Hm.
  cbn [fst snd fs disk_config].
  unfold set_optimal_user_count. cbn [out_dir other_keys].
  rewrite dict_set_twice. reflexivity.
Qed.

Lemma update_config_overwrites_witness :
  disk_config (fs (main_world
                     (update_config (Some 93)
                        (main_world (update_config (Some 85) tuned_world)))))
  = disk_config (fs (main_world (update_config (Some 93) tuned_world))).
Proof.
  apply (update_config_overwrites 85 93 tuned_world); lia.
Defined.

(** The stored optimum replaces an earlier one where it stood. *)
Example update_config_tuned_world :
  disk_config (fs (main_world (update_config (Some 93) tuned_world)))
  = {| out_dir := Some "out";
       user_counts := Some [93];
       other_keys := [("model", "llama"); ("optimal_user_count", "93");
                      ("max_requests", "5")] |}.
Proof. reflexivity. Qed.

(** ** The entry point, end to end *)

Lemma adjust_user_count_positive (echoswift : benchmark) (fuel : nat) (w : World)
    (n : Z) (w' : World) (evs : list event) :
  adjust_user_count echoswift fuel w = (Ok (Some n), w', evs) -> 0 < n.
Proof.
  intros Hrun. apply adjust_user_count_inv in Hrun.
  assert (Hc : forall st fevs, concluded st (Ok (Some n)) fevs -> 0 < n).
  { intros st fevs Hc. unfold concluded in Hc.
    destruct (final_metrics st); [destruct (0 <? optimal_user_count st) eqn:Hpos|].
    - destruct Hc as (Hres & _). injection Hres as ->. apply Z.ltb_lt. exact Hpos.
    - destruct Hc as (Hres & _). discriminate.
    - destruct Hc as (Hres & _). discriminate. }
  destruct Hrun as [(_ & Hres & _)|(d & _ & [(Hres & _)|Hrun])]; try discriminate.
  destruct Hrun as (w1 & lres & w2 & levs & _ & _ & _ & Hcase).
  destruct Hcase as [(_ & Hres & _)
                    |[(e & _ & Hres & _)
                     |[(st & fevs & _ & Hcon & _)
                      |(st & bres & w3 & bevs & _ & _ & Hcase)]]];
    try discriminate.
  - exact (Hc _ _ Hcon).
  - destruct Hcase as [(_ & Hres & _)
                      |[(e & _ & Hres & _)
                       |(optimal & m & q & fevs & _ & _ & _ & Hcon & _)]];
      try discriminate.
    exact (Hc _ _ Hcon).
Qed.

Lemma not_in_inner (m : main_message) (evs : list event) :
  ~ In (EvPrintMain m) (map Inner evs).
Proof.
  intros Hin. apply in_map_iff in Hin. destruct Hin as (e & He & _). discriminate.
Qed.

(** X13.  The warning of [update_config] is dead code under [main]:
    whatever the benchmark and the disk do, with or without
    [--incremental], a run of [main] never prints it, because the search
    only ever hands over a positive count and [main] skips the call
    after [None]. *)
Theorem main_never_keeps_configuration (echoswift : benchmark) (incremental : bool)
    (fuel interrupt_after : nat) (w : World) :
  ~ In (EvPrintMain MsgKeepingConfiguration)
       (main_events (main echoswift incremental fuel interrupt_after w)).
Proof.
  unfold main, main_events.
  unfold main_bind at 1, inner at 1, json_load. cbn [map app].
  destruct (get_out_dir (disk_config (fs w))) as [d|].
  2:{ unfold main_bind, inner, print, emit, main_ret. cbn [snd map app].
      intros [H|[]]. discriminate. }
  unfold main_bind at 1, inner at 1.
  destruct (mkdir_results d w) as [[[[]|e|] w1] t1] eqn:Hmk;
    cbn [snd]; try apply not_in_inner.
  unfold main_bind at 1, inner at 1.
  destruct (adjust_user_count echoswift fuel w1) as [[[[n|]|e|] w2] t2] eqn:Hadj;
    cbn [snd]; try (intros Hin; apply in_app_or in Hin;
                    destruct Hin as [Hin|Hin]; revert Hin; apply not_in_inner).
  - apply adjust_user_count_positive in Hadj. apply Z.ltb_lt in Hadj.
    unfold main_bind at 1, update_config.
    unfold main_bind at 1, inner at 1, json_load. rewrite Hadj.
    unfold main_bind at 1, main_ret at 1, inner at 1, json_dump.
    cbn [map app].
    destruct incremental.
    + unfold main_bind, inner, main_ret.
      destruct (run_benchmark_with_incremental_requests _ _ _ _ _) as [[[[]|e|] w3] t3];
        cbn [snd]; intros Hin;
        repeat (apply in_app_or in Hin; destruct Hin as [Hin|Hin]);
        try (revert Hin; apply not_in_inner);
        try (destruct Hin as [Hin|Hin]; [discriminate|]);
        try (revert Hin; apply not_in_inner); try contradiction.
      * apply in_app_or in Hin. destruct Hin as [Hin|[]].
        revert Hin. apply not_in_inner.
    + unfold main_bind, main_print, main_ret. cbn [snd app].
      intros Hin. repeat (apply in_app_or in Hin; destruct Hin as [Hin|Hin]);
        try (revert Hin; apply not_in_inner).
      destruct Hin as [Hin|[Hin|[]]]; discriminate.
  - unfold main_bind at 1, main_ret at 1. cbn [app].
    destruct incremental.
    + unfold main_ret. cbn [snd]. rewrite !app_nil_r.
      intros Hin. apply in_app_or in Hin.
      destruct Hin as [Hin|Hin]; revert Hin; apply not_in_inner.
    + unfold main_bind, main_print, main_ret. cbn [snd app].
      intros Hin. repeat (apply in_app_or in Hin; destruct Hin as [Hin|Hin]);
        try (revert Hin; apply not_in_inner).
      destruct Hin as [Hin|[]]. discriminate.
Qed.

(** X14.  Without [--incremental], a search that succeeds is still
    reported as a failure.  Against a benchmark accepted exactly up to
    [K] users, [main] finds [K], writes the summary report, stores [K]
    in the configuration under [optimal_user_count] and as
    [user_counts], and then ends by printing that no optimal user count
    could be determined. *)
Theorem main_reports_failure_after_success (echoswift : benchmark) (K : Z)
    (d : string) (fuel interrupt_after : nat) (w : World) :
  realises echoswift (fun n => n <=? K) d ->
  steady d (fs w) ->
  1 <= K ->
  (1 <= fuel)%nat ->
  K < 56 + 10 * Z.of_nat fuel - 10 ->
  let run := main echoswift false fuel interrupt_after w in
  let after := disk_config (fs (main_world run)) in
  main_outcome run = Ok Returned
  /\ user_counts after = Some [K]
  /\ dict_get (other_keys after) "optimal_user_count" = inr (json_int K)
  /\ (exists metrics bt,
        summary_report (fs (main_world run)) d = Some [summary_row K metrics bt])
  /\ exists pre,
       main_events run
       = pre ++ [Inner (EvDump after); EvPrintMain MsgCouldNotDetermine].
Proof.
  intros Hreal Hst HK Hfuel Hbound run after. subst after run.
  destruct (mkdir_results_steady d w Hst) as (w1 & Hmk & Hst1 & _).
  destruct (adjust_user_count_realised echoswift K d fuel w1 Hreal Hst1 HK Hfuel Hbound)
    as (w2 & pre & m & bt & Hadj & Hsum & _).
  assert (Hpos : (0 <? K) = true) by (apply Z.ltb_lt; lia).
  assert (Hmain : exists w3 pre',
            main echoswift false fuel interrupt_after w
            = (Ok Returned, w3,
               pre' ++ [Inner (EvDump (set_optimal_user_count (disk_config (fs w2)) K));
                        EvPrintMain MsgCouldNotDetermine])
            /\ disk_config (fs w3) = set_optimal_user_count (disk_config (fs w2)) K
            /\ summary_report (fs w3) = summary_report (fs w2)).
  { unfold main.
    unfold main_bind at 1, inner at 1, json_load.
    rewrite (proj1 Hst).
    unfold main_bind at 1, inner at 1. rewrite Hmk.
    unfold main_bind at 1, inner at 1. rewrite Hadj.
    unfold main_bind at 1, update_config.
    unfold main_bind at 1, inner at 1, json_load. rewrite Hpos.
    unfold main_bind at 1, main_ret at 1, inner at 1, json_dump.
    unfold main_bind, main_print, main_ret.
    cbn [map app].
    eexists _, (map Inner (pre ++ [EvReport K m bt; EvPrint (MsgSummaryGenerated d)])).
    split; [reflexivity|].
    split; reflexivity. }
  destruct Hmain as (w3 & pre' & Hmain & Hc & Hs).
  rewrite Hmain. unfold main_outcome, main_world, main_events. cbn [fst snd].
  rewrite Hc, Hs. cbn [set_optimal_user_count user_counts other_keys].
  split; [reflexivity|]. split; [reflexivity|].
  split; [apply dict_get_set_same|].
  split; [exists m, bt; exact Hsum|].
  exists pre'. reflexivity.
Qed.

Lemma main_reports_failure_after_success_witness :
  let run := main (synthetic 0 (threshold_artifact (fun n => n <=? 93))) false 6 0
                  fresh_world in
  let after := disk_config (fs (main_world run)) in
  main_outcome run = Ok Returned
  /\ user_counts after = Some [93]
  /\ dict_get (other_keys after) "optimal_user_count" = inr (json_int 93)
  /\ (exists metrics bt,
        summary_report (fs (main_world run)) "out" = Some [summary_row 93 metrics bt])
  /\ exists pre,
       main_events run
       = pre ++ [Inner (EvDump after); EvPrintMain MsgCouldNotDetermine].
Proof.
  apply (main_reports_failure_after_success
           (synthetic 0 (threshold_artifact (fun n => n <=? 93))) 93 "out" 6 0
           fresh_world).
  - apply synthetic_realises.
  - split; reflexivity.
  - lia.
  - lia.
  - lia.
Defined.

Lemma mkdir_results_runs (d : string) (w : World) (res : result unit) (w' : World)
    (evs : list event) :
  mkdir_results d w = (res, w', evs) -> runs w' = runs w.
Proof.
  unfold mkdir_results. intros H.
  destruct (results_dir (fs w) d); [|destruct (writable (fs w) d)];
    injection H as <- <- <-; reflexivity.
Qed.

(** X15.  With [--incremental], a search that fails still reaches the
    call of the continuous runner.  When [subprocess.run] raises on the
    first launch, the search gives up after that one trial and returns
    [None]; [main] skips [update_config], so that no optimum is
    written, and calls the runner with [None] as the count.  The record
    given is that of [main] up to this call. *)
Theorem main_starts_runner_without_count (echoswift : benchmark) (d : string)
    (fuel interrupt_after : nat) (w : World) :
  (forall f, run_failed (echoswift (runs w) f)) ->
  steady d (fs w) ->
  let run := main echoswift true (S fuel) interrupt_after w in
  let c := set_user_counts (disk_config (fs w)) 56 in
  main_outcome run = Ok RunnerCalledWithNone
  /\ exists e,
       main_events run
       = map Inner [EvDump c; EvLaunch c; EvPrint (MsgErrorRunning e);
                    EvPrint (MsgRunFailed Probe); EvPrint MsgNoOptimal].
Proof.
  intros Hfail Hst run c. subst run c.
  destruct (mkdir_results_steady d w Hst) as (w1 & Hmk & Hst1 & Hc1).
  pose proof (mkdir_results_runs _ _ _ _ _ Hmk) as Hr1.
  assert (Hadj : exists w2 e,
            adjust_user_count echoswift (S fuel) w1
            = (Ok None, w2,
               [EvDump (set_user_counts (disk_config (fs w)) 56);
                EvLaunch (set_user_counts (disk_config (fs w)) 56);
                EvPrint (MsgErrorRunning e);
                EvPrint (MsgRunFailed Probe); EvPrint MsgNoOptimal])).
  { unfold adjust_user_count. unfold bind at 1, json_load.
    rewrite (proj1 Hst1).
    destruct (mkdir_results_steady d w1 Hst1) as (w1' & Hmk' & _ & Hc1').
    pose proof (mkdir_results_runs _ _ _ _ _ Hmk') as Hr1'.
    unfold bind at 1. rewrite Hmk'.
    cbn [adjust_user_count_loop user_count config].
    unfold run_benchmark, subprocess_run. unfold_monad.
    cbn [fs runs]. rewrite Hr1', Hr1, Hc1.
    match goal with
    | |- context [echoswift (runs w) ?f] =>
        pose proof (Hfail f) as Hf; destruct (echoswift (runs w) f)
    end; [| |contradiction]; cbn; do 2 eexists; reflexivity. }
  destruct Hadj as (w2 & e & Hadj).
  assert (Hmain : main echoswift true (S fuel) interrupt_after w
                  = (Ok RunnerCalledWithNone, w2,
                     map Inner
                       [EvDump (set_user_counts (disk_config (fs w)) 56);
                        EvLaunch (set_user_counts (disk_config (fs w)) 56);
                        EvPrint (MsgErrorRunning e);
                        EvPrint (MsgRunFailed Probe); EvPrint MsgNoOptimal])).
  { unfold main.
    unfold main_bind at 1, inner at 1, json_load.
    rewrite (proj1 Hst).
    unfold main_bind at 1, inner at 1. rewrite Hmk.
    unfold main_bind at 1, inner at 1. rewrite Hadj.
    unfold main_bind, main_ret. reflexivity. }
  rewrite Hmain. unfold main_outcome, main_events. cbn [fst snd].
  split; [reflexivity|]. exists e. reflexivity.
Qed.

Lemma main_starts_runner_without_count_witness :
  let run := main missing_binary true 1 3 fresh_world in
  let c := set_user_counts (disk_config (fs fresh_world)) 56 in
  main_outcome run = Ok RunnerCalledWithNone
  /\ exists e,
       main_events run
       = map Inner [EvDump c; EvLaunch c; EvPrint (MsgErrorRunning e);
                    EvPrint (MsgRunFailed Probe); EvPrint MsgNoOptimal].
Proof.
  apply (main_starts_runner_without_count missing_binary "out" 0 3 fresh_world).
  - intros f. exact I.
  - split; reflexivity.
Defined.

(** ** From the probe to the binary search *)

Lemma realises_ext (echoswift : benchmark) (acc acc' : Z -> bool) (d : string) :
  (forall n, acc n = acc' n) ->
  realises echoswift acc d -> realises echoswift acc' d.
Proof.
  intros Heq Hreal k f n Hst Huc.
  destruct (Hreal k f n Hst Huc) as (rc & el & f' & df & ttft & lpt & H).
  exists rc, el, f', df, ttft, lpt. rewrite <- Heq. exact H.
Qed.




